(** * OpenEnsembles: validation metrics and the bookkeeping around them

    A shallow embedding of [validation.py] (the cluster validity indices) and
    of the [data], [cluster] and [validation] classes of [openensembles.py].

    Numbers.  The metrics are embedded over exact numbers: numpy's
    [float64] and Python's [float] are modelled by [f64], an exact real
    number or one of the IEEE special values [+inf], [-inf], [nan].  Finite
    arithmetic is exact (no rounding, no overflow, no signed zero); the
    special values follow the IEEE rules.  This reading decides which branch
    a metric takes, which exception it raises on a degenerate input, and
    what it computes up to rounding.  Python distinguishes three kinds of
    scalars ([int], [float], [numpy.float64]) and the kind decides whether a
    division by zero raises [ZeroDivisionError] or yields [nan]/[inf] with a
    [RuntimeWarning]; [pynum] keeps the kind.

    What depends on rounding, on the range of a double or on an exception
    of a numerical library is stated over IEEE binary64 numbers: [Ball_Hall],
    [Banfeld_Raferty] and [log_ss_ratio] are embedded a second time in
    module [b64], over the kernel's primitive floats.

    Effects.  Exceptions are an [outcome]; warnings are collected in a list
    next to it ([W]).  Methods take the receiver and give it back. *)

From Stdlib Require Import Floats.
From Stdlib Require Import String Ascii DecimalString.
From Stdlib Require Import QArith.
From Stdlib Require Import Reals Lra ZArith Lia List Bool Permutation.
Import ListNotations.
Open Scope string_scope.
Open Scope list_scope.

(* ================================================================== *)
(** * Python exceptions, warnings and the monad of fallible code *)

Inductive exn : Type :=
| ValueError (msg : string)
| ZeroDivisionError
| OverflowError (msg : string)
| KeyError (key : string)
| IndexError
| AttributeError (name : string)
| InputError (msg : string).

Inductive warning : Type :=
| UserWarning (msg : string)
| RuntimeWarning (msg : string).

Inductive outcome (A : Type) : Type :=
| Ok (a : A)
| Raise (e : exn).
Arguments Ok {A} a.
Arguments Raise {A} e.

(** A computation that may raise and may emit warnings on the way. *)
Definition W (A : Type) : Type := (outcome A * list warning)%type.

Definition ret {A} (a : A) : W A := (Ok a, []).
Definition raise {A} (e : exn) : W A := (Raise e, []).
Definition warn (w : warning) : W unit := (Ok tt, [w]).

Definition bind {A B} (m : W A) (k : A -> W B) : W B :=
  match m with
  | (Ok a, w) => let (r, w') := k a in (r, w ++ w')
  | (Raise e, w) => (Raise e, w)
  end.

Declare Scope py_scope.
Delimit Scope py_scope with py.
Notation "x <- m ;; k" := (bind m (fun x => k))
  (at level 61, m at next level, right associativity) : py_scope.
Notation "' p <- m ;; k" := (bind m (fun x => match x with p => k end))
  (at level 61, p pattern, m at next level, right associativity) : py_scope.
Notation "m ;;; k" := (bind m (fun _ => k))
  (at level 61, right associativity) : py_scope.
Open Scope py_scope.

(** What the caller observes of a result: the value or the exception. *)
Definition out {A} (m : W A) : outcome A := fst m.

Definition lift {A} (o : outcome A) : W A := (o, []).

(** [for x in l: a = f(a, x)], stopping at the first exception. *)
Fixpoint foldM {A B} (f : A -> B -> W A) (l : list B) (a : A) : W A :=
  match l with
  | [] => ret a
  | x :: l' => a' <- f a x ;; foldM f l' a'
  end.

Fixpoint mapM {A B} (f : A -> W B) (l : list A) : W (list B) :=
  match l with
  | [] => ret []
  | x :: l' => y <- f x ;; ys <- mapM f l' ;; ret (y :: ys)
  end.

(** [range(n)] and [range(a, b)] over Python ints. *)
Definition range_ (n : Z) : list Z := map Z.of_nat (seq 0 (Z.to_nat n)).
Definition range2 (a b : Z) : list Z :=
  map (fun k => (a + Z.of_nat k)%Z) (seq 0 (Z.to_nat (b - a))).

(** [l[i]] on a Python sequence with a non-negative index. *)
Definition py_index {A} (l : list A) (i : Z) : W A :=
  if (i <? 0)%Z then raise IndexError
  else match nth_error l (Z.to_nat i) with
       | Some a => ret a
       | None => raise IndexError
       end.

(* ================================================================== *)
(** * Doubles as exact numbers *)

Open Scope R_scope.

Inductive f64 : Type :=
| Fin (r : R)
| PInf
| NInf
| NaN.

Definition fzero : f64 := Fin 0.

Definition fneg (a : f64) : f64 :=
  match a with
  | Fin r => Fin (- r)
  | PInf => NInf
  | NInf => PInf
  | NaN => NaN
  end.

Definition fadd (a b : f64) : f64 :=
  match a, b with
  | NaN, _ | _, NaN => NaN
  | Fin x, Fin y => Fin (x + y)
  | PInf, NInf | NInf, PInf => NaN
  | PInf, _ | _, PInf => PInf
  | NInf, _ | _, NInf => NInf
  end.

Definition fsub (a b : f64) : f64 := fadd a (fneg b).

(** An infinity of sign [pos] times (or divided by) a finite [r]. *)
Definition inf_signed (pos : bool) : f64 := if pos then PInf else NInf.

Definition inf_times (pos : bool) (r : R) : f64 :=
  if Req_EM_T r 0 then NaN
  else if Rlt_dec 0 r then inf_signed pos else inf_signed (negb pos).

Definition fmul (a b : f64) : f64 :=
  match a, b with
  | NaN, _ | _, NaN => NaN
  | Fin x, Fin y => Fin (x * y)
  | PInf, Fin y | Fin y, PInf => inf_times true y
  | NInf, Fin y | Fin y, NInf => inf_times false y
  | PInf, PInf | NInf, NInf => PInf
  | PInf, NInf | NInf, PInf => NInf
  end.

(** IEEE division, as numpy performs it: [x/0] is an infinity, [0/0] is nan. *)
Definition fdiv (a b : f64) : f64 :=
  match a, b with
  | NaN, _ | _, NaN => NaN
  | Fin x, Fin y =>
      if Req_EM_T y 0 then
        if Req_EM_T x 0 then NaN
        else if Rlt_dec 0 x then PInf else NInf
      else Fin (x / y)
  | Fin _, (PInf | NInf) => Fin 0
  | PInf, Fin y => if Rlt_dec y 0 then NInf else PInf
  | NInf, Fin y => if Rlt_dec y 0 then PInf else NInf
  | (PInf | NInf), (PInf | NInf) => NaN
  end.

Definition fsqrt (a : f64) : f64 :=
  match a with
  | Fin r => if Rlt_dec r 0 then NaN else Fin (sqrt r)
  | PInf => PInf
  | NInf | NaN => NaN
  end.

Definition fltb (a b : f64) : bool :=
  match a, b with
  | NaN, _ | _, NaN => false
  | Fin x, Fin y => if Rlt_dec x y then true else false
  | NInf, NInf => false
  | NInf, _ => true
  | _, NInf => false
  | PInf, _ => false
  | Fin _, PInf => true
  end.

Definition feqb (a b : f64) : bool :=
  match a, b with
  | Fin x, Fin y => if Req_EM_T x y then true else false
  | PInf, PInf | NInf, NInf => true
  | _, _ => false
  end.

Definition fgtb (a b : f64) : bool := fltb b a.
Definition fleb (a b : f64) : bool := fltb a b || feqb a b.

Definition fis_zero (a : f64) : bool := feqb a fzero.

(** [sum] of a float array, left to right from 0.0. *)
Definition fsum (l : list f64) : f64 := fold_left fadd l fzero.

(* ================================================================== *)
(** * Python scalars: int, float, numpy.float64 *)

Inductive pynum : Type :=
| PyInt (z : Z)
| PyFloat (x : f64)
| NpFloat (x : f64).

Definition to_f64 (a : pynum) : f64 :=
  match a with
  | PyInt z => Fin (IZR z)
  | PyFloat x | NpFloat x => x
  end.

Definition is_np (a : pynum) : bool :=
  match a with NpFloat _ => true | _ => false end.

(** The result kind of a mixed float operation: numpy wins over Python. *)
Definition wrap (np : bool) (x : f64) : pynum :=
  if np then NpFloat x else PyFloat x.

Definition py_add (a b : pynum) : pynum :=
  match a, b with
  | PyInt x, PyInt y => PyInt (x + y)
  | _, _ => wrap (is_np a || is_np b) (fadd (to_f64 a) (to_f64 b))
  end.

Definition py_sub (a b : pynum) : pynum :=
  match a, b with
  | PyInt x, PyInt y => PyInt (x - y)
  | _, _ => wrap (is_np a || is_np b) (fsub (to_f64 a) (to_f64 b))
  end.

Definition py_mul (a b : pynum) : pynum :=
  match a, b with
  | PyInt x, PyInt y => PyInt (x * y)
  | _, _ => wrap (is_np a || is_np b) (fmul (to_f64 a) (to_f64 b))
  end.

Definition py_is_zero (a : pynum) : bool :=
  match a with
  | PyInt z => (z =? 0)%Z
  | PyFloat x | NpFloat x => fis_zero x
  end.

(** The warning numpy attaches to a scalar division, if any. *)
Definition np_div_warning (x y : f64) : list warning :=
  match x, y with
  | NaN, _ | _, NaN => []
  | (PInf | NInf), (PInf | NInf) =>
      [RuntimeWarning "invalid value encountered in scalar divide"]
  | Fin _, Fin _ =>
      if fis_zero y then
        if fis_zero x
        then [RuntimeWarning "invalid value encountered in scalar divide"]
        else [RuntimeWarning "divide by zero encountered in scalar divide"]
      else []
  | (PInf | NInf), Fin _ =>
      if fis_zero y
      then [RuntimeWarning "divide by zero encountered in scalar divide"]
      else []
  | Fin _, (PInf | NInf) => []
  end.

(** [a / b].  Between Python scalars a zero divisor raises; as soon as one
    operand is a numpy scalar the IEEE result comes back with a warning. *)
Definition py_truediv (a b : pynum) : W pynum :=
  if is_np a || is_np b then
    (Ok (NpFloat (fdiv (to_f64 a) (to_f64 b))),
     np_div_warning (to_f64 a) (to_f64 b))
  else if py_is_zero b then raise ZeroDivisionError
  else ret (PyFloat (fdiv (to_f64 a) (to_f64 b))).

Definition py_lt (a b : pynum) : bool := fltb (to_f64 a) (to_f64 b).
Definition py_gt (a b : pynum) : bool := fgtb (to_f64 a) (to_f64 b).
Definition py_le (a b : pynum) : bool := fleb (to_f64 a) (to_f64 b).

(** [math.pow(x, 2)]: a Python float.  Exact numbers have no largest one;
    the [OverflowError] of a square beyond the range of a double is in
    [b64.math_pow2]. *)
Definition math_pow2 (a : pynum) : pynum :=
  PyFloat (fmul (to_f64 a) (to_f64 a)).

(** [math.log(x)]: a Python float, or [ValueError] outside the domain. *)
Definition math_log (a : pynum) : W pynum :=
  match to_f64 a with
  | Fin r => if Rlt_dec 0 r then ret (PyFloat (Fin (ln r)))
             else raise (ValueError "math domain error")
  | PInf => ret (PyFloat PInf)
  | NInf => raise (ValueError "math domain error")
  | NaN => ret (PyFloat NaN)
  end.

(** [math.sqrt(x)]. *)
Definition math_sqrt (a : pynum) : W pynum :=
  match to_f64 a with
  | Fin r => if Rlt_dec r 0 then raise (ValueError "math domain error")
             else ret (PyFloat (Fin (sqrt r)))
  | PInf => ret (PyFloat PInf)
  | NInf => raise (ValueError "math domain error")
  | NaN => ret (PyFloat NaN)
  end.

(** The builtin [sum] over an iterable of numpy scalars: starts from the
    int 0, so an empty iterable gives the int 0. *)
Definition py_sum (l : list f64) : pynum :=
  fold_left (fun s x => py_add s (NpFloat x)) l (PyInt 0).

(* ================================================================== *)
(** * numpy arrays and scipy distances *)

Definition vector : Type := list f64.
(** A 2-D array is the list of its rows; numpy keeps it rectangular. *)
Definition matrix : Type := list vector.

(** [X.shape[1]]; a matrix without rows is taken to have no columns. *)
Definition ncols {A} (X : list (list A)) : nat :=
  match X with [] => 0%nat | r :: _ => length r end.

(** [X[:, j]] *)
Definition column (j : nat) (X : matrix) : vector :=
  map (fun r => nth j r fzero) X.

Fixpoint replace_nth {A} (j : nat) (x : A) (l : list A) : list A :=
  match l, j with
  | [], _ => []
  | _ :: l', O => x :: l'
  | y :: l', S j' => y :: replace_nth j' x l'
  end.

(** [X[:, j] = v], in place. *)
Definition set_column (j : nat) (v : vector) (X : matrix) : matrix :=
  map (fun p => replace_nth j (snd p) (fst p)) (combine X v).

(** [np.mean(v)]: the sum over the count; [nan] for an empty array (numpy
    also warns of the empty slice; that warning is not collected here). *)
Definition np_mean (v : vector) : f64 :=
  fdiv (fsum v) (Fin (INR (length v))).

(** [np.mean(X, 0)] for an array with [m] columns. *)
Definition np_mean_axis0 (m : nat) (X : matrix) : vector :=
  map (fun j => np_mean (column j X)) (seq 0 m).

(** [np.mean(X)] over all entries of a 2-D array. *)
Definition np_mean_all (X : matrix) : f64 := np_mean (concat X).

(** The Euclidean distance of two vectors of one length, as
    [scipy.spatial.distance.euclidean(u, v)] gives it on finite vectors and
    as [pdist] and [cdist] give it for a pair of rows.  scipy's [euclidean]
    returns a Python float, and refuses a difference that holds an infinity
    or a nan ([b64.euclidean]); [pdist] and [cdist] do not check. *)
Definition euclidean (u v : vector) : f64 :=
  fsqrt (fsum (map (fun p => let d := fsub (fst p) (snd p) in fmul d d)
                   (combine u v))).

(** [distance.pdist(X)]: the distances of the row pairs (i, j), i < j, in
    row-major order. *)
Fixpoint pdist (X : matrix) : list f64 :=
  match X with
  | [] => []
  | r :: X' => map (euclidean r) X' ++ pdist X'
  end.

(** [distance.cdist(A, B)] *)
Definition cdist (A B : matrix) : matrix :=
  map (fun a => map (euclidean a) B) A.

(** [[t for t, x in enumerate(labels) if x == i]] *)
Definition indices_of (L : list Z) (i : Z) : list nat :=
  map fst (filter (fun p => (snd p =? i)%Z) (combine (seq 0 (length L)) L)).

(** [X[indices, :]]: a fresh array holding the chosen rows. *)
Definition take_rows {A} (X : list A) (indices : list nat) : W (list A) :=
  mapM (fun t => match nth_error X t with
                 | Some r => ret r
                 | None => raise IndexError
                 end) indices.

(** The rows of [X] whose label is [i], in row order: what
    [X[indices_of L i, :]] holds when there is one label per row. *)
Definition cluster_rows {A} (X : list A) (L : list Z) (i : Z) : list A :=
  map snd (filter (fun p => (fst p =? i)%Z) (combine L X)).

(** [len(X[0])] *)
Definition len_first_row (X : matrix) : W nat :=
  match X with
  | [] => raise IndexError
  | r :: _ => ret (length r)
  end.

(** [max(labels)] *)
Definition py_max (L : list Z) : W Z :=
  match L with
  | [] => raise (ValueError "max() arg is an empty sequence")
  | x :: l => ret (fold_left Z.max l x)
  end.

(** [max(l)] on a list of numpy scalars: the first element no later one
    exceeds. *)
Definition py_max_f64 (l : list f64) : W f64 :=
  match l with
  | [] => raise (ValueError "max() arg is an empty sequence")
  | x :: l' => ret (fold_left (fun m y => if fgtb y m then y else m) l' x)
  end.

(** [np.unique(labels)]: the distinct values in increasing order. *)
Fixpoint insert_unique (x : Z) (l : list Z) : list Z :=
  match l with
  | [] => [x]
  | y :: l' => if (x <? y)%Z then x :: l
               else if (x =? y)%Z then l
               else y :: insert_unique x l'
  end.

Definition np_unique (L : list Z) : list Z := fold_right insert_unique [] L.

(** [sorted(l)] and [sorted(l, reverse=True)] on floats. *)
Fixpoint insert_asc (x : f64) (l : list f64) : list f64 :=
  match l with
  | [] => [x]
  | y :: l' => if fltb x y then x :: l else y :: insert_asc x l'
  end.

Fixpoint insert_desc (x : f64) (l : list f64) : list f64 :=
  match l with
  | [] => [x]
  | y :: l' => if fgtb x y then x :: l else y :: insert_desc x l'
  end.

Definition py_sorted (l : list f64) : list f64 := fold_right insert_asc [] l.
Definition py_sorted_rev (l : list f64) : list f64 := fold_right insert_desc [] l.

(** [np.zeros((n, m))] *)
Definition np_zeros (n m : nat) : matrix := repeat (repeat fzero m) n.

(** [A + B] on arrays of one shape. *)
Definition mat_add (A B : matrix) : matrix :=
  map (fun p => map (fun q => fadd (fst q) (snd q)) (combine (fst p) (snd p)))
      (combine A B).

(** [np.dot(np.transpose(X), X)] for an array with [m] columns. *)
Definition gram (m : nat) (X : matrix) : matrix :=
  map (fun a =>
         map (fun b => fsum (map (fun r => fmul (nth a r fzero) (nth b r fzero)) X))
             (seq 0 m))
      (seq 0 m).

Definition drop_col (j : nat) (r : vector) : vector :=
  firstn j r ++ skipn (S j) r.

(** [np.linalg.det]: the determinant, by expansion along the first row. *)
Fixpoint det_n (n : nat) (A : matrix) : f64 :=
  match n, A with
  | S n', r :: A' =>
      fsum (map (fun j =>
                   let c := fmul (nth j r fzero) (det_n n' (map (drop_col j) A')) in
                   if Nat.even j then c else fneg c)
                (seq 0 (length r)))
  | _, _ => Fin 1
  end.

Definition np_linalg_det (A : matrix) : f64 := det_n (length A) A.

(** The loop
    [for j in range(attributes): X[:, j] = X[:, j] - np.mean(X[:, j])],
    which centres every column of [X] in place. *)
Definition center_columns (attributes : nat) (X : matrix) : matrix :=
  fold_left (fun X j =>
               let columnVec := column j X in
               let columnCenter := np_mean columnVec in
               set_column j (map (fun x => fsub x columnCenter) columnVec) X)
            (seq 0 attributes) X.

(* ================================================================== *)
(** * Methods: computations on a receiver object *)

(** A method reads and updates its receiver [S]; the updates made before an
    exception stay. *)
Definition M (S A : Type) : Type := S -> W A * S.

Definition retS {S A} (a : A) : M S A := fun s => (ret a, s).
Definition liftW {S A} (m : W A) : M S A := fun s => (m, s).
Definition getS {S} : M S S := fun s => (ret s, s).
Definition modifyS {S} (f : S -> S) : M S unit := fun s => (ret tt, f s).

Definition bindS {S A B} (m : M S A) (k : A -> M S B) : M S B :=
  fun s =>
    match m s with
    | ((Ok a, w), s1) =>
        match k a s1 with
        | ((r, w'), s2) => ((r, w ++ w'), s2)
        end
    | ((Raise e, w), s1) => ((Raise e, w), s1)
    end.

Notation "x <~ m ;; k" := (bindS m (fun x => k))
  (at level 61, m at next level, right associativity) : py_scope.
Notation "' p <~ m ;; k" := (bindS m (fun x => match x with p => k end))
  (at level 61, p pattern, m at next level, right associativity) : py_scope.
Notation "m ;;~ k" := (bindS m (fun _ => k))
  (at level 61, right associativity) : py_scope.

Fixpoint foldMS {S A B} (f : A -> B -> M S A) (l : list B) (a : A) : M S A :=
  match l with
  | [] => retS a
  | x :: l' => a' <~ f a x ;; foldMS f l' a'
  end.

(** The parts of a method call: result, warnings, receiver afterwards. *)
Definition result_of {S A} (r : W A * S) : outcome A := fst (fst r).
Definition warnings_of {S A} (r : W A * S) : list warning := snd (fst r).
Definition state_of {S A} (r : W A * S) : S := snd r.

(* ================================================================== *)
(** * validation.py: the validation metrics *)

Module val.

(** The class [validation] of validation.py: the data matrix, the labels,
    and the last score with its description. *)
Record validation : Type := mk {
  dataMatrix : matrix;
  classLabel : list Z;
  validation_ : pynum;
  description : string
}.

(** [__init__(data, labels)]: the score starts as [np.nan]. *)
Definition init (data : matrix) (labels : list Z) : validation :=
  {| dataMatrix := data; classLabel := labels;
     validation_ := PyFloat NaN; description := "" |}.

Definition set_dataMatrix (X : matrix) (self : validation) : validation :=
  {| dataMatrix := X; classLabel := classLabel self;
     validation_ := validation_ self; description := description self |}.

Definition set_validation (v : pynum) (self : validation) : validation :=
  {| dataMatrix := dataMatrix self; classLabel := classLabel self;
     validation_ := v; description := description self |}.

Definition set_description (d : string) (self : validation) : validation :=
  {| dataMatrix := dataMatrix self; classLabel := classLabel self;
     validation_ := validation_ self; description := d |}.

(** The shape shared by most metrics: set the description, compute the
    fitness from the data matrix and the labels, store and return it. *)
Definition method (desc : string) (core : matrix -> list Z -> W pynum)
  : M validation pynum :=
  modifyS (set_description desc) ;;~
  self <~ getS ;;
  v <~ liftW (core (dataMatrix self) (classLabel self)) ;;
  modifyS (set_validation v) ;;~
  retS v.

(** [numCluster = max(self.classLabel) + 1]

    The labels are modelled as Python integers, so the count is a Python
    integer too, and a division by it follows the rules of Python
    scalars. *)
Definition numCluster_max (L : list Z) : W Z :=
  m <- py_max L ;; ret (m + 1)%Z.

(** [numCluster = len(np.unique(self.classLabel))] *)
Definition numCluster_unique (L : list Z) : Z :=
  Z.of_nat (length (np_unique L)).

Definition len {A} (l : list A) : Z := Z.of_nat (length l).

(** [for member in clusterMember:
       sumDis = sumDis + math.pow(distance.euclidean(member, clusterCenter), 2)] *)
Definition sum_sq_dist (clusterMember : matrix) (clusterCenter : vector) : pynum :=
  fold_left (fun sumDis member =>
               py_add sumDis (math_pow2 (PyFloat (euclidean member clusterCenter))))
            clusterMember (PyInt 0).

(** ** Ball_Hall *)
Definition Ball_Hall_core (D : matrix) (L : list Z) : W pynum :=
  let numCluster := numCluster_unique L in
  sumTotal <-
    foldM (fun sumTotal i =>
             let indices := indices_of L i in
             clusterMember <- take_rows D indices ;;
             let clusterCenter := np_mean_axis0 (ncols D) clusterMember in
             let sumDis := sum_sq_dist clusterMember clusterCenter in
             q <- py_truediv sumDis (PyInt (len indices)) ;;
             ret (py_add sumTotal q))
          (range_ numCluster) (PyInt 0) ;;
  py_truediv sumTotal (PyInt numCluster).

Definition Ball_Hall : M validation pynum :=
  method "Mean of the mean dispersions across all clusters" Ball_Hall_core.

(** ** Banfeld_Raferty.  [self.validation] is assigned inside the loop, in
    the branch of a cluster with a positive dispersion. *)
Definition Banfeld_Raferty : M validation pynum :=
  modifyS (set_description
    "Weighted sum of the logarithms of the traces of the variance-covariance matrix of each cluster") ;;~
  self <~ getS ;;
  let D := dataMatrix self in
  let L := classLabel self in
  numCluster <~ liftW (numCluster_max L) ;;
  foldMS (fun sumTotal i =>
            let indices := indices_of L i in
            clusterMember <~ liftW (take_rows D indices) ;;
            let clusterCenter := np_mean_axis0 (ncols D) clusterMember in
            let sumDis := sum_sq_dist clusterMember clusterCenter in
            q <~ liftW (py_truediv sumDis (PyInt (len indices))) ;;
            if py_le q (PyInt 0) then
              liftW (warn (UserWarning
                "Cannot calculate Banfeld_Raferty, due to an undefined value")) ;;~
              retS sumTotal
            else
              q' <~ liftW (py_truediv sumDis (PyInt (len indices))) ;;
              lg <~ liftW (math_log q') ;;
              let sumTotal := py_add sumTotal (py_mul (PyInt (len indices)) lg) in
              modifyS (set_validation sumTotal) ;;~
              retS sumTotal)
         (range_ numCluster) (PyInt 0) ;;~
  self <~ getS ;;
  retS (validation_ self).

(** ** Baker_Hubert_Gamma and g_plus_index *)

(** [temp = np.zeros((len(labels), 2)); temp[:, 0] = labels] *)
Definition label_matrix (L : list Z) : matrix :=
  map (fun l => [Fin (IZR l); fzero]) L.

(** [a and b], evaluating [b] only when [a] holds. *)
Definition and_lazy (a b : W bool) : W bool :=
  x <- a ;; if x then b else ret false.

Definition gt0 (v : list f64) (i : Z) : W bool :=
  x <- py_index v i ;; ret (fgtb x fzero).
Definition eq0 (v : list f64) (i : Z) : W bool :=
  x <- py_index v i ;; ret (feqb x fzero).
Definition lt_at (u : list f64) (i : Z) (v : list f64) (j : Z) : W bool :=
  x <- py_index u i ;; y <- py_index v j ;; ret (fltb x y).
Definition gt_at (u : list f64) (i : Z) (v : list f64) (j : Z) : W bool :=
  x <- py_index u i ;; y <- py_index v j ;; ret (fgtb x y).
Definition incr_if (c : bool) (n : Z) : Z := if c then (n + 1)%Z else n.

Definition Baker_Hubert_Gamma_core (D : matrix) (L : list Z) : W pynum :=
  let pairDis := pdist D in
  let numPair := len pairDis in
  let vecB := pdist (label_matrix L) in
  '(splus, sminus) <-
    foldM (fun acc i =>
      foldM (fun '(splus, sminus) j =>
               c1 <- and_lazy (gt0 vecB i) (eq0 vecB j) ;;
               '(splus, sminus) <-
                 (if c1 : bool then
                    a <- lt_at pairDis i pairDis j ;;
                    b <- gt_at pairDis i vecB j ;;
                    ret (incr_if a splus, incr_if b sminus)
                  else ret (splus, sminus)) ;;
               c2 <- and_lazy (eq0 vecB i) (gt0 vecB j) ;;
               if c2 : bool then
                 a <- lt_at pairDis j pairDis i ;;
                 b <- gt_at pairDis j vecB i ;;
                 ret (incr_if a splus, incr_if b sminus)
               else ret (splus, sminus))
            (range2 (i + 1) numPair) acc)
    (range_ (numPair - 1)) (0%Z, 0%Z) ;;
  py_truediv (PyInt (splus - sminus)) (PyInt (splus + sminus)).

Definition Baker_Hubert_Gamma : M validation pynum :=
  method "Gamma Index: a measure of compactness" Baker_Hubert_Gamma_core.

Definition g_plus_index_core (D : matrix) (L : list Z) : W pynum :=
  let pairDis := pdist D in
  let numPair := len pairDis in
  let vecB := pdist (label_matrix L) in
  sminus <-
    foldM (fun acc i =>
      foldM (fun sminus j =>
               c1 <- and_lazy (gt0 vecB i) (eq0 vecB j) ;;
               sminus <-
                 (if c1 : bool then
                    b <- gt_at pairDis i vecB j ;; ret (incr_if b sminus)
                  else ret sminus) ;;
               c2 <- and_lazy (eq0 vecB i) (gt0 vecB j) ;;
               if c2 : bool then
                 b <- gt_at pairDis j vecB i ;; ret (incr_if b sminus)
               else ret sminus)
            (range2 (i + 1) numPair) acc)
    (range_ (numPair - 1)) 0%Z ;;
  py_truediv (PyInt (2 * sminus)) (PyInt (numPair * (numPair - 1))).

Definition g_plus_index : M validation pynum :=
  method "The G_plus index, a measure of connectedness" g_plus_index_core.

(** ** det_ratio, ksq_detw_index, log_det_ratio *)

(** The pooled within-cluster scatter matrix [wg].  [clusterMember] is a
    fresh array (fancy indexing copies), so centring it leaves the data
    matrix alone. *)
Definition within_scatter (attributes : nat) (D : matrix) (L : list Z)
  (numCluster : Z) : W matrix :=
  foldM (fun wg i =>
           let indices := indices_of L i in
           clusterMember <- take_rows D indices ;;
           let xCluster := center_columns attributes clusterMember in
           ret (mat_add wg (gram attributes xCluster)))
        (range_ numCluster) (np_zeros attributes attributes).

(** [xData = self.dataMatrix] names the stored array itself, so the loop
    [xData[:, i] = columnVec - columnCenter] centres the stored data matrix
    in place. *)
Definition det_ratio : M validation pynum :=
  modifyS (set_description "Determinant ratio, a measure of connectedness") ;;~
  self <~ getS ;;
  attributes <~ liftW (len_first_row (dataMatrix self)) ;;
  numCluster <~ liftW (numCluster_max (classLabel self)) ;;
  wg <~ liftW (within_scatter attributes (dataMatrix self) (classLabel self)
                              numCluster) ;;
  modifyS (fun self =>
             set_dataMatrix (center_columns attributes (dataMatrix self)) self) ;;~
  self <~ getS ;;
  let xData := dataMatrix self in
  let t := gram attributes xData in
  v <~ liftW (py_truediv (NpFloat (np_linalg_det t)) (NpFloat (np_linalg_det wg))) ;;
  modifyS (set_validation v) ;;~
  retS v.

Definition ksq_detw_index_core (D : matrix) (L : list Z) : W pynum :=
  attributes <- len_first_row D ;;
  numCluster <- numCluster_max L ;;
  wg <- within_scatter attributes D L numCluster ;;
  ret (py_mul (math_pow2 (PyInt numCluster)) (NpFloat (np_linalg_det wg))).

Definition ksq_detw_index : M validation pynum :=
  method "The Ksq_DetW index, a measure of connectedness" ksq_detw_index_core.

Definition log_det_ratio : M validation pynum :=
  modifyS (set_description
             "The log determinant ratio index, a measure of connectedness") ;;~
  self <~ getS ;;
  let numObj := len (classLabel self) in
  r <~ det_ratio ;;
  lg <~ liftW (math_log r) ;;
  let v := py_mul (PyInt numObj) lg in
  modifyS (set_validation v) ;;~
  retS v.

(** ** c_index *)
Definition c_index_core (D : matrix) (L : list Z) : W pynum :=
  numCluster <- numCluster_max L ;;
  '(sw, nw) <-
    foldM (fun '(sw, nw) i =>
             let indices := indices_of L i in
             clusterMember <- take_rows D indices ;;
             let list_clusterDis := pdist clusterMember in
             ret (py_add sw (py_sum list_clusterDis),
                  (nw + len list_clusterDis)%Z))
          (range_ numCluster) (PyInt 0, 0%Z) ;;
  let list_dataDis := pdist D in
  let sortedList := py_sorted list_dataDis in
  let smin := py_sum (firstn (Z.to_nat nw) sortedList) in
  let sortedList := py_sorted_rev list_dataDis in
  let smax := py_sum (firstn (Z.to_nat nw) sortedList) in
  py_truediv (py_sub sw smin) (py_sub smax smin).

Definition c_index : M validation pynum :=
  method "The C-Index, a measure of cluster compactness" c_index_core.

(** ** log_ss_ratio *)
Definition log_ss_ratio_core (D : matrix) (L : list Z) : W pynum :=
  numCluster <- numCluster_max L ;;
  let dataCenter := np_mean_axis0 (ncols D) D in
  '(bgss, wgss) <-
    foldM (fun '(bgss, wgss) i =>
             let indices := indices_of L i in
             clusterMember <- take_rows D indices ;;
             let clusterCenter := np_mean_axis0 (ncols D) clusterMember in
             let bgss :=
               py_add bgss
                 (py_mul (PyInt (len indices))
                    (math_pow2 (PyFloat (euclidean clusterCenter dataCenter)))) in
             let sumTemp := sum_sq_dist clusterMember clusterCenter in
             ret (bgss, py_add wgss sumTemp))
          (range_ numCluster) (PyInt 0, PyInt 0) ;;
  q <- py_truediv bgss wgss ;;
  math_log q.

Definition log_ss_ratio : M validation pynum :=
  method "The log ss ratio, a measure of connectedness" log_ss_ratio_core.

(** ** McClain_Rao and point_biserial *)

(** The loops both metrics run: within-cluster distance sum [sw] and pair
    count [nw], and between-cluster distance sum [sb] over cluster pairs
    [i < j]. *)
Definition within_between (D : matrix) (L : list Z) (numCluster : Z)
  : W (pynum * pynum * Z) :=
  foldM (fun '(sw, sb, nw) i =>
           let indices := indices_of L i in
           clusterMember <- take_rows D indices ;;
           let pairDis := pdist clusterMember in
           let sw := py_add sw (py_sum pairDis) in
           let nw := (nw + len pairDis)%Z in
           sb <- foldM (fun sb j =>
                          if (j >? i)%Z then
                            let indices2 := indices_of L j in
                            clusterMember2 <- take_rows D indices2 ;;
                            let betweenDis := cdist clusterMember clusterMember2 in
                            ret (py_add sb (py_sum (concat betweenDis)))
                          else ret sb)
                       (range_ numCluster) sb ;;
           ret (sw, sb, nw))
        (range_ numCluster) (PyInt 0, PyInt 0, 0%Z).

Definition McClain_Rao_core (D : matrix) (L : list Z) : W pynum :=
  let numObj := len L in
  numCluster <- numCluster_max L ;;
  '(sw, sb, nw) <- within_between D L numCluster ;;
  h <- py_truediv (PyInt (numObj * (numObj - 1))) (PyInt 2) ;;
  let nb := py_sub h (PyInt nw) in
  py_truediv (py_mul nb sw) (py_mul (PyInt nw) sb).

Definition McClain_Rao : M validation pynum :=
  method "The McClain-Rao Index, a measure of compactness" McClain_Rao_core.

Definition point_biserial_core (D : matrix) (L : list Z) : W pynum :=
  let numObj := len L in
  numCluster <- numCluster_max L ;;
  nt <- py_truediv (PyInt (numObj * (numObj - 1))) (PyInt 2) ;;
  '(sw, sb, nw) <- within_between D L numCluster ;;
  let nb := py_sub nt (PyInt nw) in
  a <- py_truediv sw (PyInt nw) ;;
  b <- py_truediv sb nb ;;
  s <- math_sqrt (py_mul (PyInt nw) nb) ;;
  py_truediv (py_mul (py_sub a b) s) nt.

Definition point_biserial : M validation pynum :=
  method "The Point-Biserial index, a measure of connectedness" point_biserial_core.

(** ** PBM_index *)
Definition PBM_index_core (D : matrix) (L : list Z) : W pynum :=
  numCluster <- numCluster_max L ;;
  let dataCenter := np_mean_axis0 (ncols D) D in
  '(ew, et, list_centerDis) <-
    foldM (fun '(ew, et, list_centerDis) i =>
             let indices := indices_of L i in
             clusterMember <- take_rows D indices ;;
             let clusterCenter := np_mean_axis0 (ncols D) clusterMember in
             let list_centerDis :=
               list_centerDis ++ [euclidean dataCenter clusterCenter] in
             let '(ew, et) :=
               fold_left (fun '(ew, et) member =>
                            (py_add ew (PyFloat (euclidean member clusterCenter)),
                             py_add et (PyFloat (euclidean member dataCenter))))
                         clusterMember (ew, et) in
             ret (ew, et, list_centerDis))
          (range_ numCluster) (PyInt 0, PyInt 0, []) ;;
  db <- py_max_f64 list_centerDis ;;
  q <- py_truediv (py_mul et (PyFloat db)) (py_mul (PyInt numCluster) ew) ;;
  ret (math_pow2 q).

Definition PBM_index : M validation pynum :=
  method "The PBM index, a measure of compactness" PBM_index_core.

(** ** Ratkowsky_Lance.  [columnCluster] holds whole rows of the cluster and
    [np.mean(columnCluster)] averages all of their entries. *)
Definition Ratkowsky_Lance_core (D : matrix) (L : list Z) : W pynum :=
  attributes <- len_first_row D ;;
  numCluster <- numCluster_max L ;;
  list_divide <-
    foldM (fun list_divide i =>
             let columnVec := column i D in
             let columnCenter := np_mean columnVec in
             bgssj <-
               foldM (fun bgssj j =>
                        let indices := indices_of L j in
                        columnCluster <- take_rows D indices ;;
                        let centerCluster := np_mean_all columnCluster in
                        ret (py_add bgssj
                               (py_mul (PyInt (len indices))
                                  (math_pow2
                                     (NpFloat (fsub centerCluster columnCenter))))))
                     (range_ numCluster) (PyInt 0) ;;
             let tssj :=
               fold_left (fun tssj member =>
                            py_add tssj
                              (math_pow2 (NpFloat (fsub member columnCenter))))
                         columnVec (PyInt 0) in
             q <- py_truediv bgssj tssj ;;
             ret (list_divide ++ [q]))
          (seq 0 attributes) [] ;;
  r <- py_truediv (fold_left py_add list_divide (PyInt 0))
                  (PyInt (Z.of_nat attributes)) ;;
  q <- py_truediv r (PyInt numCluster) ;;
  math_sqrt q.

Definition Ratkowsky_Lance : M validation pynum :=
  method "The Ratkowsky-Lance index, a measure of compactness" Ratkowsky_Lance_core.

Section Sklearn.

(** [sklearn.metrics.silhouette_score(X, labels, metric='euclidean')], a
    function of scikit-learn: a numpy scalar, or an exception. *)
Variable silhouette_score : matrix -> list Z -> W f64.

Definition silhouette_core (D : matrix) (L : list Z) : W pynum :=
  metric <- silhouette_score D L ;; ret (NpFloat metric).

Definition silhouette : M validation pynum :=
  method "Silhouette: A combination of connectedness and compactness that measures within versus to the nearest neighbor outside a cluster. A smaller value, the better the solution"
         silhouette_core.

(** [getattr(v, name)] for the names of [validation_metrics_available]. *)
Definition metric_by_name (name : string) : option (M validation pynum) :=
  if String.eqb name "Baker_Hubert_Gamma" then Some Baker_Hubert_Gamma
  else if String.eqb name "Ball_Hall" then Some Ball_Hall
  else if String.eqb name "Banfeld_Raferty" then Some Banfeld_Raferty
  else if String.eqb name "McClain_Rao" then Some McClain_Rao
  else if String.eqb name "PBM_index" then Some PBM_index
  else if String.eqb name "Ratkowsky_Lance" then Some Ratkowsky_Lance
  else if String.eqb name "c_index" then Some c_index
  else if String.eqb name "det_ratio" then Some det_ratio
  else if String.eqb name "g_plus_index" then Some g_plus_index
  else if String.eqb name "ksq_detw_index" then Some ksq_detw_index
  else if String.eqb name "log_det_ratio" then Some log_det_ratio
  else if String.eqb name "log_ss_ratio" then Some log_ss_ratio
  else if String.eqb name "point_biserial" then Some point_biserial
  else if String.eqb name "silhouette" then Some silhouette
  else None.

End Sklearn.

(** [validation_metrics_available()]: the callable attributes of the object
    in the order of [dir], without the dunder names and without the listing
    method itself. *)
Definition validation_metrics_available : list string :=
  ["Baker_Hubert_Gamma"; "Ball_Hall"; "Banfeld_Raferty"; "McClain_Rao";
   "PBM_index"; "Ratkowsky_Lance"; "c_index"; "det_ratio"; "g_plus_index";
   "ksq_detw_index"; "log_det_ratio"; "log_ss_ratio"; "point_biserial";
   "silhouette"]%string.

End val.

(* ================================================================== *)
(** * Metrics in double precision

    The embedding above computes with exact numbers; it says what a metric
    computes when nothing is rounded and nothing overflows.  Here
    [Ball_Hall], [Banfeld_Raferty] and [log_ss_ratio], the metrics built on
    [math.pow(distance.euclidean(x, c), 2)], are embedded once more over
    IEEE binary64 numbers (the kernel's primitive floats), the arithmetic
    the code runs on: sums depend on the order of their terms, [math.pow]
    raises [OverflowError] and scipy's [euclidean] raises [ValueError] on an
    array that holds an infinity or a nan.

    The operators [+], [*], [/] and [<=] of the methods are Python's, hence
    IEEE operations.  What the numerical libraries compute inside a call is
    theirs: numpy's mean along axis 0, the BLAS routine [nrm2] behind
    [distance.euclidean], the C library's [pow(x, 2.0)] behind [math.pow]
    and its [log] behind [math.log] are parameters ([libraries]);
    [reference] holds their textbook versions, for closed examples.

    numpy's warnings of an overflow inside a call ([np.mean] on rows whose
    sum leaves the range of a double, the difference taken by [euclidean])
    are not collected: a mean or a difference is then not finite, and
    scipy's [euclidean] raises. *)

Module b64.

Definition vector : Type := list float.
Definition matrix : Type := list vector.

(** The Python scalars of [Ball_Hall]: [int] and [float]. *)
Inductive pynum : Type :=
| PyInt (z : Z)
| PyFloat (x : float).

(** [float(n)]: the double nearest to the integer [n].  The integers that
    are converted are counts of rows, far inside the range of a double
    (beyond it Python raises [OverflowError]). *)
Definition of_int (z : Z) : float :=
  SF2Prim (binary_normalize prec emax z 0 false).

Definition to_float (a : pynum) : float :=
  match a with
  | PyInt z => of_int z
  | PyFloat x => x
  end.

Definition py_add (a b : pynum) : pynum :=
  match a, b with
  | PyInt x, PyInt y => PyInt (x + y)
  | _, _ => PyFloat (to_float a + to_float b)
  end.

Definition py_is_zero (a : pynum) : bool :=
  match a with
  | PyInt z => (z =? 0)%Z
  | PyFloat x => PrimFloat.is_zero x
  end.

(** [a / b] for ints [a] and [b <> 0]: the double nearest to the exact
    quotient.  The quotient is cut two or more bits below the last bit of a
    double and a sticky bit records whether anything was cut. *)
Definition int_quotient (a b : Z) : float :=
  let s := Z.max 0 (Z.log2 (Z.abs b) - Z.log2 (Z.abs a) + 55) in
  let n := (Z.abs a * 2 ^ s)%Z in
  let q := (n / Z.abs b)%Z in
  let m := (2 * q + (if (n mod Z.abs b =? 0)%Z then 0 else 1))%Z in
  SF2Prim (binary_normalize prec emax
             (if (Z.sgn a * Z.sgn b <? 0)%Z then (- m)%Z else m) (- s - 1) false).

(** [a / b] between Python scalars: a zero divisor raises. *)
Definition py_truediv (a b : pynum) : W pynum :=
  if py_is_zero b then raise ZeroDivisionError
  else match a, b with
       | PyInt x, PyInt y => ret (PyFloat (int_quotient x y))
       | _, _ => ret (PyFloat (to_float a / to_float b))
       end.

Definition py_mul (a b : pynum) : pynum :=
  match a, b with
  | PyInt x, PyInt y => PyInt (x * y)
  | _, _ => PyFloat (to_float a * to_float b)
  end.

(** [a <= b].  The metrics compare a float with the int 0, where comparing
    the numbers and comparing the doubles agree. *)
Definition py_le (a b : pynum) : bool :=
  match a, b with
  | PyInt x, PyInt y => (x <=? y)%Z
  | _, _ => (to_float a <=? to_float b)%float
  end.

(** [X[:, j]] *)
Definition column (j : nat) (X : matrix) : vector :=
  map (fun r => nth j r PrimFloat.zero) X.

(** [u - v] on arrays of one length. *)
Definition vec_sub (u v : vector) : vector :=
  map (fun p => (fst p - snd p)%float) (combine u v).

(** What the numerical libraries compute: [np.mean(X, 0)] for an array
    with [m] columns, the Euclidean norm of an array, [pow(x, 2.0)] and
    the natural logarithm of a positive number. *)
Record libraries : Type := {
  np_mean0 : nat -> matrix -> vector;
  nrm2 : vector -> float;
  pow2 : float -> float;
  log : float -> float
}.

Section Libraries.

Variable lib : libraries.

(** [np.mean(X, 0)]; on an array without rows numpy warns (and the means
    are [nan]). *)
Definition np_mean_axis0 (m : nat) (X : matrix) : W vector :=
  (match X with
   | [] =>
       warn (RuntimeWarning "Mean of empty slice.") ;;;
       if (m =? 0)%nat then ret tt
       else warn (RuntimeWarning "invalid value encountered in divide")
   | _ :: _ => ret tt
   end) ;;;
  ret (np_mean0 lib m X).

(** [scipy.spatial.distance.euclidean(u, v)]: the norm of [u - v], a Python
    float; scipy refuses an array that holds an infinity or a nan. *)
Definition euclidean (u v : vector) : W float :=
  let u_v := vec_sub u v in
  if forallb PrimFloat.is_finite u_v then ret (nrm2 lib u_v)
  else raise (ValueError "array must not contain infs or NaNs").

(** [math.pow(x, 2)] on a Python float: a finite [x] whose square is not
    finite raises. *)
Definition math_pow2 (x : float) : W pynum :=
  let r := pow2 lib x in
  if PrimFloat.is_finite x then
    if PrimFloat.is_nan r then raise (ValueError "math domain error")
    else if PrimFloat.is_infinity r then raise (OverflowError "math range error")
    else ret (PyFloat r)
  else ret (PyFloat r).

(** [math.log(x)] on a Python float: nan and the positive infinity come
    back as they are, a number that is not positive raises. *)
Definition math_log (a : pynum) : W pynum :=
  let x := to_float a in
  if PrimFloat.is_nan x then ret (PyFloat x)
  else if (0 <? x)%float then
    if PrimFloat.is_infinity x then ret (PyFloat x)
    else
      let r := log lib x in
      if PrimFloat.is_finite r then ret (PyFloat r)
      else raise (ValueError "math domain error")
  else raise (ValueError "math domain error").

(** [for member in clusterMember:
       sumDis = sumDis + math.pow(distance.euclidean(member, clusterCenter), 2)] *)
Definition sum_sq_dist (clusterMember : matrix) (clusterCenter : vector) : W pynum :=
  foldM (fun sumDis member =>
           d <- euclidean member clusterCenter ;;
           p <- math_pow2 d ;;
           ret (py_add sumDis p))
        clusterMember (PyInt 0).

Definition Ball_Hall_core (D : matrix) (L : list Z) : W pynum :=
  let numCluster := val.numCluster_unique L in
  sumTotal <-
    foldM (fun sumTotal i =>
             let indices := indices_of L i in
             clusterMember <- take_rows D indices ;;
             clusterCenter <- np_mean_axis0 (ncols D) clusterMember ;;
             sumDis <- sum_sq_dist clusterMember clusterCenter ;;
             q <- py_truediv sumDis (PyInt (val.len indices)) ;;
             ret (py_add sumTotal q))
          (range_ numCluster) (PyInt 0) ;;
  py_truediv sumTotal (PyInt numCluster).

(** The metrics object, as far as [Ball_Hall] goes. *)
Record validation : Type := mk {
  dataMatrix : matrix;
  classLabel : list Z;
  validation_ : pynum;
  description : string
}.

Definition init (data : matrix) (labels : list Z) : validation :=
  {| dataMatrix := data; classLabel := labels;
     validation_ := PyFloat PrimFloat.nan; description := "" |}.

Definition set_validation (v : pynum) (self : validation) : validation :=
  {| dataMatrix := dataMatrix self; classLabel := classLabel self;
     validation_ := v; description := description self |}.

Definition set_description (d : string) (self : validation) : validation :=
  {| dataMatrix := dataMatrix self; classLabel := classLabel self;
     validation_ := validation_ self; description := d |}.

Definition Ball_Hall : M validation pynum :=
  modifyS (set_description "Mean of the mean dispersions across all clusters") ;;~
  self <~ getS ;;
  v <~ liftW (Ball_Hall_core (dataMatrix self) (classLabel self)) ;;
  modifyS (set_validation v) ;;~
  retS v.

(** [Banfeld_Raferty]; [self.validation] is assigned inside the loop. *)
Definition Banfeld_Raferty : M validation pynum :=
  modifyS (set_description
    "Weighted sum of the logarithms of the traces of the variance-covariance matrix of each cluster") ;;~
  self <~ getS ;;
  let D := dataMatrix self in
  let L := classLabel self in
  numCluster <~ liftW (val.numCluster_max L) ;;
  foldMS (fun sumTotal i =>
            let indices := indices_of L i in
            clusterMember <~ liftW (take_rows D indices) ;;
            clusterCenter <~ liftW (np_mean_axis0 (ncols D) clusterMember) ;;
            sumDis <~ liftW (sum_sq_dist clusterMember clusterCenter) ;;
            q <~ liftW (py_truediv sumDis (PyInt (val.len indices))) ;;
            if py_le q (PyInt 0) then
              liftW (warn (UserWarning
                "Cannot calculate Banfeld_Raferty, due to an undefined value")) ;;~
              retS sumTotal
            else
              q' <~ liftW (py_truediv sumDis (PyInt (val.len indices))) ;;
              lg <~ liftW (math_log q') ;;
              let sumTotal := py_add sumTotal (py_mul (PyInt (val.len indices)) lg) in
              modifyS (set_validation sumTotal) ;;~
              retS sumTotal)
         (range_ numCluster) (PyInt 0) ;;~
  self <~ getS ;;
  retS (validation_ self).

Definition log_ss_ratio_core (D : matrix) (L : list Z) : W pynum :=
  numCluster <- val.numCluster_max L ;;
  dataCenter <- np_mean_axis0 (ncols D) D ;;
  '(bgss, wgss) <-
    foldM (fun '(bgss, wgss) i =>
             let indices := indices_of L i in
             clusterMember <- take_rows D indices ;;
             clusterCenter <- np_mean_axis0 (ncols D) clusterMember ;;
             d <- euclidean clusterCenter dataCenter ;;
             p <- math_pow2 d ;;
             let bgss := py_add bgss (py_mul (PyInt (val.len indices)) p) in
             sumTemp <- sum_sq_dist clusterMember clusterCenter ;;
             ret (bgss, py_add wgss sumTemp))
          (range_ numCluster) (PyInt 0, PyInt 0) ;;
  q <- py_truediv bgss wgss ;;
  math_log q.

Definition log_ss_ratio : M validation pynum :=
  modifyS (set_description "The log ss ratio, a measure of connectedness") ;;~
  self <~ getS ;;
  v <~ liftW (log_ss_ratio_core (dataMatrix self) (classLabel self)) ;;
  modifyS (set_validation v) ;;~
  retS v.

(** *** The Ball-Hall index as a formula in double precision

    [(sum_i (sum_{x in C_i} ||x - mean(C_i)||^2) / |C_i|) / K], the sums
    taken from 0.0 in the order of the terms. *)

Definition fsum (l : list float) : float :=
  fold_left PrimFloat.add l PrimFloat.zero.

(** The squared Euclidean distance. *)
Definition sq_distance (x c : vector) : float := pow2 lib (nrm2 lib (vec_sub x c)).

(** The mean squared distance of the members of [C] to their mean. *)
Definition mean_dispersion (m : nat) (C : matrix) : float :=
  (fsum (map (fun x => sq_distance x (np_mean0 lib m C)) C)
   / of_int (Z.of_nat (length C)))%float.

(** The mean dispersions of the clusters [0 .. K-1], in the order of their
    ids. *)
Definition dispersions (D : matrix) (L : list Z) (K : Z) : list float :=
  map (fun i => mean_dispersion (ncols D) (cluster_rows D L i)) (range_ K).

Definition ball_hall_formula (D : matrix) (L : list Z) (K : Z) : float :=
  (fsum (dispersions D L K) / of_int K)%float.

(** The distance of [x] to [c] and its square are within the range of a
    double: [euclidean] and [math.pow] return. *)
Definition in_range (c x : vector) : bool :=
  forallb PrimFloat.is_finite (vec_sub x c) &&
  (negb (PrimFloat.is_finite (nrm2 lib (vec_sub x c)))
   || PrimFloat.is_finite (sq_distance x c)).

Definition cluster_in_range (m : nat) (C : matrix) : bool :=
  forallb (in_range (np_mean0 lib m C)) C.

(** What [log_ss_ratio] on one cluster takes from the libraries, at the
    centre [c] and the rows [C]: the squared norm of the zero vector of the
    length of [c] is zero, and the squared distance of each row to [c] is a
    number that is not negative. *)
Definition zero_at (c : vector) : bool :=
  PrimFloat.is_zero (pow2 lib (nrm2 lib (repeat PrimFloat.zero (length c)))).

Definition squares_not_negative (c : vector) (C : matrix) : bool :=
  forallb (fun x => (0 <=? sq_distance x c)%float) C.

End Libraries.

(** The mean of each column: the rows added up in order from 0.0, over the
    number of rows. *)
Definition np_mean0_reference (m : nat) (X : matrix) : vector :=
  map (fun j => (fsum (column j X) / of_int (Z.of_nat (length X)))%float)
      (seq 0 m).

(** The reference BLAS routine: a scaled sum of squares, so that no square
    overflows on the way. *)
Definition nrm2_reference (x : vector) : float :=
  let '(scale, ssq) :=
    fold_left (fun '(scale, ssq) xi =>
                 if PrimFloat.is_zero xi then (scale, ssq)
                 else
                   let a := PrimFloat.abs xi in
                   if (scale <? a)%float
                   then (a, (1 + ssq * ((scale / a) * (scale / a)))%float)
                   else (scale, (ssq + (a / scale) * (a / scale))%float))
              x (PrimFloat.zero, PrimFloat.one) in
  (scale * PrimFloat.sqrt ssq)%float.

(** The square, rounded once. *)
Definition pow2_reference (x : float) : float := (x * x)%float.

(** The logarithm of a positive number [m * 2^e], [m] between the square
    roots of 1/2 and of 2: [e * log 2 + 2 * atanh((m - 1) / (m + 1))], the
    series of [atanh] cut after 20 terms. *)
Definition log_reference (x : float) : float :=
  let (m0, e0) := PrimFloat.frshiftexp x in
  let e0 := (PrimFloat.of_uint63 e0 - of_int FloatOps.shift)%float in
  let '(m, e) :=
    if (m0 <? 0x1.6a09e667f3bcdp-1)%float then ((2 * m0)%float, (e0 - 1)%float)
    else (m0, e0) in
  let t := ((m - 1) / (m + 1))%float in
  let series :=
    fold_right (fun k s => (1 / of_int (2 * Z.of_nat k + 1) + t * t * s)%float)
               PrimFloat.zero (seq 0 20) in
  (e * 0x1.62e42fefa39efp-1 + 2 * t * series)%float.

Definition reference : libraries :=
  {| np_mean0 := np_mean0_reference;
     nrm2 := nrm2_reference;
     pow2 := pow2_reference;
     log := log_reference |}.

End b64.

(* ================================================================== *)
(** * Python dictionaries with string keys

    An association list in insertion order with at most one entry per key:
    assigning to a present key replaces the value where it stands, assigning
    to a new key appends. *)

Definition dict (V : Type) : Type := list (string * V).

Fixpoint dget {V} (k : string) (d : dict V) : option V :=
  match d with
  | [] => None
  | (k', v) :: d' => if String.eqb k k' then Some v else dget k d'
  end.

Definition dmem {V} (k : string) (d : dict V) : bool :=
  match dget k d with Some _ => true | None => false end.

Fixpoint dset {V} (k : string) (v : V) (d : dict V) : dict V :=
  match d with
  | [] => [(k, v)]
  | (k', v') :: d' =>
      if String.eqb k k' then (k, v) :: d' else (k', v') :: dset k v d'
  end.

Definition dkeys {V} (d : dict V) : list string := map fst d.

(** [d[k]], raising [KeyError] for a missing key. *)
Definition dlookup {V} (k : string) (d : dict V) : W V :=
  match dget k d with
  | Some v => ret v
  | None => raise (KeyError k)
  end.

(** [k in l] for a list of strings. *)
Definition str_in (k : string) (l : list string) : bool :=
  existsb (String.eqb k) l.

(** Values stored in parameter dictionaries and passed to searches. *)
Inductive pyval : Type :=
| VNone
| VBool (b : bool)
| VInt (z : Z)
| VFloat (q : Q)
| VStr (s : string).

(** The number a numeric value stands for; [bool] is a kind of [int]. *)
Definition as_number (a : pyval) : option Q :=
  match a with
  | VBool b => Some (inject_Z (if b then 1 else 0))
  | VInt z => Some (inject_Z z)
  | VFloat q => Some q
  | VNone | VStr _ => None
  end.

(** Python's [==] on these values. *)
Definition py_eq (a b : pyval) : bool :=
  match a, b with
  | VNone, VNone => true
  | VStr s, VStr t => String.eqb s t
  | _, _ =>
      match as_number a, as_number b with
      | Some x, Some y => Qeq_bool x y
      | _, _ => false
      end
  end.

(** [str(l)] for a list of strings without quotes in them. *)
Definition py_str_list (l : list string) : string :=
  ("[" ++ String.concat ", " (map (fun s => "'" ++ s ++ "'") l) ++ "]")%string.

(* ================================================================== *)
(** * openensembles.py

    An attribute that holds another object is modelled by that object's
    value.  The one in-place update that a modelled method performs on a
    shared numpy array, the centring of a data matrix by [det_ratio], is
    written back to the dictionary entry through which [calculate] reached
    the array. *)

Module oe.

(** The class [data]; of its attributes the modelled methods read the
    dictionary [D] of data matrices only. *)
Module data.

Record data : Type := mk { D : dict matrix }.

(** The other attributes of the class: the frame it was built from, the
    x-axis values and the transformation parameters of each data matrix,
    and the x-axis labels as they were passed in. *)
Record attributes : Type := mk_attributes {
  df : matrix;
  x : dict (list pyval);
  params : dict (dict pyval);
  x_labels : list pyval
}.

(** [isinstance(val, int) or isinstance(val, float)]; [bool] is a subclass
    of [int]. *)
Definition is_int_or_float (val : pyval) : bool :=
  match val with
  | VBool _ | VInt _ | VFloat _ => true
  | VNone | VStr _ => false
  end.

(** ['%d' % n] *)
Definition fmt_d (n : nat) : string := NilZero.string_of_uint (Nat.to_uint n).

(** [__init__(df, x)].  [df] stands for the values of the frame,
    [np.asarray(df)], and like [ncols] takes a frame without rows to have no
    columns. *)
Definition init (df : matrix) (x : list pyval) : W (data * attributes) :=
  let parent := df in
  if negb (length x =? ncols parent)%nat then
    raise (ValueError
      ("ERROR: Size of x-values (" ++ fmt_d (length x)
         ++ ") does not match that of of the dataframe dimensions ("
         ++ fmt_d (ncols parent)
         ++ "), replacing with an vector of integers of correct size"))
  else
    let errors :=
      fold_left (fun errors val =>
                   if negb (is_int_or_float val) then true else errors)
                x false in
    let xVals :=
      if errors then map VInt (range_ (Z.of_nat (length x))) else x in
    ret (mk (dset "parent" parent []),
         {| df := df;
            x := dset "parent" xVals [];
            params := dset "parent" [] [];
            x_labels := x |}).

(** [set(a) < set(b)] on lists of cluster numbers: every element of [a]
    is in [b], and some element of [b] is not in [a]. *)
Definition proper_subset (a b : list Z) : bool :=
  forallb (fun z => existsb (Z.eqb z) b) a
  && existsb (fun z => negb (existsb (Z.eqb z) a)) b.

Section Matplotlib.

(** A matplotlib figure, and everything [plot_data] does with matplotlib
    once it knows which clusters to draw: from [color = iter(...)] to
    [plt.title(title)]. *)
Variable figure : Type.
Variable draw :
  Z -> string -> data -> attributes -> list Z -> list Z -> string -> W figure.

(** [plot_data(source_name, fig_num, **kwargs)] with the keyword arguments
    [title], [class_labels] and [clusters_to_plot], each of which may be
    missing.  The default labels [np.ones(m)] put every object in class 1. *)
Definition plot_data (source_name : string) (fig_num : Z)
  (title : option string) (class_labels clusters_to_plot : option (list Z))
  (self : data) (a : attributes) : W figure :=
  X <- dlookup source_name (D self) ;;
  let m := length X in
  let title := match title with Some t => t | None => "" end in
  let class_labels :=
    match class_labels with Some l => l | None => repeat 1%Z m end in
  clusters <-
    match clusters_to_plot with
    | None => ret (np_unique class_labels)
    | Some clusters =>
        let clustersPossible := np_unique class_labels in
        if negb (proper_subset clusters clustersPossible) then
          raise (ValueError
            "ERROR: the clusters to plot are not a direct match to possible clusters in plot_data")
        else ret clusters
    end ;;
  draw fig_num source_name self a class_labels clusters title.

End Matplotlib.

End data.

(** The module [finishing], which is not among the sources. *)
Module finish.

Section EM.

(** The labels the EM iterations end with: [argmax] of the final posterior
    of each object.  The initialisation is random, so the outcome is a
    parameter of the model. *)
Variable em_labels : list (list Z) -> Z -> Z -> Z -> list Z.

(** Modelled from the spec: [finishing.mixture_model] and its [emProcess]
    are missing from the sources.  Section 4.5 of the specification:
    "Must support K>=2; fails with InputError for K<2 or ensemble size <2",
    and the result is the label assignment of the final posterior. *)
Definition mixture_model (parg : list (list Z)) (N : Z) (nEnsCluster : Z)
  (iterations : Z) : W (list Z) :=
  if (nEnsCluster <? 2)%Z then
    raise (InputError "K must be at least 2")
  else if (Z.of_nat (length parg) <? 2)%Z then
    raise (InputError "the ensemble must hold at least 2 assignments")
  else ret (em_labels parg N nEnsCluster iterations).

End EM.

End finish.

Module cluster.

Record cluster : Type := mk {
  dataObj : data.data;
  labels : dict (list Z);
  data_source : dict string;
  params : dict (dict pyval);
  algorithms : dict string;
  clusterNumbers : dict (list Z)
}.

(** [__init__(dataObj)] *)
Definition init (dataObj : data.data) : cluster :=
  {| dataObj := dataObj; labels := []; data_source := []; params := [];
     algorithms := []; clusterNumbers := [] |}.

(** The five assignments [c.labels[name] = ...] to
    [c.algorithms[name] = ...] that file a solution under [name]. *)
Definition add_solution (name : string) (l : list Z) (src : string)
  (p : dict pyval) (cn : list Z) (alg : string) (c : cluster) : cluster :=
  {| dataObj := dataObj c;
     labels := dset name l (labels c);
     data_source := dset name src (data_source c);
     params := dset name p (params c);
     algorithms := dset name alg (algorithms c);
     clusterNumbers := dset name cn (clusterNumbers c) |}.

Section EM.

Variable em_labels : list (list Z) -> Z -> Z -> Z -> list Z.

Definition mixture_model (K : Z) (iterations : Z) : M cluster cluster :=
  let params_ := dset "K" (VInt K) (dset "iterations" (VInt iterations) []) in
  self <~ getS ;;
  if (Z.of_nat (length (params self)) <? 2)%Z then
    liftW (raise (ValueError
      "Mixture Model is a finsihing technique for an ensemble, the cluster object must contain more than one solution"))
  else
    parent <~ liftW (dlookup "parent" (data.D (dataObj self))) ;;
    let N := Z.of_nat (length parent) in
    let parg := map snd (labels self) in
    mixture_labels <~ liftW (finish.mixture_model em_labels parg N K iterations) ;;
    let c := init (dataObj self) in
    let name := "mixture_model"%string in
    retS (add_solution name mixture_labels "parent" params_
                       (np_unique mixture_labels) "mixture_model" c).

End EM.

(** The search of [search_field] in one of the three bookkeeping
    dictionaries: the keys whose entry, seen through [view], equals
    [value]. *)
Definition search_dict {V} (d : dict V) (view : V -> pyval) (value : pyval)
  : W (list string) :=
  foldM (fun names name =>
           v <- dlookup name d ;;
           if py_eq (view v) value then ret (names ++ [name]) else ret names)
        (dkeys d) [].

Definition search_field (field : string) (value : pyval) : M cluster (list string) :=
  self <~ getS ;;
  if String.eqb field "data_source" then
    liftW (search_dict (data_source self) VStr value)
  else if String.eqb field "algorithm" then
    liftW (search_dict (algorithms self) VStr value)
  else if String.eqb field "clusterNumber" then
    liftW (search_dict (clusterNumbers self)
                       (fun cn => VInt (Z.of_nat (length cn))) value)
  else
    '(names, paramFound) <~
      liftW (foldM (fun '(names, paramFound) name =>
                      params_ <- dlookup name (params self) ;;
                      match dget field params_ with
                      | Some v =>
                          if py_eq v value then ret (names ++ [name], true)
                          else ret (names, true)
                      | None => ret (names, paramFound)
                      end)
                   (dkeys (params self)) ([], false)) ;;
    if negb paramFound then
      liftW (raise (ValueError
        ("Field " ++ field ++ " was not found in parameters of an clustering solutions")))
    else retS names.

Definition slice (names : list string) : M cluster cluster :=
  self <~ getS ;;
  let c := init (dataObj self) in
  let names_existing := dkeys (labels self) in
  liftW (foldM (fun c name =>
                  if negb (str_in name names_existing) then
                    raise (ValueError
                      ("ERROR: the source you requested for slicing does not exist in cluster object "
                         ++ name))
                  else
                    l <- dlookup name (labels self) ;;
                    src <- dlookup name (data_source self) ;;
                    p <- dlookup name (params self) ;;
                    cn <- dlookup name (clusterNumbers self) ;;
                    alg <- dlookup name (algorithms self) ;;
                    ret (add_solution name l src p cn alg c))
               names c).

(** [get_cluster_members(solution_name, clusterNum)]:
    [np.where(self.labels[solution_name] == clusterNum)], a 1-tuple whose
    one component is the array of the positions that hold [clusterNum]; the
    result here is that component.  The stored labels are integer arrays, as
    the clustering algorithms return them. *)
Definition get_cluster_members (solution_name : string) (clusterNum : Z)
  : M cluster (list nat) :=
  self <~ getS ;;
  l <~ liftW (dlookup solution_name (labels self)) ;;
  retS (indices_of l clusterNum).

End cluster.

Module validation.

Record validation : Type := mk {
  dataObj : data.data;
  cObj : cluster.cluster;
  validation_ : dict pynum;
  source_name : dict string;
  cluster_name : dict string;
  description : dict string
}.

(** [__init__(dataObj, cObj)] *)
Definition init (dataObj : data.data) (cObj : cluster.cluster) : validation :=
  {| dataObj := dataObj; cObj := cObj; validation_ := []; source_name := [];
     cluster_name := []; description := [] |}.

(** [validation_metrics_available()]: builds a metrics object on the
    'parent' matrix and lists its metrics. *)
Definition validation_metrics_available : M validation (list string) :=
  self <~ getS ;;
  _ <~ liftW (dlookup "parent" (data.D (dataObj self))) ;;
  retS val.validation_metrics_available.

(** The array behind [self.dataObj.D[source_name]] after a metric ran on it. *)
Definition store_matrix (source_name : string) (X : matrix) (self : validation)
  : validation :=
  {| dataObj := data.mk (dset source_name X (data.D (dataObj self)));
     cObj := cObj self; validation_ := validation_ self;
     source_name := validation.source_name self;
     cluster_name := cluster_name self; description := description self |}.

(** The four assignments that file a result under [output_name]. *)
Definition add_result (output_name : string) (v : pynum) (d : string)
  (source_name cluster_name : string) (self : validation) : validation :=
  {| dataObj := dataObj self; cObj := cObj self;
     validation_ := dset output_name v (validation_ self);
     source_name := dset output_name source_name (validation.source_name self);
     cluster_name := dset output_name cluster_name (validation.cluster_name self);
     description := dset output_name d (description self) |}.

Section Sklearn.

Variable silhouette_score : matrix -> list Z -> W f64.

(** [v = val.validation(X, labels); func = getattr(v, name); func()]:
    runs the metric on a fresh metrics object built on the stored array and
    gives the object back.  The array is shared with [self.dataObj.D], so
    whatever the metric did to it shows there, also when the metric raises. *)
Definition run_metric (validation_name source_name : string) (X : matrix)
  (l : list Z) : M validation val.validation :=
  fun self =>
    match val.metric_by_name silhouette_score validation_name with
    | None => (raise (AttributeError validation_name), self)
    | Some func =>
        match func (val.init X l) with
        | ((Ok _, w), v) =>
            ((Ok v, w), store_matrix source_name (val.dataMatrix v) self)
        | ((Raise e, w), v) =>
            ((Raise e, w), store_matrix source_name (val.dataMatrix v) self)
        end
    end.

Definition calculate (validation_name cluster_name : string)
  (source_name : string) : M validation (option string) :=
  let output_name :=
    (validation_name ++ "_" ++ source_name ++ "_" ++ cluster_name)%string in
  self <~ getS ;;
  if dmem output_name (validation_ self) then
    liftW (warn (UserWarning
      "Validation of type requested already exists and will not be added to validation dictionary")) ;;~
    retS None
  else if negb (dmem source_name (data.D (dataObj self))) then
    liftW (raise (ValueError
      ("ERROR: the source you requested for validation does not exist by that name "
         ++ source_name)))
  else if negb (dmem cluster_name (cluster.labels (cObj self))) then
    liftW (raise (ValueError
      ("ERROR: the clustering solution you requested for validation does not exist by the name "
         ++ source_name)))
  else
    FCN_DICT <~ validation_metrics_available ;;
    if negb (str_in validation_name FCN_DICT) then
      liftW (raise (ValueError
        ("The validation metric you requested does not exist, currently the following are supported "
           ++ py_str_list FCN_DICT)))
    else
      X <~ liftW (dlookup source_name (data.D (dataObj self))) ;;
      l <~ liftW (dlookup cluster_name (cluster.labels (cObj self))) ;;
      v <~ run_metric validation_name source_name X l ;;
      modifyS (add_result output_name (val.validation_ v) (val.description v)
                          source_name cluster_name) ;;~
      retS (Some output_name).

End Sklearn.

End validation.

End oe.

(* ================================================================== *)
(** * Vocabulary of the statements and of their proofs *)

(** ** Label assignments and clusters *)

(** The labels are exactly the integers [0 .. K-1]. *)
Definition contiguous (L : list Z) (K : Z) : Prop :=
  forall x, In x L <-> (0 <= x < K)%Z.

(** [sigma] permutes the cluster ids [0 .. K-1]. *)
Definition permutes (sigma : Z -> Z) (K : Z) : Prop :=
  (forall i, (0 <= i < K)%Z -> (0 <= sigma i < K)%Z) /\
  (forall i j, (0 <= i < K)%Z -> (0 <= j < K)%Z -> sigma i = sigma j -> i = j).

(** Strictly increasing lists. *)
Fixpoint increasing (l : list Z) : Prop :=
  match l with
  | [] => True
  | x :: l' => (forall y, In y l' -> (x < y)%Z) /\ increasing l'
  end.

(** [indices_of] with the row numbering starting at [s]. *)
Definition indices_from (s : nat) (L : list Z) (i : Z) : list nat :=
  map fst (filter (fun p => (snd p =? i)%Z) (combine (seq s (length L)) L)).

(** The function [take_rows] maps over the indices. *)
Definition row_at {A} (X : list A) (t : nat) : W A :=
  match nth_error X t with
  | Some r => ret r
  | None => raise IndexError
  end.

Definition nonempty {A} (C : list A) : Prop := C <> [].

(** A data matrix without special values. *)
Definition finite_matrix (X : list (list R)) : matrix := map (map Fin) X.

(** What is assumed of scikit-learn's silhouette score: it does not depend
    on the names of the clusters. *)
Definition label_blind (score : matrix -> list Z -> W f64) : Prop :=
  forall (D : matrix) (L : list Z) (K : Z) (sigma : Z -> Z),
    contiguous L K -> permutes sigma K -> length L = length D ->
    score D (map sigma L) = score D L.

(** A stand-in for scikit-learn's silhouette score in closed examples. *)
Definition no_silhouette : matrix -> list Z -> W f64 :=
  fun _ _ => raise (ValueError "silhouette_score is not modelled").

(** ** Centroids and squared distances over real data *)

Definition Rsum (l : list R) : R := fold_left Rplus l 0.

(** The mean of the rows [C] in each of [m] coordinates. *)
Definition centroid (m : nat) (C : list (list R)) : list R :=
  map (fun j => Rsum (map (fun r => nth j r 0) C) / INR (length C)) (seq 0 m).

(** The squared Euclidean distance. *)
Definition sq_distance (x c : list R) : R :=
  Rsum (map (fun p => (fst p - snd p) * (fst p - snd p)) (combine x c)).

(** The number of features. *)
Definition dimension (X : list (list R)) : nat :=
  match X with [] => 0%nat | r :: _ => length r end.

(** ** The metrics as folds over the list of clusters

    With one label per row, each loop [for i in range(numCluster)] of a
    metric is a left fold over the clusters
    [cluster_rows D L 0, ..., cluster_rows D L (K-1)].  The definitions
    below name the step of each such fold and what the metric does with the
    result. *)

(** *** c_index *)
Definition c_index_step (acc : pynum * Z) (C : matrix) : pynum * Z :=
  let '(sw, nw) := acc in
  (py_add sw (py_sum (pdist C)), (nw + val.len (pdist C))%Z).

Definition c_index_fin (D : matrix) (cl : list matrix) : W pynum :=
  let '(sw, nw) := fold_left c_index_step cl (PyInt 0, 0%Z) in
  let smin := py_sum (firstn (Z.to_nat nw) (py_sorted (pdist D))) in
  let smax := py_sum (firstn (Z.to_nat nw) (py_sorted_rev (pdist D))) in
  py_truediv (py_sub sw smin) (py_sub smax smin).

(** *** log_ss_ratio *)
Definition log_ss_step (m : nat) (dataCenter : vector) (acc : pynum * pynum)
  (C : matrix) : pynum * pynum :=
  let '(bgss, wgss) := acc in
  let clusterCenter := np_mean_axis0 m C in
  (py_add bgss
     (py_mul (PyInt (val.len C))
        (math_pow2 (PyFloat (euclidean clusterCenter dataCenter)))),
   py_add wgss (val.sum_sq_dist C clusterCenter)).

Definition log_ss_fin (D : matrix) (cl : list matrix) : W pynum :=
  let '(bgss, wgss) :=
    fold_left (log_ss_step (ncols D) (np_mean_axis0 (ncols D) D)) cl
              (PyInt 0, PyInt 0) in
  q <- py_truediv bgss wgss ;; math_log q.

(** *** Ball_Hall *)

(** The mean dispersion of one cluster, as the loop computes it. *)
Definition dispersion (m : nat) (C : matrix) : pynum :=
  PyFloat (fdiv (to_f64 (val.sum_sq_dist C (np_mean_axis0 m C)))
                (Fin (IZR (val.len C)))).

Definition Ball_Hall_fin (D : matrix) (K : Z) (cl : list matrix) : W pynum :=
  py_truediv (fold_left (fun s C => py_add s (dispersion (ncols D) C)) cl (PyInt 0))
             (PyInt K).


(** *** Banfeld_Raferty *)

(** [math.log] where it is defined. *)
Definition flog (x : f64) : f64 :=
  match x with
  | Fin r => Fin (ln r)
  | PInf => PInf
  | NInf | NaN => NaN
  end.

(** A cluster whose mean dispersion is not [<= 0] takes the [else] branch. *)
Definition counts (m : nat) (C : matrix) : bool :=
  negb (py_le (dispersion m C) (PyInt 0)).

Definition weighted_log (m : nat) (C : matrix) : pynum :=
  py_mul (PyInt (val.len C)) (PyFloat (flog (to_f64 (dispersion m C)))).

(** One round of the loop on the running sum and on [self.validation]. *)
Definition Banfeld_step (m : nat) (acc : pynum * pynum) (C : matrix)
  : pynum * pynum :=
  let '(sumTotal, validation) := acc in
  if counts m C then
    let sumTotal := py_add sumTotal (weighted_log m C) in (sumTotal, sumTotal)
  else (sumTotal, validation).

Definition Banfeld_sum (m : nat) (s : pynum) (C : matrix) : pynum :=
  if counts m C then py_add s (weighted_log m C) else s.

(** The body of the loop of [Banfeld_Raferty]. *)
Definition Banfeld_body (D : matrix) (L : list Z) (sumTotal : pynum) (i : Z)
  : M val.validation pynum :=
  let indices := indices_of L i in
  clusterMember <~ liftW (take_rows D indices) ;;
  let clusterCenter := np_mean_axis0 (ncols D) clusterMember in
  let sumDis := val.sum_sq_dist clusterMember clusterCenter in
  q <~ liftW (py_truediv sumDis (PyInt (val.len indices))) ;;
  if py_le q (PyInt 0) then
    liftW (warn (UserWarning
      "Cannot calculate Banfeld_Raferty, due to an undefined value")) ;;~
    retS sumTotal
  else
    q' <~ liftW (py_truediv sumDis (PyInt (val.len indices))) ;;
    lg <~ liftW (math_log q') ;;
    let sumTotal := py_add sumTotal (py_mul (PyInt (val.len indices)) lg) in
    modifyS (val.set_validation sumTotal) ;;~
    retS sumTotal.


(** *** The within-cluster scatter matrix *)
Definition vec_add (u v : vector) : vector :=
  map (fun q => fadd (fst q) (snd q)) (combine u v).

Definition scatter_step (attributes : nat) (wg : matrix) (C : matrix) : matrix :=
  mat_add wg (gram attributes (center_columns attributes C)).

Definition ksq_detw_fin (D : matrix) (K : Z) (cl : list matrix) : W pynum :=
  attributes <- len_first_row D ;;
  ret (py_mul (math_pow2 (PyInt K))
         (NpFloat (np_linalg_det
                     (fold_left (scatter_step attributes) cl
                                (np_zeros attributes attributes))))).


(** *** Ratkowsky_Lance *)
Definition between_step (columnCenter : f64) (bgssj : pynum) (C : matrix) : pynum :=
  py_add bgssj
    (py_mul (PyInt (val.len C))
       (math_pow2 (NpFloat (fsub (np_mean_all C) columnCenter)))).

Definition Ratkowsky_Lance_fin (D : matrix) (K : Z) (cl : list matrix) : W pynum :=
  attributes <- len_first_row D ;;
  list_divide <-
    foldM (fun list_divide i =>
             let columnVec := column i D in
             let columnCenter := np_mean columnVec in
             let bgssj := fold_left (between_step columnCenter) cl (PyInt 0) in
             let tssj :=
               fold_left (fun tssj member =>
                            py_add tssj
                              (math_pow2 (NpFloat (fsub member columnCenter))))
                         columnVec (PyInt 0) in
             q <- py_truediv bgssj tssj ;;
             ret (list_divide ++ [q]))
          (seq 0 attributes) [] ;;
  r <- py_truediv (fold_left py_add list_divide (PyInt 0))
                  (PyInt (Z.of_nat attributes)) ;;
  q <- py_truediv r (PyInt K) ;;
  math_sqrt q.

(** *** PBM_index *)
Definition pbm_ew (m : nat) (C : matrix) : pynum :=
  fold_left (fun s member =>
               py_add s (PyFloat (euclidean member (np_mean_axis0 m C))))
            C (PyInt 0).

Definition pbm_et (dataCenter : vector) (C : matrix) : pynum :=
  fold_left (fun s member => py_add s (PyFloat (euclidean member dataCenter)))
            C (PyInt 0).

Definition pbm_d (m : nat) (dataCenter : vector) (C : matrix) : f64 :=
  euclidean dataCenter (np_mean_axis0 m C).

Definition pbm_step (m : nat) (dataCenter : vector)
  (acc : pynum * pynum * list f64) (C : matrix) : pynum * pynum * list f64 :=
  let '(ew, et, list_centerDis) := acc in
  let clusterCenter := np_mean_axis0 m C in
  let list_centerDis := list_centerDis ++ [euclidean dataCenter clusterCenter] in
  let '(ew, et) :=
    fold_left (fun '(ew, et) member =>
                 (py_add ew (PyFloat (euclidean member clusterCenter)),
                  py_add et (PyFloat (euclidean member dataCenter))))
              C (ew, et) in
  (ew, et, list_centerDis).

Definition PBM_index_fin (D : matrix) (K : Z) (cl : list matrix) : W pynum :=
  let '(ew, et, list_centerDis) :=
    fold_left (pbm_step (ncols D) (np_mean_axis0 (ncols D) D)) cl
              (PyInt 0, PyInt 0, []) in
  db <- py_max_f64 list_centerDis ;;
  q <- py_truediv (py_mul et (PyFloat db)) (py_mul (PyInt K) ew) ;;
  ret (math_pow2 q).

(** Distances: finite and not negative. *)
Definition is_distance (v : f64) : Prop := exists r, 0 <= r /\ v = Fin r.

(** The step of the builtin [max]. *)
Definition fmax (m y : f64) : f64 := if fgtb y m then y else m.

(** *** McClain_Rao and point_biserial *)

(** The sum of the distances between the members of two clusters. *)
Definition between (A B : matrix) : pynum := py_sum (concat (cdist A B)).

(** [sb] after the rounds for the clusters [l]: every cluster against the
    ones after it. *)
Fixpoint pair_fold (sb : pynum) (l : list matrix) : pynum :=
  match l with
  | [] => sb
  | x :: l' => pair_fold (fold_left (fun s y => py_add s (between x y)) l' sb) l'
  end.

(** One step of the inner loop over [j], and one round of the outer loop
    over [i], of [within_between] on the clusters of [D] under [L]. *)
Definition between_round (D : matrix) (L : list Z) (i : Z) (sb : pynum) (j : Z)
  : pynum :=
  if (j >? i)%Z
  then py_add sb (between (cluster_rows D L i) (cluster_rows D L j))
  else sb.

Definition within_between_round (D : matrix) (L : list Z) (ids : list Z)
  (acc : pynum * pynum * Z) (i : Z) : pynum * pynum * Z :=
  let '(sw, sb, nw) := acc in
  (py_add sw (py_sum (pdist (cluster_rows D L i))),
   fold_left (between_round D L i) ids sb,
   (nw + val.len (pdist (cluster_rows D L i)))%Z).

(** The three sums over a list of clusters. *)
Definition within_between_fin (cl : list matrix) : pynum * pynum * Z :=
  (fold_left (fun s C => py_add s (py_sum (pdist C))) cl (PyInt 0),
   pair_fold (PyInt 0) cl,
   fold_left (fun n C => (n + val.len (pdist C))%Z) cl 0%Z).

Definition McClain_Rao_fin (N : Z) (cl : list matrix) : W pynum :=
  let '(sw, sb, nw) := within_between_fin cl in
  h <- py_truediv (PyInt (N * (N - 1))) (PyInt 2) ;;
  let nb := py_sub h (PyInt nw) in
  py_truediv (py_mul nb sw) (py_mul (PyInt nw) sb).

Definition point_biserial_fin (N : Z) (cl : list matrix) : W pynum :=
  nt <- py_truediv (PyInt (N * (N - 1))) (PyInt 2) ;;
  let '(sw, sb, nw) := within_between_fin cl in
  let nb := py_sub nt (PyInt nw) in
  a <- py_truediv sw (PyInt nw) ;;
  b <- py_truediv sb nb ;;
  s <- math_sqrt (py_mul (PyInt nw) nb) ;;
  py_truediv (py_mul (py_sub a b) s) nt.

(** *** Baker_Hubert_Gamma and g_plus_index *)

(** A row of [label_matrix]. *)
Definition label_row (l : Z) : vector := [Fin (IZR l); fzero].

Definition positive (v : f64) : Prop := exists r, 0 < r /\ v = Fin r.

(** Two label distances agree on being zero. *)
Definition same_zero (v v' : f64) : Prop :=
  (v = Fin 0 /\ v' = Fin 0) \/ (positive v /\ positive v').

(** ** Doubles by their specification *)

(** The number a double stands for. *)
Definition exact_value (x : float) : option Q :=
  match Prim2SF x with
  | S754_zero _ => Some 0%Q
  | S754_finite s m e =>
      Some ((if s then -1 else 1) * inject_Z (Zpos m) * Qpower 2 e)%Q
  | _ => None
  end.

(** A zero, a positive number or the positive infinity. *)
Definition sf_nonneg (x : spec_float) : bool :=
  match x with
  | S754_zero _ | S754_infinity false | S754_finite false _ _ => true
  | _ => false
  end.

(** ** Proof steps *)

(** [getattr] finds a method under each of the fourteen names only: the
    cases of a successful [metric_by_name]. *)
Ltac metric_cases H :=
  unfold val.metric_by_name in H;
  repeat match type of H with
         | (if String.eqb ?n ?s then _ else _) = _ =>
             let E := fresh "E" in
             destruct (String.eqb n s) eqn:E;
             [apply String.eqb_eq in E; injection H as H | ]
         end;
  [ .. | discriminate H ].

(** ** Cluster and validation objects *)

(** The entry of [d] under [name], seen through [view], equals [value]. *)
Definition entry_matches {V} (d : dict V) (view : V -> pyval) (value : pyval)
  (name : string) : bool :=
  match dget name d with
  | Some v => py_eq (view v) value
  | None => false
  end.

Section ClusterVocabulary.

Import oe.cluster.

(** Some stored solution's parameter dictionary has an entry for [field]. *)
Definition field_known (self : cluster) (field : string) : Prop :=
  exists name p, dget name (params self) = Some p /\ dget field p <> None.

(** The solution [name] was run with [field] equal to [value]. *)
Definition field_matches (self : cluster) (field : string) (value : pyval)
  (name : string) : bool :=
  match dget name (params self) with
  | Some p => match dget field p with
              | Some v => py_eq v value
              | None => false
              end
  | None => false
  end.

(** The solution [name] has a parameter [field]. *)
Definition field_present (self : cluster) (field : string) (name : string)
  : bool :=
  match dget name (params self) with
  | Some p => match dget field p with Some _ => true | None => false end
  | None => false
  end.

(** The bookkeeping invariant of a cluster object: a solution filed in
    [labels] is filed in the other four dictionaries too. *)
Definition solutions_filed (self : cluster) : Prop :=
  forall name, In name (dkeys (labels self)) ->
    In name (dkeys (data_source self)) /\
    In name (dkeys (params self)) /\
    In name (dkeys (clusterNumbers self)) /\
    In name (dkeys (algorithms self)).

(** [d'] holds the entries of [d] under [names] on top of those of [d0]. *)
Definition entries_from {V} (names : list string) (d d' d0 : dict V) : Prop :=
  forall k, dget k d' = if str_in k names then dget k d else dget k d0.

(** [c'] is [c0] with the solutions [names] of [self] filed in it. *)
Definition sliced (names : list string) (self c' c0 : cluster) : Prop :=
  dataObj c' = dataObj c0 /\
  entries_from names (labels self) (labels c') (labels c0) /\
  entries_from names (data_source self) (data_source c') (data_source c0) /\
  entries_from names (params self) (params c') (params c0) /\
  entries_from names (clusterNumbers self) (clusterNumbers c') (clusterNumbers c0) /\
  entries_from names (algorithms self) (algorithms c') (algorithms c0).

(** The five dictionaries of a cluster object hold the same names. *)
Definition keys_aligned (self : cluster) : Prop :=
  forall name,
    (In name (dkeys (labels self)) <-> In name (dkeys (data_source self))) /\
    (In name (dkeys (labels self)) <-> In name (dkeys (params self))) /\
    (In name (dkeys (labels self)) <-> In name (dkeys (clusterNumbers self))) /\
    (In name (dkeys (labels self)) <-> In name (dkeys (algorithms self))).

(** The body of the loop of [slice]. *)
Definition slice_body (self : cluster) : cluster -> string -> W cluster :=
  fun c name =>
    if negb (str_in name (dkeys (labels self))) then
      raise (ValueError
        ("ERROR: the source you requested for slicing does not exist in cluster object "
           ++ name))
    else
      l <- dlookup name (labels self) ;;
      src <- dlookup name (data_source self) ;;
      p <- dlookup name (params self) ;;
      cn <- dlookup name (clusterNumbers self) ;;
      alg <- dlookup name (algorithms self) ;;
      ret (add_solution name l src p cn alg c).

End ClusterVocabulary.

(** The composite key of a validation result. *)
Definition composite_key (validation_name source_name cluster_name : string)
  : string :=
  validation_name ++ "_" ++ source_name ++ "_" ++ cluster_name.

(** The warning of [calculate] for a result that is already there. *)
Definition already_exists : warning :=
  UserWarning
    "Validation of type requested already exists and will not be added to validation dictionary".

(** ** Objects for closed examples *)

(** Three objects on a line. *)
Definition three_points : oe.data.data :=
  oe.data.mk [("parent", [[Fin 0]; [Fin 1]; [Fin 2]])].

(** Two k-means runs on them. *)
Definition two_runs : oe.cluster.cluster :=
  oe.cluster.add_solution "km3" [0; 1; 2]%Z "parent" [("K", VInt 3)] [0; 1; 2]%Z "kmeans"
    (oe.cluster.add_solution "km2" [0; 1; 1]%Z "parent" [("K", VInt 2)] [0; 1]%Z "kmeans"
       (oe.cluster.init three_points)).

(** Seven objects on a line, in three clusters. *)
Definition seven_points : b64.matrix := [[1]; [0]; [4]; [2]; [0]; [2]; [0]]%float.
Definition seven_labels : list Z := [0; 0; 1; 0; 1; 2; 2]%Z.

(** The cluster ids 1 and 2 exchanged. *)
Definition swap_1_2 (i : Z) : Z :=
  if (i =? 1)%Z then 2%Z else if (i =? 2)%Z then 1%Z else i.

(** [Ball_Hall] with the textbook library functions. *)
Definition Ball_Hall_reference : M b64.validation b64.pynum :=
  b64.Ball_Hall b64.reference.

(** An exception raised inside a library call: [OverflowError] (from
    [math.pow]) or [ValueError] (from scipy's [euclidean] or [math.log]). *)
Definition library_error {A} (r : outcome A) : Prop :=
  (exists msg, r = Raise (OverflowError msg)) \/
  (exists msg, r = Raise (ValueError msg)).

(** A validation object on both, without results yet. *)
Definition fresh_validation : oe.validation.validation :=
  oe.validation.init three_points two_runs.

(** Two data matrices and two solutions whose names share a part:
    'zscore' with 'pca_km', and 'zscore_pca' with 'km'. *)
Definition shared_names : oe.validation.validation :=
  let d := oe.data.mk [("parent", [[Fin 0]; [Fin 1]; [Fin 3]]);
                       ("zscore", [[Fin 0]; [Fin 1]; [Fin 3]]);
                       ("zscore_pca", [[Fin 0]; [Fin 2]; [Fin 3]])] in
  oe.validation.init d
    (oe.cluster.add_solution "km" [0; 0; 1]%Z "zscore_pca" [("K", VInt 2)]
       [0; 1]%Z "kmeans"
       (oe.cluster.add_solution "pca_km" [0; 1; 1]%Z "zscore" [("K", VInt 2)]
          [0; 1]%Z "kmeans" (oe.cluster.init d))).

(* ================================================================== *)
(** * Properties *)

(** ** The monad of fallible code *)

Lemma out_bind {A B} (m : W A) (k : A -> W B) :
  out (bind m k) = match out m with Ok a => out (k a) | Raise e => Raise e end.
Proof.
  destruct m as [[a|e] w]; simpl; [destruct (k a); reflexivity | reflexivity].
Qed.

Lemma bind_ret_l {A B} (a : A) (k : A -> W B) : bind (ret a) k = k a.
Proof. unfold bind, ret. destruct (k a). reflexivity. Qed.

Lemma out_ret {A} (a : A) : out (ret a) = Ok a.
Proof. reflexivity. Qed.

(** ** Dictionaries *)

Lemma dget_dset {V} (k k' : string) (v : V) (d : dict V) :
  dget k (dset k' v d) = if String.eqb k k' then Some v else dget k d.
Proof.
  induction d as [|[k0 v0] d IH]; simpl.
  - reflexivity.
  - destruct (String.eqb k' k0) eqn:E; simpl.
    + destruct (String.eqb k k') eqn:E1; [reflexivity|].
      apply String.eqb_eq in E. subst k0. rewrite E1. reflexivity.
    + rewrite IH. destruct (String.eqb k k0) eqn:E2; [|reflexivity].
      apply String.eqb_eq in E2. subst k0.
      destruct (String.eqb k k') eqn:E3; [|reflexivity].
      apply String.eqb_eq in E3. subst k'. rewrite String.eqb_refl in E. discriminate.
Qed.

Lemma dget_key {V} (k : string) (d : dict V) :
  In k (dkeys d) -> exists v, dget k d = Some v.
Proof.
  induction d as [|[k0 v0] d IH]; simpl; [tauto|].
  intros H. destruct (String.eqb k k0) eqn:E; [eauto|].
  destruct H as [H|H]; [|auto].
  subst k0. rewrite String.eqb_refl in E. discriminate.
Qed.

Lemma dget_Some_key {V} (k : string) (d : dict V) (v : V) :
  dget k d = Some v -> In k (dkeys d).
Proof.
  induction d as [|[k0 v0] d IH]; simpl; [discriminate|].
  destruct (String.eqb k k0) eqn:E; [|auto].
  apply String.eqb_eq in E. auto.
Qed.

Lemma str_in_In (k : string) (l : list string) : str_in k l = true <-> In k l.
Proof.
  unfold str_in. rewrite existsb_exists. split.
  - intros [x [Hx E]]. apply String.eqb_eq in E. subst. exact Hx.
  - intros H. exists k. split; [exact H | apply String.eqb_refl].
Qed.

Lemma dmem_keys {V} (k : string) (d : dict V) : dmem k d = true <-> In k (dkeys d).
Proof.
  unfold dmem. split.
  - destruct (dget k d) eqn:E; [intros _; eapply dget_Some_key; eauto | discriminate].
  - intros H. destruct (dget_key k d H) as [v ->]. reflexivity.
Qed.

(** ** cluster.search_field *)

Section SearchField.

Import oe.cluster.

Variables (self : cluster) (field : string) (value : pyval).

Let step : list string * bool -> string -> W (list string * bool) :=
  fun '(names, paramFound) name =>
    params_ <- dlookup name (params self) ;;
    match dget field params_ with
    | Some v =>
        if py_eq v value then ret (names ++ [name], true)
        else ret (names, true)
    | None => ret (names, paramFound)
    end.

Lemma search_params_loop (l : list string) :
  (forall name, In name l -> In name (dkeys (params self))) ->
  forall names found,
    foldM step l (names, found) =
    ret (names ++ filter (field_matches self field value) l,
         found || existsb (field_present self field) l).
Proof.
  induction l as [|name l IH]; intros Hl names found; simpl.
  - rewrite app_nil_r, orb_false_r. reflexivity.
  - destruct (dget_key name (params self)) as [p Hp]; [apply Hl; left; reflexivity|].
    unfold dlookup, field_matches, field_present. rewrite Hp.
    rewrite bind_ret_l.
    assert (Hl' : forall n, In n l -> In n (dkeys (params self)))
      by (intros; apply Hl; right; assumption).
    destruct (dget field p) as [v|] eqn:Ef.
    + destruct (py_eq v value); rewrite bind_ret_l, (IH Hl'); simpl;
        rewrite ?orb_true_r, <- ?app_assoc; reflexivity.
    + rewrite bind_ret_l, (IH Hl'). reflexivity.
Qed.

Lemma field_present_known :
  existsb (field_present self field) (dkeys (params self)) = true
  <-> field_known self field.
Proof.
  rewrite existsb_exists. unfold field_present, field_known. split.
  - intros [name [_ H]]. destruct (dget name (params self)) as [p|] eqn:Ep; [|discriminate].
    exists name, p. split; [exact Ep|]. destruct (dget field p); [discriminate|discriminate].
  - intros [name [p [Hp Hf]]]. exists name. split; [eapply dget_Some_key; eauto|].
    rewrite Hp. destruct (dget field p); [reflexivity|contradiction].
Qed.

End SearchField.

(** C9.  For a [field] other than 'data_source', 'algorithm' and
    'clusterNumber', [search_field] leaves the cluster object alone, raises
    [ValueError] exactly when no stored solution's parameter dictionary has
    the field, and otherwise returns the names of the solutions, in the
    order of the dictionary, whose parameter [field] equals [value] (the
    empty list when none does). *)
Theorem search_field_by_parameter
  (self : oe.cluster.cluster) (field : string) (value : pyval) :
  field <> "data_source" ->
  field <> "algorithm" ->
  field <> "clusterNumber" ->
  let r := oe.cluster.search_field field value self in
  state_of r = self /\
  ((exists msg, result_of r = Raise (ValueError msg)) <-> ~ field_known self field) /\
  (field_known self field ->
   result_of r =
     Ok (filter (field_matches self field value) (dkeys (oe.cluster.params self)))).
Proof.
  intros H1 H2 H3 r. subst r.
  apply String.eqb_neq in H1, H2, H3.
  unfold oe.cluster.search_field, bindS, getS, liftW, retS, result_of, state_of.
  simpl. rewrite H1, H2, H3.
  rewrite (search_params_loop self field value (dkeys (oe.cluster.params self)))
    by auto.
  simpl.
  pose proof (field_present_known self field) as HK.
  destruct (existsb (field_present self field) (dkeys (oe.cluster.params self))) eqn:E;
    simpl.
  - assert (K : field_known self field) by (apply HK; reflexivity).
    repeat split.
    + intros [msg Hm]. discriminate.
    + intros Hn. contradiction.
  - assert (K : ~ field_known self field).
    { intros Hk. apply HK in Hk. discriminate. }
    repeat split.
    + intros _. exact K.
    + intros _. eexists. reflexivity.
    + intros Hk. contradiction.
Qed.

Lemma search_field_by_parameter_witness :
  result_of (oe.cluster.search_field "K" (VInt 2) two_runs) = Ok ["km2"].
Proof.
  destruct (search_field_by_parameter two_runs "K" (VInt 2)) as [_ [_ H]];
    try discriminate.
  rewrite H.
  - reflexivity.
  - exists "km2", [("K", VInt 2)]. split; [reflexivity | discriminate].
Defined.

(** ** Methods *)

Lemma bindS_getS {S B} (k : S -> M S B) (s : S) : bindS getS k s = k s s.
Proof.
  unfold bindS, getS, ret. destruct (k s s) as [[r w] s2]. reflexivity.
Qed.

Lemma bindS_modifyS {S B} (f : S -> S) (k : unit -> M S B) (s : S) :
  bindS (modifyS f) k s = k tt (f s).
Proof.
  unfold bindS, modifyS, ret. destruct (k tt (f s)) as [[r w] s2]. reflexivity.
Qed.

(** ** cluster.slice *)

Section Slice.

Import oe.cluster.

Lemma slice_unfold (self : cluster) (names : list string) :
  slice names self = (foldM (slice_body self) names (init (dataObj self)), self).
Proof.
  unfold slice. rewrite bindS_getS. reflexivity.
Qed.

Variable self : cluster.
Hypothesis filed : solutions_filed self.
Let step := slice_body self.

Lemma slice_step (c : cluster) (name : string) :
  In name (dkeys (labels self)) ->
  exists l src p cn alg,
    dget name (labels self) = Some l /\
    dget name (data_source self) = Some src /\
    dget name (params self) = Some p /\
    dget name (clusterNumbers self) = Some cn /\
    dget name (algorithms self) = Some alg /\
    step c name = ret (add_solution name l src p cn alg c).
Proof.
  intros Hin. destruct (filed name Hin) as [H1 [H2 [H3 H4]]].
  destruct (dget_key _ _ Hin) as [l El].
  destruct (dget_key _ _ H1) as [src Es].
  destruct (dget_key _ _ H2) as [p Ep].
  destruct (dget_key _ _ H3) as [cn Ec].
  destruct (dget_key _ _ H4) as [alg Ea].
  exists l, src, p, cn, alg. repeat (split; [assumption|]).
  unfold step, slice_body. apply str_in_In in Hin. rewrite Hin. simpl.
  unfold dlookup. rewrite El, Es, Ep, Ec, Ea. reflexivity.
Qed.

Lemma entries_from_cons {V} (name : string) (names : list string)
  (d d' d0 : dict V) (v : V) :
  dget name d = Some v ->
  entries_from names d d' (dset name v d0) ->
  entries_from (name :: names) d d' d0.
Proof.
  intros Hv H k. rewrite (H k). unfold str_in. simpl. fold (str_in k names).
  destruct (str_in k names) eqn:E.
  - rewrite orb_true_r. reflexivity.
  - rewrite orb_false_r, dget_dset.
    destruct (String.eqb k name) eqn:Ek; [|reflexivity].
    apply String.eqb_eq in Ek. subst. symmetry. exact Hv.
Qed.

Lemma slice_loop_ok (names : list string) :
  (forall name, In name names -> In name (dkeys (labels self))) ->
  forall c0, exists c', foldM step names c0 = ret c' /\ sliced names self c' c0.
Proof.
  induction names as [|name names IH]; intros Hall c0.
  - exists c0. split; [reflexivity|]. repeat split; intros k; reflexivity.
  - destruct (slice_step c0 name) as [l [src [p [cn [alg [El [Es [Ep [Ec [Ea St]]]]]]]]]].
    { apply Hall. left. reflexivity. }
    destruct (IH (fun n Hn => Hall n (or_intror Hn))
                 (add_solution name l src p cn alg c0)) as [c' [Hc' [Hd Hs]]].
    exists c'. split.
    + simpl. rewrite St, bind_ret_l. exact Hc'.
    + destruct Hs as [S1 [S2 [S3 [S4 S5]]]].
      split; [exact Hd|].
      split; [eapply entries_from_cons; eassumption|].
      split; [eapply entries_from_cons; eassumption|].
      split; [eapply entries_from_cons; eassumption|].
      split; eapply entries_from_cons; eassumption.
Qed.

Lemma slice_loop_missing (names : list string) :
  (exists name, In name names /\ ~ In name (dkeys (labels self))) ->
  forall c0, exists msg, out (foldM step names c0) = Raise (ValueError msg).
Proof.
  induction names as [|name names IH]; intros [bad [Hin Hbad]] c0.
  - destruct Hin.
  - destruct (str_in name (dkeys (labels self))) eqn:E.
    + apply str_in_In in E.
      destruct (slice_step c0 name E) as [l [src [p [cn [alg [_ [_ [_ [_ [_ St]]]]]]]]]].
      simpl. rewrite St, bind_ret_l. apply IH.
      exists bad. split; [|exact Hbad].
      destruct Hin as [Hin|Hin]; [subst; contradiction | exact Hin].
    + cbn [foldM]. unfold step, slice_body. rewrite E. simpl. eexists. reflexivity.
Qed.

End Slice.

(** C10.  On a cluster object that files every solution in all five
    dictionaries, [slice(names)] leaves the object itself unchanged.  When
    every name is an existing solution it returns a cluster object with the
    same data object whose five dictionaries hold, under each given name,
    the entry of the original, and nothing else; when some name is not an
    existing solution it raises [ValueError]. *)
Theorem slice_keeps_named_solutions
  (self : oe.cluster.cluster) (names : list string) :
  solutions_filed self ->
  let r := oe.cluster.slice names self in
  state_of r = self /\
  ((forall name, In name names -> In name (dkeys (oe.cluster.labels self))) ->
   exists c, result_of r = Ok c /\
             sliced names self c (oe.cluster.init (oe.cluster.dataObj self))) /\
  ((exists name, In name names /\ ~ In name (dkeys (oe.cluster.labels self))) ->
   exists msg, result_of r = Raise (ValueError msg)).
Proof.
  intros filed r. subst r. rewrite slice_unfold.
  unfold result_of, state_of. simpl.
  split; [reflexivity|]. split.
  - intros Hall.
    destruct (slice_loop_ok self filed names Hall
                (oe.cluster.init (oe.cluster.dataObj self))) as [c [Hc Hs]].
    exists c. split; [|exact Hs]. rewrite Hc. reflexivity.
  - intros Hbad.
    destruct (slice_loop_missing self filed names Hbad
                (oe.cluster.init (oe.cluster.dataObj self))) as [msg Hm].
    exists msg. exact Hm.
Qed.

Lemma two_runs_filed : solutions_filed two_runs.
Proof.
  intros name H. simpl in *. tauto.
Defined.

Lemma slice_keeps_named_solutions_witness :
  state_of (oe.cluster.slice ["km3"] two_runs) = two_runs /\
  exists c, result_of (oe.cluster.slice ["km3"] two_runs) = Ok c /\
            dget "km3" (oe.cluster.labels c) = Some [0; 1; 2]%Z /\
            dget "km2" (oe.cluster.labels c) = None.
Proof.
  destruct (slice_keeps_named_solutions two_runs ["km3"] two_runs_filed)
    as [Hs [Hok _]].
  split; [exact Hs|].
  destruct Hok as [c [Hc [_ [Hl _]]]].
  - intros name [<-|[]]. simpl. tauto.
  - exists c. split; [exact Hc|].
    split; [rewrite (Hl "km3") | rewrite (Hl "km2")]; reflexivity.
Defined.

(** ** cluster.mixture_model *)

(** C4.  [mixture_model(K, iterations)] raises whenever [K < 2] or the
    cluster object holds fewer than two solutions (counted in [labels] or in
    [params]); the object is unchanged and no cluster object is returned.
    With a 'parent' matrix in the data object the exception is the
    [ValueError] of the method's own check or the [InputError] of the
    finishing routine. *)
Theorem mixture_model_rejects
  (em_labels : list (list Z) -> Z -> Z -> Z -> list Z)
  (self : oe.cluster.cluster) (K iterations : Z) :
  (K < 2)%Z \/
  (length (oe.cluster.labels self) < 2)%nat \/
  (length (oe.cluster.params self) < 2)%nat ->
  let r := oe.cluster.mixture_model em_labels K iterations self in
  state_of r = self /\
  exists e, result_of r = Raise e /\
            (dmem "parent" (oe.data.D (oe.cluster.dataObj self)) = true ->
             exists msg, e = ValueError msg \/ e = InputError msg).
Proof.
  intros H r. subst r.
  unfold oe.cluster.mixture_model. rewrite bindS_getS.
  destruct (Z.of_nat (length (oe.cluster.params self)) <? 2)%Z eqn:Ep.
  - unfold liftW, result_of, state_of. simpl.
    split; [reflexivity|]. eexists. split; [reflexivity|]. intros _. eauto.
  - apply Z.ltb_ge in Ep.
    unfold bindS, liftW, dlookup, dmem, result_of, state_of.
    destruct (dget "parent" (oe.data.D (oe.cluster.dataObj self))) as [parent|];
      simpl.
    + unfold oe.finish.mixture_model.
      destruct (K <? 2)%Z eqn:EK; simpl.
      * split; [reflexivity|]. eexists. split; [reflexivity|]. intros _. eauto.
      * apply Z.ltb_ge in EK. rewrite length_map.
        destruct (Z.of_nat (length (oe.cluster.labels self)) <? 2)%Z eqn:El; simpl.
        -- split; [reflexivity|]. eexists. split; [reflexivity|]. intros _. eauto.
        -- apply Z.ltb_ge in El. lia.
    + split; [reflexivity|]. eexists. split; [reflexivity|]. discriminate.
Qed.

Lemma mixture_model_rejects_witness :
  exists e,
    result_of (oe.cluster.mixture_model (fun _ _ _ _ => []) 1 10 two_runs) = Raise e.
Proof.
  destruct (mixture_model_rejects (fun _ _ _ _ => []) two_runs 1 10) as [_ [e [He _]]].
  - left. lia.
  - exists e. exact He.
Defined.

(** ** validation.calculate *)

(** C7, at a call that names a clustering solution that does not exist:
    [calculate('Ball_Hall', 'nosuch', 'parent')] raises [ValueError] and
    leaves the object unchanged, but the message ends with the source name
    'parent', a valid argument, and does not mention 'nosuch'. *)
Theorem calculate_unknown_cluster_message
  (silhouette_score : matrix -> list Z -> W f64) :
  oe.validation.calculate silhouette_score "Ball_Hall" "nosuch" "parent"
    fresh_validation
  = (raise (ValueError
       "ERROR: the clustering solution you requested for validation does not exist by the name parent"),
     fresh_validation).
Proof. reflexivity. Qed.

Lemma bindS_ret {S A B} (m : M S A) (k : A -> M S B) (s s1 : S) (a : A) :
  m s = (ret a, s1) -> bindS m k s = k a s1.
Proof.
  intros H. unfold bindS. rewrite H. unfold ret.
  destruct (k a s1) as [[r w] s2]. reflexivity.
Qed.

Lemma bindS_raise {S A B} (m : M S A) (k : A -> M S B) (s s1 : S) (e : exn)
  (w : list warning) :
  m s = ((Raise e, w), s1) -> bindS m k s = ((Raise e, w), s1).
Proof. intros H. unfold bindS. rewrite H. reflexivity. Qed.

Section Calculate.

Import oe.validation.

Variable silhouette_score : matrix -> list Z -> W f64.

Lemma metrics_available_run (self : validation) :
  dmem "parent" (oe.data.D (dataObj self)) = true ->
  validation_metrics_available self = (ret val.validation_metrics_available, self).
Proof.
  intros H. unfold validation_metrics_available. rewrite bindS_getS.
  unfold dmem in H.
  destruct (dget "parent" (oe.data.D (dataObj self))) as [p|] eqn:E; [|discriminate].
  erewrite bindS_ret; [reflexivity|].
  unfold liftW, dlookup. rewrite E. reflexivity.
Qed.

Lemma calculate_cached (vn cn sn : string) (self : validation) :
  dmem (composite_key vn sn cn) (validation_ self) = true ->
  calculate silhouette_score vn cn sn self = ((Ok None, [already_exists]), self).
Proof.
  intros H. unfold calculate. rewrite bindS_getS.
  fold (composite_key vn sn cn). rewrite H. reflexivity.
Qed.

(** The failures of [calculate] before any metric runs: an unknown source,
    an unknown clustering solution, an unknown metric.  Each raises
    [ValueError] and leaves the object as it was. *)
Lemma calculate_rejects (vn cn sn : string) (self : validation) :
  dmem (composite_key vn sn cn) (validation_ self) = false ->
  dmem "parent" (oe.data.D (dataObj self)) = true ->
  dmem sn (oe.data.D (dataObj self)) = false \/
  dmem cn (oe.cluster.labels (cObj self)) = false \/
  str_in vn val.validation_metrics_available = false ->
  exists msg,
    calculate silhouette_score vn cn sn self = (raise (ValueError msg), self).
Proof.
  intros Hnew Hparent Hbad. unfold calculate. rewrite bindS_getS.
  fold (composite_key vn sn cn). rewrite Hnew.
  destruct (dmem sn (oe.data.D (dataObj self))) eqn:Es; cbn [negb];
    [|eexists; reflexivity].
  destruct (dmem cn (oe.cluster.labels (cObj self))) eqn:Ec; cbn [negb];
    [|eexists; reflexivity].
  destruct Hbad as [Hbad|[Hbad|Hbad]]; try discriminate.
  erewrite bindS_ret by (apply metrics_available_run; exact Hparent).
  rewrite Hbad. eexists. reflexivity.
Qed.

End Calculate.

(** C8.  When [calculate(validation_name, cluster_name, source_name)]
    returns a key, the key is
    [validation_name + '_' + source_name + '_' + cluster_name]; under it the
    object holds the score and the description that the metric left on the
    metrics object built from the stored matrix and labels, together with
    the source and cluster names.  Calling again with the same three names
    returns [None] with a warning and changes nothing. *)
Theorem calculate_stores_then_caches
  (silhouette_score : matrix -> list Z -> W f64)
  (vn cn sn key : string) (self self' : oe.validation.validation)
  (w : list warning) :
  oe.validation.calculate silhouette_score vn cn sn self
    = ((Ok (Some key), w), self') ->
  key = composite_key vn sn cn /\
  (exists X l func score v,
      dget sn (oe.data.D (oe.validation.dataObj self)) = Some X /\
      dget cn (oe.cluster.labels (oe.validation.cObj self)) = Some l /\
      val.metric_by_name silhouette_score vn = Some func /\
      func (val.init X l) = ((Ok score, w), v) /\
      dget key (oe.validation.validation_ self') = Some (val.validation_ v) /\
      dget key (oe.validation.description self') = Some (val.description v) /\
      dget key (oe.validation.source_name self') = Some sn /\
      dget key (oe.validation.cluster_name self') = Some cn) /\
  oe.validation.calculate silhouette_score vn cn sn self'
    = ((Ok None, [already_exists]), self').
Proof.
  intros H. unfold oe.validation.calculate in H. rewrite bindS_getS in H.
  fold (composite_key vn sn cn) in H.
  destruct (dmem (composite_key vn sn cn) (oe.validation.validation_ self)) eqn:Enew.
  { discriminate H. }
  destruct (dmem sn (oe.data.D (oe.validation.dataObj self))) eqn:Es;
    [|discriminate H].
  destruct (dmem cn (oe.cluster.labels (oe.validation.cObj self))) eqn:Ec;
    [|discriminate H].
  cbn [negb] in H.
  destruct (dmem "parent" (oe.data.D (oe.validation.dataObj self))) eqn:Eparent.
  2:{ unfold oe.validation.validation_metrics_available in H.
      unfold bindS at 1 in H. rewrite bindS_getS in H.
      unfold bindS at 1, liftW at 1, dlookup at 1 in H.
      unfold dmem in Eparent.
      destruct (dget "parent" (oe.data.D (oe.validation.dataObj self)));
        discriminate. }
  erewrite bindS_ret in H by (apply metrics_available_run; exact Eparent).
  destruct (str_in vn val.validation_metrics_available) eqn:Ev;
    [|discriminate H].
  cbn [negb] in H.
  unfold dmem in Es, Ec.
  unfold bindS, liftW, dlookup, oe.validation.run_metric, modifyS, retS in H.
  destruct (dget sn (oe.data.D (oe.validation.dataObj self))) as [X|] eqn:EX;
    [|discriminate Es].
  destruct (dget cn (oe.cluster.labels (oe.validation.cObj self))) as [l|] eqn:El;
    [|discriminate Ec].
  simpl in H.
  destruct (val.metric_by_name silhouette_score vn) as [func|] eqn:Ef;
    [|discriminate H].
  destruct (func (val.init X l)) as [[[score|e] wm] v] eqn:Er; simpl in H;
    [|discriminate H].
  rewrite app_nil_r in H.
  inversion H; subst key w self'; clear H.
  split; [reflexivity|]. split.
  - exists X, l, func, score, v.
    repeat split; try assumption; simpl; rewrite dget_dset, String.eqb_refl;
      reflexivity.
  - apply calculate_cached. unfold dmem. simpl.
    rewrite dget_dset, String.eqb_refl. reflexivity.
Qed.

Lemma calculate_stores_then_caches_witness :
  let first :=
    oe.validation.calculate no_silhouette "Ball_Hall" "km2" "parent" fresh_validation in
  result_of first = Ok (Some "Ball_Hall_parent_km2") /\
  oe.validation.calculate no_silhouette "Ball_Hall" "km2" "parent" (state_of first)
    = ((Ok None, [already_exists]), state_of first).
Proof.
  split; [reflexivity|].
  eapply (calculate_stores_then_caches no_silhouette "Ball_Hall" "km2" "parent"
            "Ball_Hall_parent_km2" fresh_validation _ _).
  reflexivity.
Defined.

(** ** Cluster counts *)

Lemma fold_max_ge (l : list Z) (a : Z) :
  (a <= fold_left Z.max l a)%Z /\
  (forall x, In x l -> (x <= fold_left Z.max l a)%Z).
Proof.
  revert a. induction l as [|y l IH]; intros a; simpl.
  - split; [lia | tauto].
  - destruct (IH (Z.max a y)) as [H1 H2]. split; [lia|].
    intros x [<-|Hx]; [lia | auto].
Qed.

Lemma fold_max_in (l : list Z) (a : Z) :
  fold_left Z.max l a = a \/ In (fold_left Z.max l a) l.
Proof.
  revert a. induction l as [|y l IH]; intros a; simpl.
  - left. reflexivity.
  - destruct (IH (Z.max a y)) as [H|H]; [|right; right; exact H].
    rewrite H. destruct (Z.max_spec a y) as [[_ E]|[_ E]]; rewrite E; auto.
Qed.

Lemma py_max_spec (L : list Z) :
  L <> [] ->
  exists m, py_max L = ret m /\ In m L /\ forall x, In x L -> (x <= m)%Z.
Proof.
  destruct L as [|a l]; [congruence|]. intros _.
  exists (fold_left Z.max l a). split; [reflexivity|].
  destruct (fold_max_ge l a) as [H1 H2]. split.
  - destruct (fold_max_in l a) as [H|H]; [rewrite H; left; reflexivity | right; exact H].
  - intros x [<-|Hx]; auto.
Qed.

Lemma insert_unique_in (x y : Z) (l : list Z) :
  In y (insert_unique x l) <-> y = x \/ In y l.
Proof.
  induction l as [|z l IH]; simpl.
  - intuition.
  - destruct (x <? z)%Z eqn:E1; simpl; [intuition|].
    destruct (x =? z)%Z eqn:E2; simpl.
    + apply Z.eqb_eq in E2. subst. intuition.
    + rewrite IH. intuition.
Qed.

Lemma np_unique_in (x : Z) (L : list Z) : In x (np_unique L) <-> In x L.
Proof.
  induction L as [|y L IH]; simpl; [tauto|].
  rewrite insert_unique_in, IH. intuition.
Qed.

Lemma insert_unique_increasing (x : Z) (l : list Z) :
  increasing l -> increasing (insert_unique x l).
Proof.
  induction l as [|z l IH]; simpl; intros H.
  - split; [tauto|exact I].
  - destruct H as [Hz Hl].
    destruct (x <? z)%Z eqn:E1.
    + apply Z.ltb_lt in E1. simpl. split; [|split; assumption].
      intros y [<-|Hy]; [lia | specialize (Hz y Hy); lia].
    + destruct (x =? z)%Z eqn:E2; simpl; [split; assumption|].
      apply Z.ltb_ge in E1. apply Z.eqb_neq in E2.
      split; [|auto].
      intros y Hy. apply insert_unique_in in Hy. destruct Hy as [->|Hy]; [lia|auto].
Qed.

Lemma np_unique_increasing (L : list Z) : increasing (np_unique L).
Proof.
  induction L as [|y L IH]; simpl; [exact I | apply insert_unique_increasing, IH].
Qed.

Lemma increasing_NoDup (l : list Z) : increasing l -> NoDup l.
Proof.
  induction l as [|x l IH]; simpl; intros H; constructor.
  - intros Hin. destruct H as [H _]. specialize (H x Hin). lia.
  - apply IH, H.
Qed.

Lemma np_unique_NoDup (L : list Z) : NoDup (np_unique L).
Proof. apply increasing_NoDup, np_unique_increasing. Qed.

Lemma range_in (n i : Z) : In i (range_ n) <-> (0 <= i < n)%Z.
Proof.
  unfold range_. rewrite in_map_iff. split.
  - intros [k [<- Hk]]. apply in_seq in Hk. lia.
  - intros H. exists (Z.to_nat i). split; [lia|]. apply in_seq. lia.
Qed.

Lemma range_NoDup (n : Z) : NoDup (range_ n).
Proof.
  unfold range_. apply Finite.Injective_map_NoDup; [|apply seq_NoDup].
  intros a b H. lia.
Qed.

Lemma range_length (n : Z) : length (range_ n) = Z.to_nat n.
Proof. unfold range_. rewrite length_map, length_seq. reflexivity. Qed.


Lemma contiguous_unique_count (L : list Z) (K : Z) :
  (0 <= K)%Z -> contiguous L K -> val.numCluster_unique L = K.
Proof.
  intros HK H. unfold val.numCluster_unique.
  assert (P : Permutation (np_unique L) (range_ K)).
  { apply NoDup_Permutation; [apply np_unique_NoDup | apply range_NoDup |].
    intros x. rewrite np_unique_in, range_in. apply H. }
  rewrite (Permutation_length P), range_length. lia.
Qed.



(** ** Finite arithmetic *)

Lemma fold_fadd_Fin (l : list R) (a : R) :
  fold_left fadd (map Fin l) (Fin a) = Fin (fold_left Rplus l a).
Proof.
  revert a. induction l as [|x l IH]; intros a; simpl; [reflexivity | apply IH].
Qed.

Lemma fsum_Fin (l : list R) : fsum (map Fin l) = Fin (fold_left Rplus l 0).
Proof. apply fold_fadd_Fin. Qed.

Lemma fdiv_Fin (a b : R) : b <> 0 -> fdiv (Fin a) (Fin b) = Fin (a / b).
Proof.
  intros H. simpl. destruct (Req_dec_T b 0) as [E|E]; [contradiction | reflexivity].
Qed.

Lemma INR_length_pos {A} (l : list A) : l <> [] -> INR (length l) <> 0.
Proof.
  intros H. destruct l; [congruence|]. apply not_0_INR. simpl. lia.
Qed.

Lemma np_mean_Fin (l : list R) :
  l <> [] -> np_mean (map Fin l) = Fin (fold_left Rplus l 0 / INR (length l)).
Proof.
  intros H. unfold np_mean. rewrite fsum_Fin, length_map.
  apply fdiv_Fin, INR_length_pos, H.
Qed.

(** ** det_ratio and the stored data matrix *)

Lemma det_ratio_run (self : val.validation) (attributes : nat) (n : Z)
  (wg : matrix) (ww : list warning) :
  len_first_row (val.dataMatrix self) = ret attributes ->
  val.numCluster_max (val.classLabel self) = ret n ->
  val.within_scatter attributes (val.dataMatrix self) (val.classLabel self) n
    = (Ok wg, ww) ->
  let xData := center_columns attributes (val.dataMatrix self) in
  let dt := np_linalg_det (gram attributes xData) in
  let dw := np_linalg_det wg in
  val.det_ratio self
    = ((Ok (NpFloat (fdiv dt dw)), ww ++ np_div_warning dt dw ++ []),
       val.mk xData (val.classLabel self) (NpFloat (fdiv dt dw))
              "Determinant ratio, a measure of connectedness").
Proof.
  intros Ha Hn Hw. unfold val.det_ratio.
  rewrite bindS_modifyS, bindS_getS.
  unfold bindS at 1, liftW at 1. cbn [val.set_description val.dataMatrix].
  rewrite Ha. unfold ret at 1.
  unfold bindS at 1, liftW at 1. cbn [val.set_description val.classLabel].
  rewrite Hn. unfold ret at 1.
  unfold bindS at 1, liftW at 1. cbn [val.set_description val.classLabel val.dataMatrix].
  rewrite Hw.
  rewrite bindS_modifyS, bindS_getS.
  unfold bindS, liftW, modifyS, retS. simpl.
  reflexivity.
Qed.

Lemma center_two_points :
  center_columns 1 [[Fin 1]; [Fin 3]] = [[Fin (-1)]; [Fin 1]].
Proof.
  unfold center_columns. cbn [seq fold_left column map nth].
  change [Fin 1; Fin 3] with (map Fin [1; 3]).
  rewrite np_mean_Fin by discriminate.
  cbn. repeat f_equal; lra.
Qed.

(** C2, at the data matrix [[1.], [3.]] with both objects in cluster 0:
    after [det_ratio] the data matrix of the object is [[-1.], [1.]], the
    centred matrix, and no longer the matrix it was built on. *)
Theorem det_ratio_centres_data_matrix :
  let self := val.init [[Fin 1]; [Fin 3]] [0; 0]%Z in
  val.dataMatrix (state_of (val.det_ratio self)) = [[Fin (-1)]; [Fin 1]] /\
  val.dataMatrix (state_of (val.det_ratio self)) <> val.dataMatrix self.
Proof.
  intros self.
  assert (E : val.dataMatrix (state_of (val.det_ratio self)) = [[Fin (-1)]; [Fin 1]]).
  { erewrite (det_ratio_run self 1%nat 1%Z);
      [apply center_two_points | reflexivity | reflexivity | reflexivity]. }
  split; [exact E|]. rewrite E. simpl. intros H.
  injection H as H _. lra.
Qed.

(** The same through [calculate]: the matrix stored under 'parent' in the
    data object is the centred one after the call. *)
Lemma calculate_det_ratio_centres_stored_matrix
  (silhouette_score : matrix -> list Z -> W f64) :
  let d := oe.data.mk [("parent", [[Fin 1]; [Fin 3]])] in
  let c := oe.cluster.add_solution "km" [0; 0]%Z "parent" [("K", VInt 1)]
             [0]%Z "kmeans" (oe.cluster.init d) in
  let self := oe.validation.init d c in
  let r := oe.validation.calculate silhouette_score "det_ratio" "km" "parent" self in
  result_of r = Ok (Some "det_ratio_parent_km") /\
  dget "parent" (oe.data.D (oe.validation.dataObj (state_of r)))
    = Some [[Fin (-1)]; [Fin 1]].
Proof.
  intros d c self r. subst r.
  unfold oe.validation.calculate. rewrite bindS_getS.
  change (dmem _ (oe.validation.validation_ self)) with false.
  change (dmem "parent" (oe.data.D (oe.validation.dataObj self))) with true.
  change (dmem "km" (oe.cluster.labels (oe.validation.cObj self))) with true.
  cbn [negb].
  erewrite bindS_ret by (apply metrics_available_run; reflexivity).
  change (str_in "det_ratio" val.validation_metrics_available) with true.
  cbn [negb].
  erewrite bindS_ret by reflexivity.
  erewrite bindS_ret by reflexivity.
  unfold bindS, oe.validation.run_metric.
  change (val.metric_by_name silhouette_score "det_ratio") with (Some val.det_ratio).
  cbv beta iota.
  erewrite (det_ratio_run (val.init [[Fin 1]; [Fin 3]] [0; 0]%Z) 1%nat 1%Z);
    [| reflexivity | reflexivity | reflexivity].
  cbn [val.dataMatrix val.init]. rewrite center_two_points.
  unfold result_of, state_of. simpl. split; reflexivity.
Qed.

(** ** Clusters as sub-matrices *)

Lemma take_rows_from {A} (L : list Z) (i : Z) :
  forall (D pre : list A),
    length L = length D ->
    mapM (row_at (pre ++ D)) (indices_from (length pre) L i)
    = ret (cluster_rows D L i).
Proof.
  induction L as [|x L IH]; intros D pre Hlen.
  - reflexivity.
  - destruct D as [|d D]; [discriminate|].
    injection Hlen as Hlen.
    specialize (IH D (pre ++ [d]) Hlen).
    rewrite <- app_assoc, length_app, Nat.add_1_r in IH. simpl app in IH.
    unfold indices_from, cluster_rows in *.
    cbn [length seq combine filter snd fst map].
    destruct (x =? i)%Z; cbn [map fst snd mapM].
    + unfold row_at at 1. rewrite nth_error_app2 by lia.
      rewrite Nat.sub_diag. cbn [nth_error].
      rewrite bind_ret_l, IH, bind_ret_l. reflexivity.
    + exact IH.
Qed.

Lemma indices_from_length (L : list Z) (i : Z) :
  forall (A : Type) (D : list A) (s : nat),
    length L = length D ->
    length (indices_from s L i) = length (cluster_rows D L i).
Proof.
  induction L as [|x L IH]; intros A D s Hlen.
  - reflexivity.
  - destruct D as [|d D]; [discriminate|]. injection Hlen as Hlen.
    unfold indices_from, cluster_rows in *. simpl.
    destruct (x =? i)%Z; simpl; [f_equal|]; apply IH; exact Hlen.
Qed.

Lemma take_rows_cluster {A} (D : list A) (L : list Z) (i : Z) :
  length L = length D ->
  take_rows D (indices_of L i) = ret (cluster_rows D L i).
Proof.
  intros H. exact (take_rows_from L i D [] H).
Qed.

Lemma indices_of_length {A} (D : list A) (L : list Z) (i : Z) :
  length L = length D ->
  length (indices_of L i) = length (cluster_rows D L i).
Proof. intros H. exact (indices_from_length L i A D 0 H). Qed.

Lemma cluster_rows_map {A B} (f : A -> B) (X : list A) (L : list Z) (i : Z) :
  cluster_rows (map f X) L i = map f (cluster_rows X L i).
Proof.
  unfold cluster_rows. revert X. induction L as [|x L IH]; intros X.
  - reflexivity.
  - destruct X as [|a X]; [reflexivity|]. simpl.
    destruct (x =? i)%Z; simpl; [f_equal|]; apply IH.
Qed.

Lemma cluster_rows_nonempty {A} (X : list A) (L : list Z) (i : Z) :
  length L = length X -> In i L -> cluster_rows X L i <> [].
Proof.
  unfold cluster_rows. revert X. induction L as [|x L IH]; intros X Hlen Hin.
  - destruct Hin.
  - destruct X as [|a X]; [discriminate|]. injection Hlen as Hlen. simpl.
    destruct (x =? i)%Z eqn:E; simpl; [discriminate|].
    apply IH; [exact Hlen|]. destruct Hin as [->|Hin]; [|exact Hin].
    rewrite Z.eqb_refl in E. discriminate.
Qed.

Lemma foldM_ret {A B} (f : A -> B -> W A) (g : A -> B -> A) (l : list B) :
  (forall a x, In x l -> f a x = ret (g a x)) ->
  forall a, foldM f l a = ret (fold_left g l a).
Proof.
  induction l as [|x l IH]; intros H a; simpl.
  - reflexivity.
  - rewrite H by (left; reflexivity). rewrite bind_ret_l.
    apply IH. intros a' y Hy. apply H. right. exact Hy.
Qed.

(** ** Finite data *)

Lemma ncols_finite (X : list (list R)) : ncols (finite_matrix X) = dimension X.
Proof. destruct X; simpl; [reflexivity | apply length_map]. Qed.

Lemma column_finite (j : nat) (C : list (list R)) :
  column j (finite_matrix C) = map Fin (map (fun r => nth j r 0) C).
Proof.
  unfold column, finite_matrix. rewrite !map_map. apply map_ext.
  intros r. change fzero with (Fin 0). apply map_nth.
Qed.

Lemma np_mean_axis0_finite (m : nat) (C : list (list R)) :
  C <> [] -> np_mean_axis0 m (finite_matrix C) = map Fin (centroid m C).
Proof.
  intros H. unfold np_mean_axis0, centroid. rewrite map_map. apply map_ext.
  intros j. rewrite column_finite, np_mean_Fin.
  - rewrite length_map. reflexivity.
  - destruct C; [congruence | discriminate].
Qed.

Lemma fold_Rplus_nonneg (l : list R) (a : R) :
  0 <= a -> (forall x, In x l -> 0 <= x) -> 0 <= fold_left Rplus l a.
Proof.
  revert a. induction l as [|x l IH]; intros a Ha H; simpl; [exact Ha|].
  apply IH.
  - specialize (H x (or_introl eq_refl)). lra.
  - intros y Hy. apply H. right. exact Hy.
Qed.

Lemma sq_distance_nonneg (x c : list R) : 0 <= sq_distance x c.
Proof.
  unfold sq_distance, Rsum. apply fold_Rplus_nonneg; [lra|].
  intros y Hy. apply in_map_iff in Hy. destruct Hy as [p [<- _]].
  apply Rle_0_sqr.
Qed.

Lemma sq_terms_finite (x c : list R) :
  map (fun p : f64 * f64 => let d := fsub (fst p) (snd p) in fmul d d)
      (combine (map Fin x) (map Fin c))
  = map Fin (map (fun p => (fst p - snd p) * (fst p - snd p)) (combine x c)).
Proof.
  revert c. induction x as [|a x IH]; intros c; [reflexivity|].
  destruct c as [|b c]; [reflexivity|]. simpl. f_equal. apply IH.
Qed.

Lemma euclidean_finite (x c : list R) :
  euclidean (map Fin x) (map Fin c) = Fin (sqrt (sq_distance x c)).
Proof.
  unfold euclidean.
  match goal with
  | |- fsqrt (fsum ?l) = _ =>
      replace l with (map Fin (map (fun p => (fst p - snd p) * (fst p - snd p))
                                   (combine x c)))
        by (symmetry; apply sq_terms_finite)
  end.
  rewrite fsum_Fin.
  change (fold_left Rplus (map (fun p => (fst p - snd p) * (fst p - snd p))
                               (combine x c)) 0) with (sq_distance x c).
  simpl.
  destruct (Rlt_dec (sq_distance x c) 0) as [H|H]; [|reflexivity].
  pose proof (sq_distance_nonneg x c). lra.
Qed.

Lemma math_pow2_euclidean (x c : list R) :
  math_pow2 (PyFloat (euclidean (map Fin x) (map Fin c)))
  = PyFloat (Fin (sq_distance x c)).
Proof.
  rewrite euclidean_finite. unfold math_pow2. simpl.
  rewrite sqrt_sqrt by apply sq_distance_nonneg. reflexivity.
Qed.

Lemma fold_left_map {A B C} (f : A -> C -> A) (g : B -> C) (l : list B) (a : A) :
  fold_left f (map g l) a = fold_left (fun a x => f a (g x)) l a.
Proof. revert a. induction l as [|x l IH]; intros a; simpl; [reflexivity | apply IH]. Qed.

Lemma fold_left_ext_in {A B} (f g : A -> B -> A) (l : list B) :
  (forall a x, In x l -> f a x = g a x) ->
  forall a, fold_left f l a = fold_left g l a.
Proof.
  induction l as [|x l IH]; intros H a; simpl; [reflexivity|].
  rewrite H by (left; reflexivity). apply IH.
  intros a' y Hy. apply H. right. exact Hy.
Qed.

(** Adding Python floats to a running sum that started at the int 0. *)
Lemma fold_py_add_float {A} (q : A -> R) (l : list A) (a : R) :
  fold_left (fun s x => py_add s (PyFloat (Fin (q x)))) l (PyFloat (Fin a))
  = PyFloat (Fin (fold_left Rplus (map q l) a)).
Proof.
  revert a. induction l as [|x l IH]; intros a; simpl; [reflexivity | apply IH].
Qed.

Lemma fold_py_add_from_zero {A} (q : A -> R) (l : list A) :
  l <> [] ->
  fold_left (fun s x => py_add s (PyFloat (Fin (q x)))) l (PyInt 0)
  = PyFloat (Fin (Rsum (map q l))).
Proof.
  destruct l as [|x l]; [congruence|]. intros _. simpl.
  rewrite fold_py_add_float. reflexivity.
Qed.

Lemma sum_sq_dist_finite (C : list (list R)) (c : list R) :
  C <> [] ->
  val.sum_sq_dist (finite_matrix C) (map Fin c)
  = PyFloat (Fin (Rsum (map (fun x => sq_distance x c) C))).
Proof.
  intros H. unfold val.sum_sq_dist, finite_matrix.
  rewrite <- (fold_py_add_from_zero (fun x => sq_distance x c) C H).
  rewrite fold_left_map. apply fold_left_ext_in. intros s x _.
  rewrite math_pow2_euclidean. reflexivity.
Qed.

Lemma three_points_contiguous : contiguous [0; 1; 1]%Z 2.
Proof.
  intros x. simpl. lia.
Defined.

(** ** Sums do not depend on the order of the terms *)

Lemma fadd_comm (a b : f64) : fadd a b = fadd b a.
Proof. destruct a, b; simpl; try reflexivity; f_equal; ring. Qed.

Lemma fadd_assoc (a b c : f64) : fadd (fadd a b) c = fadd a (fadd b c).
Proof. destruct a, b, c; simpl; try reflexivity; f_equal; ring. Qed.

Lemma fadd_IZR (x y : Z) :
  Fin (IZR (x + y)) = fadd (Fin (IZR x)) (Fin (IZR y)).
Proof. simpl. rewrite plus_IZR. reflexivity. Qed.

Lemma py_add_comm (a b : pynum) : py_add a b = py_add b a.
Proof.
  destruct a, b; unfold py_add, wrap; cbn [is_np orb to_f64];
    try (f_equal; lia); rewrite fadd_comm; reflexivity.
Qed.

Lemma py_add_assoc (a b c : pynum) :
  py_add (py_add a b) c = py_add a (py_add b c).
Proof.
  destruct a as [x|x|x], b as [y|y|y], c as [z|z|z];
    unfold py_add, wrap; cbn [is_np orb to_f64];
    try (f_equal; lia); rewrite ?fadd_IZR, ?fadd_assoc; reflexivity.
Qed.

Lemma py_add_rcomm (a x y : pynum) :
  py_add (py_add a x) y = py_add (py_add a y) x.
Proof.
  rewrite !py_add_assoc. f_equal. apply py_add_comm.
Qed.

(** A left fold whose step commutes on the right ignores the order. *)
Lemma fold_left_perm {A B} (g : A -> B -> A) :
  (forall a x y, g (g a x) y = g (g a y) x) ->
  forall l l', Permutation l l' -> forall a, fold_left g l a = fold_left g l' a.
Proof.
  intros Hg l l' P. induction P; intros a; simpl.
  - reflexivity.
  - apply IHP.
  - rewrite Hg. reflexivity.
  - rewrite IHP1. apply IHP2.
Qed.

(** The same when the step commutes on elements with a property the lists
    have throughout. *)
Lemma fold_left_perm_in {A B} (P : B -> Prop) (g : A -> B -> A) :
  (forall a x y, P x -> P y -> g (g a x) y = g (g a y) x) ->
  forall l l', Permutation l l' -> Forall P l ->
  forall a, fold_left g l a = fold_left g l' a.
Proof.
  intros Hg l l' Hp. induction Hp; intros HP a; simpl.
  - reflexivity.
  - inversion HP; subst. apply IHHp. assumption.
  - inversion HP as [|? ? Py HP']; subst. inversion HP' as [|? ? Px HP'']; subst.
    rewrite Hg by assumption. reflexivity.
  - rewrite IHHp1 by assumption. apply IHHp2.
    eapply Permutation_Forall; eassumption.
Qed.

Lemma foldM_map {A B C} (f : A -> C -> W A) (g : B -> C) (l : list B) (a : A) :
  foldM (fun a x => f a (g x)) l a = foldM f (map g l) a.
Proof.
  revert a. induction l as [|x l IH]; intros a; simpl; [reflexivity|].
  destruct (f a (g x)) as [[a'|e] w]; simpl; [rewrite IH|]; reflexivity.
Qed.

Lemma foldM_ext_in {A B} (f g : A -> B -> W A) (l : list B) :
  (forall a x, In x l -> f a x = g a x) ->
  forall a, foldM f l a = foldM g l a.
Proof.
  induction l as [|x l IH]; intros H a; simpl; [reflexivity|].
  rewrite H by (left; reflexivity).
  destruct (g a x) as [[a'|e] w]; simpl; [|reflexivity].
  rewrite IH; [reflexivity|]. intros a0 y Hy. apply H. right. exact Hy.
Qed.

Lemma py_sum_perm (l l' : list f64) :
  Permutation l l' -> py_sum l = py_sum l'.
Proof.
  intros P. unfold py_sum. apply fold_left_perm; [|exact P].
  intros a x y. apply py_add_rcomm.
Qed.

(** ** Relabelling *)

Lemma contiguous_counts (L : list Z) (K : Z) :
  (1 <= K)%Z -> contiguous L K ->
  val.numCluster_max L = ret K /\ val.numCluster_unique L = K.
Proof.
  intros HK Hc.
  assert (Hne : L <> []).
  { intros E. subst. apply (proj2 (Hc 0%Z)). lia. }
  destruct (py_max_spec L Hne) as [m [Hm [Hin Hmax]]].
  assert (m + 1 = K)%Z.
  { pose proof (proj1 (Hc m) Hin) as H1.
    assert (In (K - 1)%Z L) as H2 by (apply Hc; lia).
    specialize (Hmax _ H2). lia. }
  split.
  - unfold val.numCluster_max. rewrite Hm, bind_ret_l. subst K. reflexivity.
  - apply contiguous_unique_count; [lia | exact Hc].
Qed.

Lemma contiguous_cases (L : list Z) (K : Z) :
  contiguous L K -> L = [] \/ (1 <= K)%Z.
Proof.
  intros Hc. destruct L as [|a l]; [left; reflexivity|]. right.
  pose proof (proj1 (Hc a) (or_introl eq_refl)). lia.
Qed.

Section Relabel.

Variables (L : list Z) (K : Z) (sigma : Z -> Z).
Hypothesis labels_contiguous : contiguous L K.
Hypothesis sigma_permutes : permutes sigma K.

Lemma relabel_range : Permutation (map sigma (range_ K)) (range_ K).
Proof.
  destruct sigma_permutes as [Hr Hi].
  apply NoDup_Permutation_bis.
  - assert (G : forall l, NoDup l -> (forall x, In x l -> (0 <= x < K)%Z) ->
                          NoDup (map sigma l)).
    { induction l as [|x l IH]; intros Hnd Hl; simpl; constructor.
      - intros Hin. apply in_map_iff in Hin. destruct Hin as [y [E Hy]].
        inversion Hnd; subst.
        assert (y = x) by (apply Hi; auto using in_eq, in_cons).
        subst. contradiction.
      - inversion Hnd; subst. apply IH; [assumption|].
        intros y Hy. apply Hl. right. exact Hy. }
    apply G; [apply range_NoDup|]. intros x Hx. apply range_in. exact Hx.
  - rewrite length_map. apply Nat.le_refl.
  - intros y Hy. apply in_map_iff in Hy. destruct Hy as [x [<- Hx]].
    apply range_in. apply Hr. apply range_in. exact Hx.
Qed.

Lemma relabel_contiguous : contiguous (map sigma L) K.
Proof.
  destruct sigma_permutes as [Hr Hi]. intros y. split.
  - intros Hy. apply in_map_iff in Hy. destruct Hy as [x [<- Hx]].
    apply Hr, labels_contiguous, Hx.
  - intros Hy.
    assert (Hin : In y (map sigma (range_ K))).
    { apply (Permutation_in y (Permutation_sym relabel_range)).
      apply range_in. exact Hy. }
    apply in_map_iff in Hin. destruct Hin as [x [<- Hx]].
    apply in_map. apply labels_contiguous. apply range_in. exact Hx.
Qed.

Lemma relabel_cluster_rows {A} (X : list A) (i : Z) :
  (0 <= i < K)%Z ->
  cluster_rows X (map sigma L) (sigma i) = cluster_rows X L i.
Proof.
  intros Hi. destruct sigma_permutes as [Hr Hinj].
  unfold cluster_rows.
  assert (G : forall l X, (forall x, In x l -> (0 <= x < K)%Z) ->
            map snd (filter (fun p : Z * A => (fst p =? sigma i)%Z)
                            (combine (map sigma l) X))
            = map snd (filter (fun p : Z * A => (fst p =? i)%Z) (combine l X))).
  { induction l as [|x l IH]; intros X0 Hl; [reflexivity|].
    destruct X0 as [|a X0]; [reflexivity|]. simpl.
    assert (E : (sigma x =? sigma i)%Z = (x =? i)%Z).
    { destruct (x =? i)%Z eqn:E1.
      - apply Z.eqb_eq in E1. subst. apply Z.eqb_refl.
      - apply Z.eqb_neq. intros E2. apply Z.eqb_neq in E1. apply E1.
        apply Hinj; auto using in_eq. }
    rewrite E. destruct (x =? i)%Z; simpl; [f_equal|]; apply IH;
      intros y Hy; apply Hl; right; exact Hy. }
  apply G. intros x Hx. apply labels_contiguous. exact Hx.
Qed.

(** The clusters of the relabelled assignment are those of the original,
    in another order. *)
Lemma relabel_clusters {A} (X : list A) :
  Permutation (map (cluster_rows X (map sigma L)) (range_ K))
              (map (cluster_rows X L) (range_ K)).
Proof.
  replace (map (cluster_rows X L) (range_ K))
    with (map (cluster_rows X (map sigma L)) (map sigma (range_ K))).
  - apply Permutation_map. apply Permutation_sym. exact relabel_range.
  - rewrite map_map. apply map_ext_in. intros i Hi.
    apply relabel_cluster_rows. apply range_in. exact Hi.
Qed.

Lemma relabel_numCluster_max :
  val.numCluster_max (map sigma L) = val.numCluster_max L.
Proof.
  destruct (contiguous_cases L K labels_contiguous) as [E|HK].
  - rewrite E. reflexivity.
  - destruct (contiguous_counts L K HK labels_contiguous) as [E1 _].
    destruct (contiguous_counts (map sigma L) K HK relabel_contiguous)
      as [E2 _].
    rewrite E1, E2. reflexivity.
Qed.

End Relabel.

(** ** Metrics as folds over the list of clusters *)

Lemma bind_ext {A B} (m : W A) (k k' : A -> W B) :
  (forall a, k a = k' a) -> bind m k = bind m k'.
Proof.
  intros H. destruct m as [[a|e] w]; simpl; [rewrite H|]; reflexivity.
Qed.

Lemma foldM_pure {A B C} (g : A -> C -> A) (h : B -> C) (l : list B) (a : A) :
  foldM (fun a x => ret (g a (h x))) l a = ret (fold_left g (map h l) a).
Proof.
  revert a. induction l as [|x l IH]; intros a; cbn [foldM map fold_left];
    [reflexivity|].
  rewrite bind_ret_l. apply IH.
Qed.

Lemma method_result (desc : string) (core : matrix -> list Z -> W pynum)
  (D : matrix) (L : list Z) :
  result_of (val.method desc core (val.init D L)) = out (core D L).
Proof.
  unfold val.method. rewrite bindS_modifyS, bindS_getS.
  unfold bindS, liftW, modifyS, retS, result_of, out.
  cbn [val.set_description val.init val.dataMatrix val.classLabel].
  destruct (core D L) as [[v|e] w]; reflexivity.
Qed.

(** A metric whose dependence on the labels goes through the number of
    objects, the number of clusters and the clusters themselves, in any
    order, is invariant under relabelling. *)
Lemma relabel_invariant_core
  (D : matrix) (core : matrix -> list Z -> W pynum)
  (fin : Z -> Z -> list matrix -> W pynum) (P : matrix -> Prop) :
  (forall L K, (1 <= K)%Z -> contiguous L K -> length L = length D ->
     core D L = fin (val.len L) K (map (cluster_rows D L) (range_ K))) ->
  (forall L K i, contiguous L K -> length L = length D -> (0 <= i < K)%Z ->
     P (cluster_rows D L i)) ->
  (forall N K cl cl', Permutation cl cl' -> Forall P cl ->
     fin N K cl = fin N K cl') ->
  forall L K sigma,
    contiguous L K -> permutes sigma K -> length L = length D ->
    core D (map sigma L) = core D L.
Proof.
  intros Hcore HP Hperm L K sigma Hc Hs Hlen.
  destruct (contiguous_cases L K Hc) as [E|HK]; [rewrite E; reflexivity|].
  rewrite (Hcore L K HK Hc Hlen).
  rewrite (Hcore (map sigma L) K HK (relabel_contiguous L K sigma Hc Hs))
    by (rewrite length_map; exact Hlen).
  unfold val.len. rewrite length_map. symmetry. apply Hperm.
  - apply Permutation_sym. apply relabel_clusters; assumption.
  - apply Forall_forall. intros C HC. apply in_map_iff in HC.
    destruct HC as [i [<- Hi]]. apply (HP L K i Hc Hlen). apply range_in. exact Hi.
Qed.

Lemma clusters_nonempty {A} (D : list A) (L : list Z) (K i : Z) :
  contiguous L K -> length L = length D -> (0 <= i < K)%Z ->
  nonempty (cluster_rows D L i).
Proof.
  intros Hc Hlen Hi. apply cluster_rows_nonempty; [exact Hlen | apply Hc, Hi].
Qed.

(** *** c_index *)

Lemma c_index_visits (D : matrix) (L : list Z) (n : Z) :
  val.numCluster_max L = ret n -> length L = length D ->
  val.c_index_core D L = c_index_fin D (map (cluster_rows D L) (range_ n)).
Proof.
  intros Hn Hlen. unfold val.c_index_core.
  rewrite Hn, bind_ret_l.
  rewrite (foldM_ext_in _ (fun acc i => ret (c_index_step acc (cluster_rows D L i)))).
  - rewrite foldM_pure, bind_ret_l. unfold c_index_fin.
    destruct (fold_left c_index_step _ _) as [sw nw]. reflexivity.
  - intros [sw nw] i _. rewrite take_rows_cluster by exact Hlen.
    rewrite bind_ret_l. reflexivity.
Qed.

Lemma c_index_clusters (D : matrix) (L : list Z) (K : Z) :
  (1 <= K)%Z -> contiguous L K -> length L = length D ->
  val.c_index_core D L = c_index_fin D (map (cluster_rows D L) (range_ K)).
Proof.
  intros HK Hc. apply c_index_visits, (contiguous_counts L K HK Hc).
Qed.

Lemma c_index_step_rcomm (a : pynum * Z) (x y : matrix) :
  c_index_step (c_index_step a x) y = c_index_step (c_index_step a y) x.
Proof.
  destruct a as [sw nw]. unfold c_index_step. f_equal; [apply py_add_rcomm | lia].
Qed.

Lemma c_index_relabel (D : matrix) (L : list Z) (K : Z) (sigma : Z -> Z) :
  contiguous L K -> permutes sigma K -> length L = length D ->
  val.c_index_core D (map sigma L) = val.c_index_core D L.
Proof.
  apply (relabel_invariant_core D val.c_index_core (fun _ _ => c_index_fin D)
           (fun _ => True)).
  - intros. apply c_index_clusters; assumption.
  - intros. exact I.
  - intros N K0 cl cl' Hp _. unfold c_index_fin.
    rewrite (fold_left_perm c_index_step c_index_step_rcomm cl cl' Hp).
    reflexivity.
Qed.

(** *** log_ss_ratio *)

Lemma len_indices {A} (D : list A) (L : list Z) (i : Z) :
  length L = length D ->
  val.len (indices_of L i) = val.len (cluster_rows D L i).
Proof.
  intros H. unfold val.len. rewrite (indices_of_length D L i H). reflexivity.
Qed.

Lemma log_ss_visits (D : matrix) (L : list Z) (n : Z) :
  val.numCluster_max L = ret n -> length L = length D ->
  val.log_ss_ratio_core D L = log_ss_fin D (map (cluster_rows D L) (range_ n)).
Proof.
  intros Hn Hlen. unfold val.log_ss_ratio_core.
  rewrite Hn, bind_ret_l.
  cbv zeta.
  rewrite (foldM_ext_in _
             (fun acc i => ret (log_ss_step (ncols D) (np_mean_axis0 (ncols D) D)
                                            acc (cluster_rows D L i)))).
  - rewrite foldM_pure, bind_ret_l. unfold log_ss_fin.
    destruct (fold_left _ _ _) as [bgss wgss]. reflexivity.
  - intros [bgss wgss] i _. rewrite take_rows_cluster by exact Hlen.
    rewrite bind_ret_l, (len_indices D L i Hlen). reflexivity.
Qed.

Lemma log_ss_clusters (D : matrix) (L : list Z) (K : Z) :
  (1 <= K)%Z -> contiguous L K -> length L = length D ->
  val.log_ss_ratio_core D L = log_ss_fin D (map (cluster_rows D L) (range_ K)).
Proof.
  intros HK Hc. apply log_ss_visits, (contiguous_counts L K HK Hc).
Qed.

Lemma log_ss_step_rcomm (m : nat) (c : vector) (a : pynum * pynum) (x y : matrix) :
  log_ss_step m c (log_ss_step m c a x) y = log_ss_step m c (log_ss_step m c a y) x.
Proof.
  destruct a as [bgss wgss]. unfold log_ss_step. f_equal; apply py_add_rcomm.
Qed.

Lemma log_ss_relabel (D : matrix) (L : list Z) (K : Z) (sigma : Z -> Z) :
  contiguous L K -> permutes sigma K -> length L = length D ->
  val.log_ss_ratio_core D (map sigma L) = val.log_ss_ratio_core D L.
Proof.
  apply (relabel_invariant_core D val.log_ss_ratio_core (fun _ _ => log_ss_fin D)
           (fun _ => True)).
  - intros. apply log_ss_clusters; assumption.
  - intros. exact I.
  - intros N K0 cl cl' Hp _. unfold log_ss_fin.
    rewrite (fold_left_perm _ (log_ss_step_rcomm _ _) cl cl' Hp).
    reflexivity.
Qed.

(** *** Ball_Hall *)

Lemma sum_sq_dist_kind (C : matrix) (c : vector) :
  is_np (val.sum_sq_dist C c) = false.
Proof.
  unfold val.sum_sq_dist.
  assert (G : forall a, is_np a = false ->
            is_np (fold_left (fun sumDis member =>
                      py_add sumDis (math_pow2 (PyFloat (euclidean member c))))
                    C a) = false).
  { induction C as [|x C IH]; intros a Ha; simpl; [exact Ha|].
    apply IH. destruct a; [reflexivity | reflexivity | discriminate]. }
  apply G. reflexivity.
Qed.

Lemma py_truediv_python (a : pynum) (n : Z) :
  is_np a = false -> n <> 0%Z ->
  py_truediv a (PyInt n) = ret (PyFloat (fdiv (to_f64 a) (Fin (IZR n)))).
Proof.
  intros Ha Hn. unfold py_truediv. rewrite Ha. cbn [is_np orb py_is_zero to_f64].
  apply Z.eqb_neq in Hn. rewrite Hn. reflexivity.
Qed.

Lemma len_nonempty {A} (C : list A) : nonempty C -> val.len C <> 0%Z.
Proof. unfold nonempty, val.len. destruct C; [congruence | simpl; lia]. Qed.

Lemma Ball_Hall_clusters (D : matrix) (L : list Z) (K : Z) :
  (1 <= K)%Z -> contiguous L K -> length L = length D ->
  val.Ball_Hall_core D L = Ball_Hall_fin D K (map (cluster_rows D L) (range_ K)).
Proof.
  intros HK Hc Hlen. unfold val.Ball_Hall_core. cbv zeta.
  rewrite (proj2 (contiguous_counts L K HK Hc)).
  rewrite (foldM_ext_in _
             (fun s i => ret (py_add s (dispersion (ncols D) (cluster_rows D L i))))).
  - rewrite (foldM_pure (fun s C => py_add s (dispersion (ncols D) C))
                        (cluster_rows D L)), bind_ret_l.
    reflexivity.
  - intros s i Hi. apply range_in in Hi.
    rewrite take_rows_cluster by exact Hlen.
    rewrite bind_ret_l, (len_indices D L i Hlen).
    rewrite py_truediv_python.
    + rewrite bind_ret_l. reflexivity.
    + apply sum_sq_dist_kind.
    + apply len_nonempty. eapply clusters_nonempty; eassumption.
Qed.

Lemma Ball_Hall_relabel (D : matrix) (L : list Z) (K : Z) (sigma : Z -> Z) :
  contiguous L K -> permutes sigma K -> length L = length D ->
  val.Ball_Hall_core D (map sigma L) = val.Ball_Hall_core D L.
Proof.
  apply (relabel_invariant_core D val.Ball_Hall_core (fun _ K => Ball_Hall_fin D K)
           (fun _ => True)).
  - intros. apply Ball_Hall_clusters; assumption.
  - intros. exact I.
  - intros N K0 cl cl' Hp _. unfold Ball_Hall_fin.
    rewrite (fold_left_perm (fun s C => py_add s (dispersion (ncols D) C))
               (fun a x y => py_add_rcomm a _ _) cl cl' Hp).
    reflexivity.
Qed.

(** *** The within-cluster scatter matrix: ksq_detw_index *)

Lemma vec_add_rcomm (a x y : vector) :
  vec_add (vec_add a x) y = vec_add (vec_add a y) x.
Proof.
  unfold vec_add. revert x y. induction a as [|u a IH]; intros x y; [reflexivity|].
  destruct x as [|v x], y as [|w y]; simpl; rewrite ?combine_nil;
    try reflexivity.
  f_equal; [|apply IH].
  rewrite !fadd_assoc. f_equal. apply fadd_comm.
Qed.

Lemma mat_add_rcomm (A X Y : matrix) :
  mat_add (mat_add A X) Y = mat_add (mat_add A Y) X.
Proof.
  unfold mat_add. fold vec_add.
  change (fun p : vector * vector =>
            map (fun q : f64 * f64 => fadd (fst q) (snd q)) (combine (fst p) (snd p)))
    with (fun p : vector * vector => vec_add (fst p) (snd p)).
  revert X Y. induction A as [|u A IH]; intros X Y; [reflexivity|].
  destruct X as [|v X], Y as [|w Y]; simpl; rewrite ?combine_nil;
    try reflexivity.
  f_equal; [apply vec_add_rcomm | apply IH].
Qed.

Lemma within_scatter_clusters (attributes : nat) (D : matrix) (L : list Z) (K : Z) :
  length L = length D ->
  val.within_scatter attributes D L K
  = ret (fold_left (scatter_step attributes) (map (cluster_rows D L) (range_ K))
                   (np_zeros attributes attributes)).
Proof.
  intros Hlen. unfold val.within_scatter.
  rewrite (foldM_ext_in _
             (fun wg i => ret (scatter_step attributes wg (cluster_rows D L i)))).
  - apply foldM_pure.
  - intros wg i _. rewrite take_rows_cluster by exact Hlen.
    rewrite bind_ret_l. reflexivity.
Qed.

Lemma scatter_perm (attributes : nat) (cl cl' : list matrix) (wg : matrix) :
  Permutation cl cl' ->
  fold_left (scatter_step attributes) cl wg
  = fold_left (scatter_step attributes) cl' wg.
Proof.
  intros Hp. apply fold_left_perm; [|exact Hp].
  intros a x y. apply mat_add_rcomm.
Qed.

Lemma ksq_detw_visits (D : matrix) (L : list Z) (n : Z) :
  val.numCluster_max L = ret n -> length L = length D ->
  val.ksq_detw_index_core D L = ksq_detw_fin D n (map (cluster_rows D L) (range_ n)).
Proof.
  intros Hn Hlen. unfold val.ksq_detw_index_core, ksq_detw_fin.
  apply bind_ext. intros attributes.
  rewrite Hn, bind_ret_l.
  rewrite within_scatter_clusters by exact Hlen.
  rewrite bind_ret_l. reflexivity.
Qed.

Lemma ksq_detw_clusters (D : matrix) (L : list Z) (K : Z) :
  (1 <= K)%Z -> contiguous L K -> length L = length D ->
  val.ksq_detw_index_core D L = ksq_detw_fin D K (map (cluster_rows D L) (range_ K)).
Proof.
  intros HK Hc. apply ksq_detw_visits, (contiguous_counts L K HK Hc).
Qed.

Lemma ksq_detw_relabel (D : matrix) (L : list Z) (K : Z) (sigma : Z -> Z) :
  contiguous L K -> permutes sigma K -> length L = length D ->
  val.ksq_detw_index_core D (map sigma L) = val.ksq_detw_index_core D L.
Proof.
  apply (relabel_invariant_core D val.ksq_detw_index_core
           (fun _ K => ksq_detw_fin D K) (fun _ => True)).
  - intros. apply ksq_detw_clusters; assumption.
  - intros. exact I.
  - intros N K0 cl cl' Hp _. unfold ksq_detw_fin.
    apply bind_ext. intros attributes.
    rewrite (scatter_perm attributes cl cl' _ Hp). reflexivity.
Qed.

(** *** det_ratio and log_det_ratio *)

Lemma result_bindS_ok {S A B} (m : M S A) (k : A -> M S B) (s s1 : S) (a : A)
  (w : list warning) :
  m s = ((Ok a, w), s1) -> result_of (bindS m k s) = result_of (k a s1).
Proof.
  intros H. unfold bindS, result_of. rewrite H.
  destruct (k a s1) as [[r w'] s2]. reflexivity.
Qed.

Lemma result_bindS_liftW {S A B} (m : W A) (k : A -> M S B) (s : S) :
  result_of (bindS (liftW m) k s)
  = match out m with Ok a => result_of (k a s) | Raise e => Raise e end.
Proof.
  unfold bindS, liftW, result_of, out. destruct m as [[a|e] w]; simpl.
  - destruct (k a s) as [[r w'] s2]. reflexivity.
  - reflexivity.
Qed.

Lemma compatible_first_row (D : matrix) (L : list Z) (K : Z) :
  (1 <= K)%Z -> contiguous L K -> length L = length D ->
  exists attributes, len_first_row D = ret attributes.
Proof.
  intros HK Hc Hlen. destruct D as [|r D]; [|eexists; reflexivity].
  destruct L; [|discriminate]. exfalso. apply (proj2 (Hc 0%Z)). lia.
Qed.

Section DetRatio.

Variables (D : matrix) (L : list Z) (K : Z) (sigma : Z -> Z).
Hypothesis K_pos : (1 <= K)%Z.
Hypothesis labels_contiguous : contiguous L K.
Hypothesis sigma_permutes : permutes sigma K.
Hypothesis compatible : length L = length D.

Lemma det_ratio_relabel_run (desc : string) (v0 : pynum) :
  exists v w X',
    val.det_ratio (val.mk D (map sigma L) v0 desc)
      = ((Ok v, w), val.mk X' (map sigma L) v
                           "Determinant ratio, a measure of connectedness") /\
    val.det_ratio (val.mk D L v0 desc)
      = ((Ok v, w), val.mk X' L v
                           "Determinant ratio, a measure of connectedness").
Proof.
  destruct (compatible_first_row D L K K_pos labels_contiguous compatible)
    as [attributes Ha].
  pose proof (relabel_contiguous L K sigma labels_contiguous sigma_permutes) as Hc'.
  assert (Hlen' : length (map sigma L) = length D)
    by (rewrite length_map; exact compatible).
  pose proof (det_ratio_run (val.mk D L v0 desc) attributes K _ [] Ha
                (proj1 (contiguous_counts L K K_pos labels_contiguous))
                (within_scatter_clusters attributes D L K compatible)) as H1.
  pose proof (det_ratio_run (val.mk D (map sigma L) v0 desc) attributes K _ [] Ha
                (proj1 (contiguous_counts (map sigma L) K K_pos Hc'))
                (within_scatter_clusters attributes D (map sigma L) K Hlen')) as H2.
  cbv zeta in H1, H2. cbn [val.dataMatrix val.classLabel] in H1, H2.
  rewrite (scatter_perm attributes _ _ _
             (relabel_clusters L K sigma labels_contiguous sigma_permutes D)) in H2.
  eexists _, _, _. split; [exact H2 | exact H1].
Qed.

Lemma det_ratio_relabel :
  result_of (val.det_ratio (val.init D (map sigma L)))
  = result_of (val.det_ratio (val.init D L)).
Proof.
  destruct (det_ratio_relabel_run "" (PyFloat NaN)) as [v [w [X' [H1 H2]]]].
  unfold val.init. rewrite H1, H2. reflexivity.
Qed.

Lemma log_det_ratio_relabel :
  result_of (val.log_det_ratio (val.init D (map sigma L)))
  = result_of (val.log_det_ratio (val.init D L)).
Proof.
  unfold val.log_det_ratio.
  rewrite !bindS_modifyS, !bindS_getS.
  destruct (det_ratio_relabel_run
              "The log determinant ratio index, a measure of connectedness"
              (PyFloat NaN)) as [v [w [X' [H1 H2]]]].
  unfold val.init, val.set_description.
  cbn [val.dataMatrix val.classLabel val.validation_ val.description].
  rewrite (result_bindS_ok _ _ _ _ _ _ H1), (result_bindS_ok _ _ _ _ _ _ H2).
  rewrite !result_bindS_liftW.
  destruct (out (math_log v)) as [lg|e]; [|reflexivity].
  rewrite !bindS_modifyS. unfold retS, result_of, val.len. simpl.
  rewrite length_map. reflexivity.
Qed.

End DetRatio.

(** *** Ratkowsky_Lance *)

Lemma Ratkowsky_Lance_visits (D : matrix) (L : list Z) (n : Z) :
  val.numCluster_max L = ret n -> length L = length D ->
  val.Ratkowsky_Lance_core D L
  = Ratkowsky_Lance_fin D n (map (cluster_rows D L) (range_ n)).
Proof.
  intros Hn Hlen. unfold val.Ratkowsky_Lance_core, Ratkowsky_Lance_fin.
  apply bind_ext. intros attributes.
  rewrite Hn, bind_ret_l.
  f_equal. apply foldM_ext_in. intros list_divide i _. cbv zeta.
  rewrite (foldM_ext_in _
             (fun bgssj j => ret (between_step (np_mean (column i D)) bgssj
                                               (cluster_rows D L j)))).
  - rewrite (foldM_pure (between_step (np_mean (column i D))) (cluster_rows D L)),
      bind_ret_l.
    reflexivity.
  - intros bgssj j _. rewrite take_rows_cluster by exact Hlen.
    rewrite bind_ret_l, (len_indices D L j Hlen). reflexivity.
Qed.

Lemma Ratkowsky_Lance_clusters (D : matrix) (L : list Z) (K : Z) :
  (1 <= K)%Z -> contiguous L K -> length L = length D ->
  val.Ratkowsky_Lance_core D L
  = Ratkowsky_Lance_fin D K (map (cluster_rows D L) (range_ K)).
Proof.
  intros HK Hc. apply Ratkowsky_Lance_visits, (contiguous_counts L K HK Hc).
Qed.

Lemma Ratkowsky_Lance_relabel (D : matrix) (L : list Z) (K : Z) (sigma : Z -> Z) :
  contiguous L K -> permutes sigma K -> length L = length D ->
  val.Ratkowsky_Lance_core D (map sigma L) = val.Ratkowsky_Lance_core D L.
Proof.
  apply (relabel_invariant_core D val.Ratkowsky_Lance_core
           (fun _ K => Ratkowsky_Lance_fin D K) (fun _ => True)).
  - intros. apply Ratkowsky_Lance_clusters; assumption.
  - intros. exact I.
  - intros N K0 cl cl' Hp _. unfold Ratkowsky_Lance_fin.
    apply bind_ext. intros attributes. f_equal.
    apply foldM_ext_in. intros list_divide i _. cbv zeta.
    rewrite (fold_left_perm (between_step (np_mean (column i D)))
               (fun a x y => py_add_rcomm a _ _) cl cl' Hp).
    reflexivity.
Qed.

(** *** PBM_index *)

Lemma fadd_0_l (x : f64) : fadd (Fin 0) x = x.
Proof. destruct x; simpl; try reflexivity. f_equal. ring. Qed.

Lemma py_add_0_l (x : pynum) : py_add (PyInt 0) x = x.
Proof.
  destruct x; unfold py_add, wrap; cbn [is_np orb to_f64];
    [reflexivity | |]; rewrite fadd_0_l; reflexivity.
Qed.

Lemma fold_py_add_shift {A} (f : A -> pynum) (l : list A) (a : pynum) :
  fold_left (fun s x => py_add s (f x)) l a
  = py_add a (fold_left (fun s x => py_add s (f x)) l (PyInt 0)).
Proof.
  revert a. induction l as [|x l IH]; intros a; cbn [fold_left].
  - rewrite py_add_comm, py_add_0_l. reflexivity.
  - rewrite IH, (IH (py_add (PyInt 0) (f x))), py_add_0_l, py_add_assoc.
    reflexivity.
Qed.

Lemma fold_pair_split {A} (f g : A -> pynum) (l : list A) (a b : pynum) :
  fold_left (fun '(x, y) m => (py_add x (f m), py_add y (g m))) l (a, b)
  = (fold_left (fun s m => py_add s (f m)) l a,
     fold_left (fun s m => py_add s (g m)) l b).
Proof.
  revert a b. induction l as [|m l IH]; intros a b; simpl; [reflexivity | apply IH].
Qed.

Lemma pbm_fold (m : nat) (c : vector) (cl : list matrix) :
  forall ew et lst,
    fold_left (pbm_step m c) cl (ew, et, lst)
    = (fold_left (fun s C => py_add s (pbm_ew m C)) cl ew,
       fold_left (fun s C => py_add s (pbm_et c C)) cl et,
       lst ++ map (pbm_d m c) cl).
Proof.
  induction cl as [|C cl IH]; intros ew et lst; simpl.
  - rewrite app_nil_r. reflexivity.
  - rewrite (fold_pair_split
               (fun member => PyFloat (euclidean member (np_mean_axis0 m C)))
               (fun member => PyFloat (euclidean member c))).
    rewrite IH, <- app_assoc. simpl.
    rewrite (fold_py_add_shift _ C ew), (fold_py_add_shift _ C et).
    reflexivity.
Qed.

Lemma PBM_index_visits (D : matrix) (L : list Z) (n : Z) :
  val.numCluster_max L = ret n -> length L = length D ->
  val.PBM_index_core D L = PBM_index_fin D n (map (cluster_rows D L) (range_ n)).
Proof.
  intros Hn Hlen. unfold val.PBM_index_core.
  rewrite Hn, bind_ret_l.
  cbv zeta.
  rewrite (foldM_ext_in _
             (fun acc i => ret (pbm_step (ncols D) (np_mean_axis0 (ncols D) D)
                                         acc (cluster_rows D L i)))).
  - rewrite foldM_pure, bind_ret_l. unfold PBM_index_fin.
    destruct (fold_left _ _ _) as [[ew et] lst]. reflexivity.
  - intros [[ew et] lst] i _. rewrite take_rows_cluster by exact Hlen.
    rewrite bind_ret_l. unfold pbm_step.
    destruct (fold_left _ (cluster_rows D L i) (ew, et)) as [ew' et']. reflexivity.
Qed.

Lemma PBM_index_clusters (D : matrix) (L : list Z) (K : Z) :
  (1 <= K)%Z -> contiguous L K -> length L = length D ->
  val.PBM_index_core D L = PBM_index_fin D K (map (cluster_rows D L) (range_ K)).
Proof.
  intros HK Hc. apply PBM_index_visits, (contiguous_counts L K HK Hc).
Qed.

Lemma fmax_rcomm (a x y : f64) :
  is_distance a -> is_distance x -> is_distance y ->
  fmax (fmax a x) y = fmax (fmax a y) x.
Proof.
  intros [ra [_ ->]] [rx [_ ->]] [ry [_ ->]]. unfold fmax, fgtb, fltb.
  repeat (match goal with
          | |- context [Rlt_dec ?u ?v] => destruct (Rlt_dec u v)
          end; try reflexivity; try (f_equal; lra); try (exfalso; lra)).
Qed.

Lemma fmax_distance (a x : f64) :
  is_distance a -> is_distance x -> is_distance (fmax a x).
Proof. intros Ha Hx. unfold fmax. destruct (fgtb x a); assumption. Qed.

Lemma fold_fmax_distance (l : list f64) (a : f64) :
  is_distance a -> Forall is_distance l -> is_distance (fold_left fmax l a).
Proof.
  revert a. induction l as [|x l IH]; intros a Ha Hl; simpl; [exact Ha|].
  inversion Hl; subst. apply IH; [apply fmax_distance|]; assumption.
Qed.

Lemma fold_fmax_perm (l l' : list f64) :
  Permutation l l' -> Forall is_distance l ->
  forall a, is_distance a -> fold_left fmax l a = fold_left fmax l' a.
Proof.
  intros Hp. induction Hp; intros Hl a Ha; simpl.
  - reflexivity.
  - inversion Hl; subst. apply IHHp; [|apply fmax_distance]; assumption.
  - inversion Hl as [|? ? Hy Hl']; subst. inversion Hl' as [|? ? Hx Hl'']; subst.
    rewrite fmax_rcomm by assumption. reflexivity.
  - rewrite IHHp1 by assumption. apply IHHp2; [|assumption].
    eapply Permutation_Forall; eassumption.
Qed.

Lemma fmax_zero (x : f64) : is_distance x -> fmax (Fin 0) x = x.
Proof.
  intros [r [Hr ->]]. unfold fmax, fgtb, fltb.
  destruct (Rlt_dec 0 r); [reflexivity | f_equal; lra].
Qed.

Lemma py_max_f64_distances (l : list f64) :
  Forall is_distance l -> l <> [] ->
  py_max_f64 l = ret (fold_left fmax l (Fin 0)).
Proof.
  intros Hl Hne. destruct l as [|x l]; [congruence|]. simpl.
  inversion Hl; subst. rewrite fmax_zero by assumption. reflexivity.
Qed.

Lemma py_max_f64_perm (l l' : list f64) :
  Permutation l l' -> Forall is_distance l -> py_max_f64 l = py_max_f64 l'.
Proof.
  intros Hp Hl. destruct l as [|x l].
  - apply Permutation_nil in Hp. subst. reflexivity.
  - assert (Hl' : Forall is_distance l') by (eapply Permutation_Forall; eassumption).
    rewrite (py_max_f64_distances (x :: l) Hl) by discriminate.
    rewrite (py_max_f64_distances l' Hl').
    + rewrite (fold_fmax_perm _ _ Hp Hl); [reflexivity|].
      exists 0. split; [lra | reflexivity].
    + intros E. subst. apply Permutation_sym, Permutation_nil in Hp. discriminate.
Qed.

Lemma PBM_index_fin_perm (D : matrix) (K : Z) (cl cl' : list matrix) :
  Permutation cl cl' ->
  Forall (fun C => is_distance (pbm_d (ncols D) (np_mean_axis0 (ncols D) D) C)) cl ->
  PBM_index_fin D K cl = PBM_index_fin D K cl'.
Proof.
  intros Hp Hd. unfold PBM_index_fin. rewrite !pbm_fold. cbn [app].
  rewrite (fold_left_perm (fun s C => py_add s (pbm_ew (ncols D) C))
             (fun a x y => py_add_rcomm a _ _) cl cl' Hp).
  rewrite (fold_left_perm
             (fun s C => py_add s (pbm_et (np_mean_axis0 (ncols D) D) C))
             (fun a x y => py_add_rcomm a _ _) cl cl' Hp).
  rewrite (py_max_f64_perm (map (pbm_d (ncols D) (np_mean_axis0 (ncols D) D)) cl)
             (map (pbm_d (ncols D) (np_mean_axis0 (ncols D) D)) cl')).
  - reflexivity.
  - apply Permutation_map. exact Hp.
  - apply Forall_map. exact Hd.
Qed.

Lemma PBM_index_relabel (X : list (list R)) (L : list Z) (K : Z) (sigma : Z -> Z) :
  contiguous L K -> permutes sigma K -> length L = length (finite_matrix X) ->
  val.PBM_index_core (finite_matrix X) (map sigma L)
  = val.PBM_index_core (finite_matrix X) L.
Proof.
  set (D := finite_matrix X).
  apply (relabel_invariant_core D val.PBM_index_core
           (fun _ K => PBM_index_fin D K)
           (fun C => is_distance (pbm_d (ncols D) (np_mean_axis0 (ncols D) D) C))).
  - intros. apply PBM_index_clusters; assumption.
  - intros L0 K0 i Hc Hlen Hi. unfold D in *. unfold finite_matrix in Hlen.
    rewrite length_map in Hlen.
    assert (HX : X <> []).
    { intros E. subst X. destruct L0; [|discriminate].
      apply (proj2 (Hc i)). exact Hi. }
    unfold pbm_d. unfold finite_matrix at 4. rewrite cluster_rows_map.
    change (map (map Fin) (cluster_rows X L0 i))
      with (finite_matrix (cluster_rows X L0 i)).
    rewrite ncols_finite.
    rewrite (np_mean_axis0_finite _ X HX).
    rewrite np_mean_axis0_finite
      by (apply cluster_rows_nonempty; [exact Hlen | apply Hc, Hi]).
    rewrite euclidean_finite. eexists. split; [apply sqrt_pos | reflexivity].
  - intros N K0 cl cl' Hp Hd. apply PBM_index_fin_perm; assumption.
Qed.

(** *** Banfeld_Raferty *)

Lemma math_log_defined (q : pynum) :
  py_le q (PyInt 0) = false -> math_log q = ret (PyFloat (flog (to_f64 q))).
Proof.
  unfold py_le, fleb, math_log. cbn [to_f64]. intros H.
  destruct (to_f64 q) as [r| | |]; simpl in *; try reflexivity; try discriminate.
  destruct (Rlt_dec r 0) as [H1|H1]; [discriminate|].
  destruct (Req_dec_T r 0) as [H2|H2]; [discriminate|].
  destruct (Rlt_dec 0 r) as [H3|H3]; [reflexivity | exfalso; lra].
Qed.

Lemma Banfeld_sum_rcomm (m : nat) (a : pynum) (x y : matrix) :
  Banfeld_sum m (Banfeld_sum m a x) y = Banfeld_sum m (Banfeld_sum m a y) x.
Proof.
  unfold Banfeld_sum. destruct (counts m x), (counts m y); try reflexivity.
  apply py_add_rcomm.
Qed.

Lemma Banfeld_sum_skip (m : nat) (s : pynum) (C : matrix) :
  counts m C = false -> Banfeld_sum m s C = s.
Proof. intros H. unfold Banfeld_sum. rewrite H. reflexivity. Qed.

Lemma Banfeld_sum_none (m : nat) (cl : list matrix) (s : pynum) :
  existsb (counts m) cl = false -> fold_left (Banfeld_sum m) cl s = s.
Proof.
  revert s. induction cl as [|C cl IH]; intros s H; cbn [fold_left existsb] in *;
    [reflexivity|].
  apply orb_false_iff in H. destruct H as [H1 H2].
  rewrite (Banfeld_sum_skip m s C H1). apply IH, H2.
Qed.

Lemma Banfeld_fold (m : nat) (cl : list matrix) (s v : pynum) :
  fold_left (Banfeld_step m) cl (s, v)
  = (fold_left (Banfeld_sum m) cl s,
     if existsb (counts m) cl then fold_left (Banfeld_sum m) cl s else v).
Proof.
  revert s v. induction cl as [|C cl IH]; intros s v; cbn [fold_left existsb];
    [reflexivity|].
  destruct (counts m C) eqn:E; cbn [orb].
  - replace (Banfeld_step m (s, v) C)
      with (py_add s (weighted_log m C), py_add s (weighted_log m C))
      by (unfold Banfeld_step; rewrite E; reflexivity).
    replace (Banfeld_sum m s C) with (py_add s (weighted_log m C))
      by (unfold Banfeld_sum; rewrite E; reflexivity).
    rewrite IH. destruct (existsb (counts m) cl) eqn:E2; [reflexivity|].
    rewrite Banfeld_sum_none by exact E2. reflexivity.
  - replace (Banfeld_step m (s, v) C) with (s, v)
      by (unfold Banfeld_step; rewrite E; reflexivity).
    rewrite (Banfeld_sum_skip m s C E). apply IH.
Qed.

Lemma existsb_perm {A} (f : A -> bool) (l l' : list A) :
  Permutation l l' -> existsb f l = existsb f l'.
Proof.
  intros Hp. induction Hp; simpl.
  - reflexivity.
  - rewrite IHHp. reflexivity.
  - destruct (f x), (f y); reflexivity.
  - congruence.
Qed.

Lemma Banfeld_fold_perm (m : nat) (cl cl' : list matrix) (s v : pynum) :
  Permutation cl cl' ->
  fold_left (Banfeld_step m) cl (s, v) = fold_left (Banfeld_step m) cl' (s, v).
Proof.
  intros Hp. rewrite !Banfeld_fold.
  rewrite (fold_left_perm (Banfeld_sum m) (Banfeld_sum_rcomm m) cl cl' Hp).
  rewrite (existsb_perm (counts m) cl cl' Hp). reflexivity.
Qed.

Section Banfeld.

Variables (D : matrix) (L : list Z).
Hypothesis compatible : length L = length D.

Lemma Banfeld_round (sumTotal : pynum) (i : Z) (v : pynum) (desc : string)
  (D0 : matrix) (L0 : list Z) :
  nonempty (cluster_rows D L i) ->
  exists ws,
    Banfeld_body D L sumTotal i (val.mk D0 L0 v desc)
    = let r := Banfeld_step (ncols D) (sumTotal, v) (cluster_rows D L i) in
      ((Ok (fst r), ws), val.mk D0 L0 (snd r) desc).
Proof.
  intros Hne. unfold Banfeld_body. cbv zeta.
  erewrite bindS_ret by (unfold liftW; rewrite take_rows_cluster by exact compatible;
                         reflexivity).
  rewrite (len_indices D L i compatible).
  assert (Hq : py_truediv
                 (val.sum_sq_dist (cluster_rows D L i)
                    (np_mean_axis0 (ncols D) (cluster_rows D L i)))
                 (PyInt (val.len (cluster_rows D L i)))
               = ret (dispersion (ncols D) (cluster_rows D L i))).
  { apply py_truediv_python; [apply sum_sq_dist_kind | apply len_nonempty, Hne]. }
  erewrite bindS_ret by (unfold liftW; rewrite Hq; reflexivity).
  unfold Banfeld_step, counts.
  destruct (py_le (dispersion (ncols D) (cluster_rows D L i)) (PyInt 0)) eqn:E;
    cbn [negb].
  - eexists. reflexivity.
  - erewrite bindS_ret by (unfold liftW; rewrite Hq; reflexivity).
    erewrite bindS_ret by (unfold liftW; rewrite (math_log_defined _ E); reflexivity).
    rewrite bindS_modifyS. eexists. reflexivity.
Qed.

Lemma Banfeld_loop (ids : list Z) :
  (forall i, In i ids -> nonempty (cluster_rows D L i)) ->
  forall sumTotal v desc D0 L0,
  exists ws,
    foldMS (Banfeld_body D L) ids sumTotal (val.mk D0 L0 v desc)
    = let r := fold_left (Banfeld_step (ncols D)) (map (cluster_rows D L) ids)
                         (sumTotal, v) in
      ((Ok (fst r), ws), val.mk D0 L0 (snd r) desc).
Proof.
  induction ids as [|i ids IH]; intros Hne sumTotal v desc D0 L0.
  - eexists. reflexivity.
  - destruct (Banfeld_round sumTotal i v desc D0 L0 (Hne i (or_introl eq_refl)))
      as [ws1 H1].
    cbv zeta in H1. cbn [foldMS map fold_left].
    destruct (Banfeld_step (ncols D) (sumTotal, v) (cluster_rows D L i))
      as [s1 v1] eqn:E1.
    cbn [fst snd] in H1.
    destruct (IH (fun j Hj => Hne j (or_intror Hj)) s1 v1 desc D0 L0) as [ws2 H2].
    cbv zeta in H2.
    unfold bindS. rewrite H1, H2. eexists. reflexivity.
Qed.

Lemma Banfeld_clusters (K : Z) :
  (1 <= K)%Z -> contiguous L K ->
  result_of (val.Banfeld_Raferty (val.init D L))
  = Ok (snd (fold_left (Banfeld_step (ncols D)) (map (cluster_rows D L) (range_ K))
                       (PyInt 0, PyFloat NaN))).
Proof.
  intros HK Hc. unfold val.Banfeld_Raferty.
  rewrite bindS_modifyS, bindS_getS. cbv zeta.
  unfold val.init, val.set_description.
  cbn [val.dataMatrix val.classLabel val.validation_ val.description].
  erewrite bindS_ret
    by (unfold liftW; rewrite (proj1 (contiguous_counts L K HK Hc));
        reflexivity).
  fold (Banfeld_body D L).
  destruct (Banfeld_loop (range_ K)
              (fun i Hi => clusters_nonempty D L K i Hc compatible
                             (proj1 (range_in K i) Hi))
              (PyInt 0) (PyFloat NaN)
              "Weighted sum of the logarithms of the traces of the variance-covariance matrix of each cluster"
              D L) as [ws H].
  cbv zeta in H.
  erewrite result_bindS_ok by exact H.
  rewrite bindS_getS. reflexivity.
Qed.

End Banfeld.

Lemma Banfeld_relabel (D : matrix) (L : list Z) (K : Z) (sigma : Z -> Z) :
  contiguous L K -> permutes sigma K -> length L = length D ->
  result_of (val.Banfeld_Raferty (val.init D (map sigma L)))
  = result_of (val.Banfeld_Raferty (val.init D L)).
Proof.
  intros Hc Hs Hlen.
  destruct (contiguous_cases L K Hc) as [E|HK]; [rewrite E; reflexivity|].
  rewrite (Banfeld_clusters D L Hlen K HK Hc).
  rewrite (Banfeld_clusters D (map sigma L)) with (K := K);
    [| rewrite length_map; exact Hlen | exact HK
     | apply relabel_contiguous; assumption].
  rewrite (Banfeld_fold_perm (ncols D) _ _ _ _
             (relabel_clusters L K sigma Hc Hs D)).
  reflexivity.
Qed.

(** *** McClain_Rao and point_biserial *)

Lemma sq_diff_sym (a b : f64) :
  fmul (fsub a b) (fsub a b) = fmul (fsub b a) (fsub b a).
Proof.
  destruct a, b; simpl; try reflexivity. f_equal. ring.
Qed.

Lemma euclidean_sym (u v : vector) : euclidean u v = euclidean v u.
Proof.
  unfold euclidean. f_equal. f_equal.
  revert v. induction u as [|a u IH]; intros v.
  - destruct v; reflexivity.
  - destruct v as [|b v]; [reflexivity|]. simpl. f_equal; [apply sq_diff_sym | apply IH].
Qed.

Lemma concat_cons_perm {A B} (f : A -> B) (g : A -> list B) (l : list A) :
  Permutation (concat (map (fun b => f b :: g b) l))
              (map f l ++ concat (map g l)).
Proof.
  induction l as [|b l IH]; simpl; [constructor|].
  constructor.
  eapply Permutation_trans; [apply Permutation_app_head, IH|].
  apply Permutation_app_swap_app.
Qed.

Lemma concat_cdist_perm (A B : matrix) :
  Permutation (concat (cdist A B)) (concat (cdist B A)).
Proof.
  unfold cdist. induction A as [|a A IH]; simpl.
  - induction B as [|b B IHB]; simpl; [constructor | exact IHB].
  - eapply Permutation_trans;
      [|apply Permutation_sym;
        apply (concat_cons_perm (fun b => euclidean b a)
                 (fun b => map (euclidean b) A) B)].
    replace (map (fun b => euclidean b a) B) with (map (euclidean a) B)
      by (apply map_ext; intros; apply euclidean_sym).
    apply Permutation_app_head. exact IH.
Qed.

Lemma between_sym (A B : matrix) : between A B = between B A.
Proof. apply py_sum_perm, concat_cdist_perm. Qed.

Lemma pair_fold_perm (l l' : list matrix) :
  Permutation l l' -> forall sb, pair_fold sb l = pair_fold sb l'.
Proof.
  intros Hp. induction Hp; intros sb; cbn [pair_fold].
  - reflexivity.
  - rewrite (fold_left_perm (fun s y => py_add s (between x y))
               (fun a u v => py_add_rcomm a _ _) l l' Hp).
    apply IHHp.
  - f_equal. cbn [fold_left].
    rewrite (fold_py_add_shift (between x) l
               (fold_left (fun s y0 => py_add s (between y y0)) l
                          (py_add sb (between y x)))).
    rewrite (fold_py_add_shift (between y) l (py_add sb (between y x))).
    rewrite (fold_py_add_shift (between y) l
               (fold_left (fun s y0 => py_add s (between x y0)) l
                          (py_add sb (between x y)))).
    rewrite (fold_py_add_shift (between x) l (py_add sb (between x y))).
    rewrite (between_sym y x).
    apply py_add_rcomm.
  - rewrite IHHp1. apply IHHp2.
Qed.

Section WithinBetween.

Variables (D : matrix) (L : list Z).
Hypothesis compatible : length L = length D.

Let C (i : Z) : matrix := cluster_rows D L i.

Lemma within_between_pure (K : Z) :
  val.within_between D L K
  = ret (fold_left (within_between_round D L (range_ K)) (range_ K)
                   (PyInt 0, PyInt 0, 0%Z)).
Proof.
  unfold val.within_between. apply foldM_ret.
  intros [[sw sb] nw] i _.
  rewrite take_rows_cluster by exact compatible. rewrite bind_ret_l. cbv zeta.
  rewrite (foldM_ret _ (between_round D L i)).
  - rewrite bind_ret_l. reflexivity.
  - intros sb0 j _. unfold between_round.
    destruct (j >? i)%Z; [|reflexivity].
    rewrite take_rows_cluster by exact compatible. rewrite bind_ret_l. reflexivity.
Qed.

Lemma within_between_split (all ids : list Z) :
  forall sw sb nw,
    fold_left (within_between_round D L all) ids (sw, sb, nw)
    = (fold_left (fun s i => py_add s (py_sum (pdist (C i)))) ids sw,
       fold_left (fun s i => fold_left (between_round D L i) all s) ids sb,
       fold_left (fun n i => (n + val.len (pdist (C i)))%Z) ids nw).
Proof.
  induction ids as [|i ids IH]; intros sw sb nw; simpl; [reflexivity | apply IH].
Qed.

Lemma between_round_skip (i : Z) (l : list Z) (sb : pynum) :
  (forall j, In j l -> (j <= i)%Z) -> fold_left (between_round D L i) l sb = sb.
Proof.
  revert sb. induction l as [|j l IH]; intros sb H; simpl; [reflexivity|].
  unfold between_round at 2.
  assert (E : (j >? i)%Z = false).
  { specialize (H j (or_introl eq_refl)). lia. }
  rewrite E. apply IH. intros k Hk. apply H. right. exact Hk.
Qed.

Lemma between_round_all (i : Z) (l : list Z) (sb : pynum) :
  (forall j, In j l -> (i < j)%Z) ->
  fold_left (between_round D L i) l sb
  = fold_left (fun s y => py_add s (between (C i) y)) (map C l) sb.
Proof.
  revert sb. induction l as [|j l IH]; intros sb H; simpl; [reflexivity|].
  unfold between_round at 2.
  assert (E : (j >? i)%Z = true).
  { specialize (H j (or_introl eq_refl)). lia. }
  rewrite E. apply IH. intros k Hk. apply H. right. exact Hk.
Qed.

Lemma increasing_app (l1 l2 : list Z) :
  increasing (l1 ++ l2) ->
  (forall x y, In x l1 -> In y l2 -> (x < y)%Z) /\ increasing l2.
Proof.
  induction l1 as [|a l1 IH]; simpl; intros H.
  - split; [tauto | exact H].
  - destruct H as [Ha Hl]. destruct (IH Hl) as [H1 H2]. split; [|exact H2].
    intros x y [<-|Hx] Hy.
    + apply Ha. apply in_or_app. right. exact Hy.
    + apply H1; assumption.
Qed.

Lemma between_pairs (all : list Z) :
  increasing all ->
  forall suf pre sb,
    all = pre ++ suf ->
    fold_left (fun s i => fold_left (between_round D L i) all s) suf sb
    = pair_fold sb (map C suf).
Proof.
  intros Hinc. induction suf as [|i suf IH]; intros pre sb E; [reflexivity|].
  cbn [fold_left map pair_fold].
  rewrite (IH (pre ++ [i])) by (rewrite <- app_assoc; exact E).
  f_equal. rewrite E in Hinc |- *.
  destruct (increasing_app pre (i :: suf) Hinc) as [H1 [H2 _]].
  rewrite fold_left_app. rewrite (between_round_skip i pre).
  - cbn [fold_left]. unfold between_round at 2.
    replace (i >? i)%Z with false by lia.
    apply between_round_all. exact H2.
  - intros j Hj. specialize (H1 j i Hj (or_introl eq_refl)). lia.
Qed.

End WithinBetween.

Lemma seq_increasing (a n : nat) : increasing (map Z.of_nat (seq a n)).
Proof.
  revert a. induction n as [|n IH]; intros a; simpl; [exact I|].
  split; [|apply IH].
  intros y Hy. apply in_map_iff in Hy. destruct Hy as [k [<- Hk]].
  apply in_seq in Hk. lia.
Qed.

Lemma range_increasing (K : Z) : increasing (range_ K).
Proof. apply seq_increasing. Qed.

Lemma within_between_clusters (D : matrix) (L : list Z) (K : Z) :
  length L = length D ->
  val.within_between D L K
  = ret (within_between_fin (map (cluster_rows D L) (range_ K))).
Proof.
  intros Hlen. rewrite (within_between_pure D L Hlen).
  rewrite within_between_split. unfold within_between_fin.
  rewrite (between_pairs D L Hlen (range_ K) (range_increasing K) (range_ K) [] _ eq_refl).
  rewrite !fold_left_map. reflexivity.
Qed.

Lemma within_between_fin_perm (cl cl' : list matrix) :
  Permutation cl cl' -> within_between_fin cl = within_between_fin cl'.
Proof.
  intros Hp. unfold within_between_fin.
  rewrite (fold_left_perm (fun s C => py_add s (py_sum (pdist C)))
             (fun a x y => py_add_rcomm a _ _) cl cl' Hp).
  rewrite (pair_fold_perm cl cl' Hp).
  rewrite (fold_left_perm (fun n C => (n + val.len (pdist C))%Z)) with (l' := cl');
    [reflexivity | intros; lia | exact Hp].
Qed.

Lemma McClain_Rao_visits (D : matrix) (L : list Z) (n : Z) :
  val.numCluster_max L = ret n -> length L = length D ->
  val.McClain_Rao_core D L
  = McClain_Rao_fin (val.len L) (map (cluster_rows D L) (range_ n)).
Proof.
  intros Hn Hlen. unfold val.McClain_Rao_core. cbv zeta.
  rewrite Hn, bind_ret_l.
  rewrite within_between_clusters by exact Hlen. rewrite bind_ret_l.
  unfold McClain_Rao_fin.
  destruct (within_between_fin _) as [[sw sb] nw]. reflexivity.
Qed.

Lemma point_biserial_visits (D : matrix) (L : list Z) (n : Z) :
  val.numCluster_max L = ret n -> length L = length D ->
  val.point_biserial_core D L
  = point_biserial_fin (val.len L) (map (cluster_rows D L) (range_ n)).
Proof.
  intros Hn Hlen. unfold val.point_biserial_core. cbv zeta.
  rewrite Hn, bind_ret_l.
  unfold point_biserial_fin. apply bind_ext. intros nt.
  rewrite within_between_clusters by exact Hlen. rewrite bind_ret_l.
  destruct (within_between_fin _) as [[sw sb] nw]. reflexivity.
Qed.

Lemma McClain_Rao_relabel (D : matrix) (L : list Z) (K : Z) (sigma : Z -> Z) :
  contiguous L K -> permutes sigma K -> length L = length D ->
  val.McClain_Rao_core D (map sigma L) = val.McClain_Rao_core D L.
Proof.
  apply (relabel_invariant_core D val.McClain_Rao_core
           (fun N _ => McClain_Rao_fin N) (fun _ => True)).
  - intros L0 K0 HK Hc. apply McClain_Rao_visits, (contiguous_counts L0 K0 HK Hc).
  - intros. exact I.
  - intros N K0 cl cl' Hp _. unfold McClain_Rao_fin.
    rewrite (within_between_fin_perm cl cl' Hp). reflexivity.
Qed.

Lemma point_biserial_relabel (D : matrix) (L : list Z) (K : Z) (sigma : Z -> Z) :
  contiguous L K -> permutes sigma K -> length L = length D ->
  val.point_biserial_core D (map sigma L) = val.point_biserial_core D L.
Proof.
  apply (relabel_invariant_core D val.point_biserial_core
           (fun N _ => point_biserial_fin N) (fun _ => True)).
  - intros L0 K0 HK Hc. apply point_biserial_visits, (contiguous_counts L0 K0 HK Hc).
  - intros. exact I.
  - intros N K0 cl cl' Hp _. unfold point_biserial_fin.
    rewrite (within_between_fin_perm cl cl' Hp). reflexivity.
Qed.

(** *** Baker_Hubert_Gamma and g_plus_index *)

Lemma pdist_length (X Y : matrix) :
  length X = length Y -> length (pdist X) = length (pdist Y).
Proof.
  revert Y. induction X as [|r X IH]; intros Y H; destruct Y as [|s Y];
    try discriminate; [reflexivity|].
  injection H as H. simpl. rewrite !length_app, !length_map, (IH Y H), H.
  reflexivity.
Qed.

Lemma range2_in (a b j : Z) : In j (range2 a b) <-> (a <= j < b)%Z.
Proof.
  unfold range2. rewrite in_map_iff. split.
  - intros [k [<- Hk]]. apply in_seq in Hk. lia.
  - intros H. exists (Z.to_nat (j - a)). split; [lia|]. apply in_seq. lia.
Qed.

Lemma py_index_ok {A} (l : list A) (i : Z) (d : A) :
  (0 <= i < val.len l)%Z -> py_index l i = ret (nth (Z.to_nat i) l d).
Proof.
  intros H. unfold py_index, val.len in *.
  destruct (i <? 0)%Z eqn:E; [lia|].
  destruct (nth_error l (Z.to_nat i)) as [a|] eqn:En.
  - rewrite (nth_error_nth l _ d En). reflexivity.
  - apply nth_error_None in En. lia.
Qed.

Lemma Forall2_nth {A} (R : A -> A -> Prop) (l l' : list A) (d : A) :
  Forall2 R l l' ->
  forall k, (k < length l)%nat -> R (nth k l d) (nth k l' d).
Proof.
  intros H. induction H; intros k Hk; simpl in *; [lia|].
  destruct k; [assumption | apply IHForall2; lia].
Qed.

Lemma label_distance (x y : Z) :
  (x = y -> euclidean (label_row x) (label_row y) = Fin 0) /\
  (x <> y -> positive (euclidean (label_row x) (label_row y))).
Proof.
  unfold label_row.
  change [Fin (IZR x); fzero] with (map Fin [IZR x; 0]).
  change [Fin (IZR y); fzero] with (map Fin [IZR y; 0]).
  rewrite euclidean_finite.
  assert (E : sq_distance [IZR x; 0] [IZR y; 0] = (IZR x - IZR y) * (IZR x - IZR y)).
  { unfold sq_distance, Rsum. simpl. ring. }
  rewrite E. split.
  - intros ->. f_equal. replace ((IZR y - IZR y) * (IZR y - IZR y)) with 0 by ring.
    apply sqrt_0.
  - intros H. eexists. split; [|reflexivity].
    apply sqrt_lt_R0.
    assert (IZR x - IZR y <> 0).
    { intros H0. apply H. apply eq_IZR. lra. }
    nra.
Qed.

Section LabelDistances.

Variables (sigma : Z -> Z) (K : Z).
Hypothesis sigma_permutes : permutes sigma K.

Lemma label_distance_relabel (x y : Z) :
  (0 <= x < K)%Z -> (0 <= y < K)%Z ->
  same_zero (euclidean (label_row x) (label_row y))
            (euclidean (label_row (sigma x)) (label_row (sigma y))).
Proof.
  intros Hx Hy. destruct (Z.eq_dec x y) as [E|E].
  - left. subst y. split; apply label_distance; reflexivity.
  - right. split; apply label_distance; [exact E|].
    intros H. apply E. apply (proj2 sigma_permutes); assumption.
Qed.

Lemma pdist_labels_relabel (L : list Z) :
  (forall x, In x L -> (0 <= x < K)%Z) ->
  Forall2 same_zero (pdist (val.label_matrix L))
                    (pdist (val.label_matrix (map sigma L))).
Proof.
  induction L as [|a L IH]; intros H; simpl; [constructor|].
  apply Forall2_app.
  - fold (label_row a). fold (label_row (sigma a)).
    assert (G : forall l, (forall x, In x l -> (0 <= x < K)%Z) ->
              Forall2 same_zero
                (map (euclidean (label_row a)) (val.label_matrix l))
                (map (euclidean (label_row (sigma a)))
                     (val.label_matrix (map sigma l)))).
    { induction l as [|b l IHl]; intros Hl; simpl; constructor.
      - apply label_distance_relabel; [apply H | apply Hl]; left; reflexivity.
      - apply IHl. intros x Hx. apply Hl. right. exact Hx. }
    apply G. intros x Hx. apply H. right. exact Hx.
  - apply IH. intros x Hx. apply H. right. exact Hx.
Qed.

End LabelDistances.

Lemma same_zero_tests (v v' : f64) :
  same_zero v v' ->
  fgtb v fzero = fgtb v' fzero /\ feqb v fzero = feqb v' fzero /\
  (feqb v fzero = true -> v = v').
Proof.
  unfold fgtb, fltb, feqb, fzero.
  intros [[-> ->]|[[r [Hr ->]] [r' [Hr' ->]]]].
  - repeat split; reflexivity.
  - destruct (Rlt_dec 0 r), (Rlt_dec 0 r'); try (exfalso; lra).
    destruct (Req_dec_T r 0), (Req_dec_T r' 0); try (exfalso; lra).
    repeat split; try reflexivity. discriminate.
Qed.

Section Concordance.

Variables (pairDis vecB vecB' : list f64).
Hypothesis lengths : length vecB = length pairDis.
Hypothesis related : Forall2 same_zero vecB vecB'.

Lemma related_length : length vecB' = length vecB.
Proof. symmetry. eapply Forall2_length. exact related. Qed.

Lemma lazy_tests (i j : Z) :
  (0 <= i < val.len pairDis)%Z -> (0 <= j < val.len pairDis)%Z ->
  val.and_lazy (val.gt0 vecB' i) (val.eq0 vecB' j)
    = val.and_lazy (val.gt0 vecB i) (val.eq0 vecB j) /\
  val.and_lazy (val.eq0 vecB' i) (val.gt0 vecB' j)
    = val.and_lazy (val.eq0 vecB i) (val.gt0 vecB j) /\
  (forall u k, out (val.and_lazy (val.gt0 vecB i) (val.eq0 vecB j)) = Ok true ->
               val.gt_at u k vecB' j = val.gt_at u k vecB j) /\
  (forall u k, out (val.and_lazy (val.eq0 vecB i) (val.gt0 vecB j)) = Ok true ->
               val.gt_at u k vecB' i = val.gt_at u k vecB i).
Proof.
  intros Hi Hj. unfold val.len in *.
  pose proof related_length as Hl.
  assert (Ri := Forall2_nth same_zero vecB vecB' fzero related (Z.to_nat i)
                  ltac:(lia)).
  assert (Rj := Forall2_nth same_zero vecB vecB' fzero related (Z.to_nat j)
                  ltac:(lia)).
  apply same_zero_tests in Ri, Rj.
  destruct Ri as [Gi [Ei Zi]], Rj as [Gj [Ej Zj]].
  unfold val.and_lazy, val.gt0, val.eq0, val.gt_at.
  rewrite (py_index_ok vecB i fzero), (py_index_ok vecB j fzero),
    (py_index_ok vecB' i fzero), (py_index_ok vecB' j fzero)
    by (unfold val.len; lia).
  rewrite !bind_ret_l, Gi, Gj, Ei, Ej.
  split; [reflexivity|]. split; [reflexivity|]. split.
  - intros u k H.
    destruct (fgtb (nth (Z.to_nat i) vecB' fzero) fzero); [|discriminate H].
    unfold out, ret in H. simpl in H.
    injection H as H. rewrite H in Ej. rewrite (Zj Ej). reflexivity.
  - intros u k H.
    destruct (feqb (nth (Z.to_nat i) vecB' fzero) fzero); [|discriminate H].
    rewrite (Zi Ei). reflexivity.
Qed.

End Concordance.

Lemma bind_ext_out {A B} (m : W A) (k k' : A -> W B) :
  (forall a, out m = Ok a -> k a = k' a) -> bind m k = bind m k'.
Proof.
  intros H. destruct m as [[a|e] w]; simpl; [rewrite (H a eq_refl)|]; reflexivity.
Qed.

Section GammaRelabel.

Variables (D : matrix) (L : list Z) (K : Z) (sigma : Z -> Z).
Hypothesis labels_contiguous : contiguous L K.
Hypothesis sigma_permutes : permutes sigma K.
Hypothesis compatible : length L = length D.

Let pairDis := pdist D.
Let vecB := pdist (val.label_matrix L).
Let vecB' := pdist (val.label_matrix (map sigma L)).

Lemma vecB_length : length vecB = length pairDis.
Proof.
  apply pdist_length. unfold val.label_matrix. rewrite length_map. exact compatible.
Qed.

Lemma vecB_related : Forall2 same_zero vecB vecB'.
Proof.
  apply (pdist_labels_relabel sigma K sigma_permutes).
  intros x Hx. apply labels_contiguous. exact Hx.
Qed.

Lemma Baker_Hubert_Gamma_relabel :
  val.Baker_Hubert_Gamma_core D (map sigma L) = val.Baker_Hubert_Gamma_core D L.
Proof.
  unfold val.Baker_Hubert_Gamma_core. cbv zeta.
  fold pairDis. fold vecB. fold vecB'.
  f_equal. apply foldM_ext_in. intros acc i Hi.
  apply foldM_ext_in. intros [splus sminus] j Hj.
  apply range_in in Hi. apply range2_in in Hj.
  destruct (lazy_tests pairDis vecB vecB' vecB_length vecB_related i j)
    as [T1 [T2 [G1 G2]]]; [lia | lia |].
  rewrite T1, T2.
  apply bind_ext_out. intros c1 Hc1.
  f_equal.
  - destruct c1; [|reflexivity]. rewrite (G1 pairDis i Hc1). reflexivity.
  - apply FunctionalExtensionality.functional_extensionality.
    intros [sp sm].
    apply bind_ext_out. intros c2 Hc2.
    destruct c2; [|reflexivity]. rewrite (G2 pairDis j Hc2). reflexivity.
Qed.

Lemma g_plus_index_relabel :
  val.g_plus_index_core D (map sigma L) = val.g_plus_index_core D L.
Proof.
  unfold val.g_plus_index_core. cbv zeta.
  fold pairDis. fold vecB. fold vecB'.
  f_equal. apply foldM_ext_in. intros acc i Hi.
  apply foldM_ext_in. intros sminus j Hj.
  apply range_in in Hi. apply range2_in in Hj.
  destruct (lazy_tests pairDis vecB vecB' vecB_length vecB_related i j)
    as [T1 [T2 [G1 G2]]]; [lia | lia |].
  rewrite T1, T2.
  apply bind_ext_out. intros c1 Hc1.
  f_equal.
  - destruct c1; [|reflexivity]. rewrite (G1 pairDis i Hc1). reflexivity.
  - apply FunctionalExtensionality.functional_extensionality.
    intros sm.
    apply bind_ext_out. intros c2 Hc2.
    destruct c2; [|reflexivity]. rewrite (G2 pairDis j Hc2). reflexivity.
Qed.

End GammaRelabel.

(** ** The cluster ids the metrics visit *)





(** ** Every metric *)

(** C5 as amended.  When the arithmetic is exact, every metric of the
    metrics object returns the same score, or raises the same exception,
    after the cluster ids [0 .. K-1] of a contiguous label assignment are
    permuted, on any data matrix of finite values with one label per row:
    the score depends on the order of the cluster ids through rounding
    only.  The silhouette score is scikit-learn's and is taken to have the
    property itself. *)
Theorem metrics_invariant_under_relabelling
  (silhouette_score : matrix -> list Z -> W f64)
  (name : string) (func : M val.validation pynum)
  (X : list (list R)) (L : list Z) (K : Z) (sigma : Z -> Z) :
  label_blind silhouette_score ->
  val.metric_by_name silhouette_score name = Some func ->
  contiguous L K ->
  permutes sigma K ->
  length L = length X ->
  result_of (func (val.init (finite_matrix X) (map sigma L)))
  = result_of (func (val.init (finite_matrix X) L)).
Proof.
  intros Hsil Hname Hc Hs Hlen.
  assert (Hlen' : length L = length (finite_matrix X))
    by (unfold finite_matrix; rewrite length_map; exact Hlen).
  unfold val.metric_by_name in Hname.
  repeat match type of Hname with
         | (if ?b then _ else _) = _ => destruct b
         end;
    try discriminate Hname; injection Hname as <-.
  - unfold val.Baker_Hubert_Gamma. rewrite !method_result.
    rewrite (Baker_Hubert_Gamma_relabel _ L K sigma Hc Hs Hlen'). reflexivity.
  - unfold val.Ball_Hall. rewrite !method_result.
    rewrite (Ball_Hall_relabel _ L K sigma Hc Hs Hlen'). reflexivity.
  - apply (Banfeld_relabel _ L K sigma Hc Hs Hlen').
  - unfold val.McClain_Rao. rewrite !method_result.
    rewrite (McClain_Rao_relabel _ L K sigma Hc Hs Hlen'). reflexivity.
  - unfold val.PBM_index. rewrite !method_result.
    rewrite (PBM_index_relabel X L K sigma Hc Hs Hlen'). reflexivity.
  - unfold val.Ratkowsky_Lance. rewrite !method_result.
    rewrite (Ratkowsky_Lance_relabel _ L K sigma Hc Hs Hlen'). reflexivity.
  - unfold val.c_index. rewrite !method_result.
    rewrite (c_index_relabel _ L K sigma Hc Hs Hlen'). reflexivity.
  - destruct (contiguous_cases L K Hc) as [E|HK]; [rewrite E; reflexivity|].
    apply (det_ratio_relabel _ L K sigma HK Hc Hs Hlen').
  - unfold val.g_plus_index. rewrite !method_result.
    rewrite (g_plus_index_relabel _ L K sigma Hc Hs Hlen'). reflexivity.
  - unfold val.ksq_detw_index. rewrite !method_result.
    rewrite (ksq_detw_relabel _ L K sigma Hc Hs Hlen'). reflexivity.
  - destruct (contiguous_cases L K Hc) as [E|HK]; [rewrite E; reflexivity|].
    apply (log_det_ratio_relabel _ L K sigma HK Hc Hs Hlen').
  - unfold val.log_ss_ratio. rewrite !method_result.
    rewrite (log_ss_relabel _ L K sigma Hc Hs Hlen'). reflexivity.
  - unfold val.point_biserial. rewrite !method_result.
    rewrite (point_biserial_relabel _ L K sigma Hc Hs Hlen'). reflexivity.
  - unfold val.silhouette. rewrite !method_result. unfold val.silhouette_core.
    rewrite (Hsil _ L K sigma Hc Hs Hlen'). reflexivity.
Qed.

Lemma swap_two_permutes : permutes (fun i => (1 - i)%Z) 2.
Proof.
  split; intros; lia.
Defined.

Lemma no_silhouette_label_blind : label_blind no_silhouette.
Proof. intros D L K sigma _ _ _. reflexivity. Defined.

Lemma metrics_invariant_under_relabelling_witness :
  result_of (val.point_biserial
               (val.init [[Fin 0]; [Fin 1]; [Fin 2]] [1; 0; 0]%Z))
  = result_of (val.point_biserial
                 (val.init [[Fin 0]; [Fin 1]; [Fin 2]] [0; 1; 1]%Z)).
Proof.
  exact (metrics_invariant_under_relabelling no_silhouette "point_biserial"
           val.point_biserial [[0]; [1]; [2]] [0; 1; 1]%Z 2 (fun i => (1 - i)%Z)
           no_silhouette_label_blind eq_refl three_points_contiguous
           swap_two_permutes eq_refl).
Defined.

(** ** Degenerate inputs *)

Lemma pdist_one_label (L : list Z) :
  (forall x, In x L -> x = 0%Z) ->
  Forall (fun v => v = Fin 0) (pdist (val.label_matrix L)).
Proof.
  induction L as [|a L IH]; intros H; simpl; [constructor|].
  apply Forall_app. split.
  - apply Forall_forall. intros v Hv. apply in_map_iff in Hv.
    destruct Hv as [r [<- Hr]]. unfold val.label_matrix in Hr.
    apply in_map_iff in Hr. destruct Hr as [b [<- Hb]].
    rewrite (H a (or_introl eq_refl)), (H b (or_intror Hb)).
    apply (proj1 (label_distance 0 0) eq_refl).
  - apply IH. intros x Hx. apply H. right. exact Hx.
Qed.

Lemma foldM_id {A B} (f : A -> B -> W A) (l : list B) (a : A) :
  (forall x, In x l -> f a x = ret a) -> foldM f l a = ret a.
Proof.
  induction l as [|x l IH]; intros H; cbn [foldM]; [reflexivity|].
  rewrite H by (left; reflexivity). rewrite bind_ret_l.
  apply IH. intros y Hy. apply H. right. exact Hy.
Qed.

(** With every object in cluster 0 no pair of distances is ever compared,
    [splus] and [sminus] stay 0, and the final division is 0/0 between
    Python ints. *)
Lemma Baker_Hubert_Gamma_one_cluster (D : matrix) (L : list Z) :
  (forall x, In x L -> x = 0%Z) ->
  length L = length D ->
  val.Baker_Hubert_Gamma_core D L = raise ZeroDivisionError.
Proof.
  intros H0 Hlen. unfold val.Baker_Hubert_Gamma_core. cbv zeta.
  pose proof (pdist_one_label L H0) as Hz.
  assert (Hl : length (pdist (val.label_matrix L)) = length (pdist D)).
  { apply pdist_length. unfold val.label_matrix. rewrite length_map. exact Hlen. }
  rewrite foldM_id; [reflexivity|].
  intros i Hi. apply foldM_id. intros j Hj.
  apply range_in in Hi. apply range2_in in Hj. unfold val.len in *.
  assert (Zi : nth (Z.to_nat i) (pdist (val.label_matrix L)) fzero = Fin 0).
  { rewrite Forall_forall in Hz. apply Hz. apply nth_In. lia. }
  assert (Zj : nth (Z.to_nat j) (pdist (val.label_matrix L)) fzero = Fin 0).
  { rewrite Forall_forall in Hz. apply Hz. apply nth_In. lia. }
  unfold val.and_lazy, val.gt0, val.eq0.
  rewrite (py_index_ok (pdist (val.label_matrix L)) i fzero),
    (py_index_ok (pdist (val.label_matrix L)) j fzero) by (unfold val.len; lia).
  rewrite Zi, Zj, !bind_ret_l.
  assert (G : fgtb (Fin 0) fzero = false).
  { unfold fgtb, fltb, fzero. destruct (Rlt_dec 0 0); [exfalso; lra | reflexivity]. }
  assert (E : feqb (Fin 0) fzero = true).
  { unfold feqb, fzero. destruct (Req_dec_T 0 0); [reflexivity | exfalso; lra]. }
  rewrite G, E, !bind_ret_l. reflexivity.
Qed.

(** C1, at three degenerate inputs with contiguous labels.  Three objects
    in one cluster: [Baker_Hubert_Gamma] raises [ZeroDivisionError].  Two
    objects in two clusters: [c_index] raises [ZeroDivisionError].  Two
    objects in one cluster: [log_ss_ratio] raises [ValueError] from
    [math.log(0.0)].  None of them returns [nan]. *)
Theorem degenerate_metrics_raise :
  result_of (val.Baker_Hubert_Gamma
               (val.init [[Fin 0]; [Fin 1]; [Fin 2]] [0; 0; 0]%Z))
    = Raise ZeroDivisionError /\
  result_of (val.c_index (val.init [[Fin 0]; [Fin 1]] [0; 1]%Z))
    = Raise ZeroDivisionError /\
  result_of (val.log_ss_ratio (val.init [[Fin 0]; [Fin 1]] [0; 0]%Z))
    = Raise (ValueError "math domain error").
Proof.
  split; [|split].
  - unfold val.Baker_Hubert_Gamma. rewrite method_result.
    rewrite Baker_Hubert_Gamma_one_cluster; [reflexivity | | reflexivity].
    intros x Hx. simpl in Hx. lia.
  - reflexivity.
  - unfold val.log_ss_ratio. rewrite method_result.
    assert (Hc : contiguous [0; 0]%Z 1) by (intros x; simpl; lia).
    rewrite (log_ss_clusters [[Fin 0]; [Fin 1]] [0; 0]%Z 1 ltac:(lia) Hc eq_refl).
    unfold log_ss_fin.
    change (map (cluster_rows [[Fin 0]; [Fin 1]] [0; 0]%Z) (range_ 1))
      with [finite_matrix [[0]; [1]]].
    change [[Fin 0]; [Fin 1]] with (finite_matrix [[0]; [1]]).
    cbn [fold_left]. unfold log_ss_step.
    rewrite ncols_finite, np_mean_axis0_finite by discriminate.
    rewrite euclidean_finite, sum_sq_dist_finite by discriminate.
    set (c := centroid (dimension [[0]; [1]]) [[0]; [1]]).
    assert (Ec : sq_distance c c = 0).
    { unfold sq_distance, c, centroid, Rsum. simpl. ring. }
    assert (Ew : Rsum (map (fun x => sq_distance x c) [[0]; [1]]) = / 2).
    { unfold sq_distance, c, centroid, Rsum. simpl. field. }
    rewrite Ec, Ew, sqrt_0.
    unfold math_pow2, py_mul, py_add, wrap, py_truediv, val.len.
    cbn [is_np orb to_f64 py_is_zero fmul fadd fis_zero feqb fzero
         finite_matrix map length].
    match goal with
    | |- context [Req_dec_T ?a ?b] =>
        destruct (Req_dec_T a b) as [H|H]; [exfalso; lra|]
    end.
    rewrite bind_ret_l. rewrite fdiv_Fin by exact H.
    unfold math_log. cbn [to_f64].
    match goal with
    | |- context [Rlt_dec ?a ?b] =>
        destruct (Rlt_dec a b) as [H2|H2]; [|reflexivity]
    end.
    exfalso. simpl in H2.
    replace ((0 + 2 * (0 * 0)) / (0 + / 2)) with 0 in H2 by (field; lra).
    lra.
Qed.

(** ** Loops in two parts, cluster ids without members *)

Lemma bind_assoc {A B C} (m : W A) (k : A -> W B) (h : B -> W C) :
  bind (bind m k) h = bind m (fun a => bind (k a) h).
Proof.
  destruct m as [[a|e] w]; [|reflexivity]. unfold bind at 2 3.
  destruct (k a) as [[b|e] w1]; simpl.
  - destruct (h b) as [r w2]. rewrite app_assoc. reflexivity.
  - reflexivity.
Qed.

Lemma foldM_app {A B} (f : A -> B -> W A) (l1 l2 : list B) (a : A) :
  foldM f (l1 ++ l2) a = bind (foldM f l1 a) (foldM f l2).
Proof.
  revert a. induction l1 as [|x l1 IH]; intros a; cbn [foldM app].
  - rewrite bind_ret_l. reflexivity.
  - rewrite bind_assoc. apply bind_ext. intros a'. apply IH.
Qed.

Lemma range_split (n i : Z) :
  (0 <= i < n)%Z -> exists post, range_ n = range_ i ++ i :: post.
Proof.
  intros Hi. unfold range_.
  replace (Z.to_nat n) with (Z.to_nat i + S (Z.to_nat (n - i - 1)))%nat by lia.
  rewrite seq_app, map_app. cbn [seq map Nat.add].
  rewrite Z2Nat.id by lia. eexists. reflexivity.
Qed.

(** The least cluster id below [n] without a member, if there is one. *)
Lemma first_gap (L : list Z) (n : nat) :
  (forall j, (0 <= j < Z.of_nat n)%Z -> In j L) \/
  (exists i, (0 <= i < Z.of_nat n)%Z /\ ~ In i L /\
             forall j, (0 <= j < i)%Z -> In j L).
Proof.
  induction n as [|n IH].
  - left. intros j Hj. lia.
  - destruct IH as [IH|[i [Hi [Hn Hb]]]].
    + destruct (In_dec Z.eq_dec (Z.of_nat n) L) as [Hin|Hin].
      * left. intros j Hj.
        destruct (Z.eq_dec j (Z.of_nat n)) as [->|Hne]; [exact Hin | apply IH; lia].
      * right. exists (Z.of_nat n). split; [lia|]. split; [exact Hin|].
        intros j Hj. apply IH. lia.
    + right. exists i. split; [lia|]. split; assumption.
Qed.

Lemma cluster_rows_unused {A} (X : list A) (L : list Z) (i : Z) :
  ~ In i L -> cluster_rows X L i = [].
Proof.
  intros Hn. unfold cluster_rows.
  assert (G : forall l : list (Z * A),
             (forall p, In p l -> In (fst p) L) ->
             filter (fun p => (fst p =? i)%Z) l = []).
  { induction l as [|p l IH]; intros Hl; simpl; [reflexivity|].
    destruct (fst p =? i)%Z eqn:E.
    - apply Z.eqb_eq in E. exfalso. apply Hn. rewrite <- E. apply Hl. left. reflexivity.
    - apply IH. intros q Hq. apply Hl. right. exact Hq. }
  rewrite G; [reflexivity|].
  intros [l x] Hp. apply in_combine_l in Hp. exact Hp.
Qed.

Lemma len_unused {A} (D : list A) (L : list Z) (i : Z) :
  length L = length D -> ~ In i L -> val.len (indices_of L i) = 0%Z.
Proof.
  intros Hlen Hn. rewrite (len_indices D L i Hlen), cluster_rows_unused by exact Hn.
  reflexivity.
Qed.

(** The labels of a non-empty assignment are [0 .. K-1] for the number [K]
    of distinct labels, or some id below [K] is not used. *)
Lemma unique_count_gap (L : list Z) :
  contiguous L (val.numCluster_unique L) \/
  (exists i, (0 <= i < val.numCluster_unique L)%Z /\ ~ In i L /\
             forall j, (0 <= j < i)%Z -> In j L).
Proof.
  unfold val.numCluster_unique.
  destruct (first_gap L (length (np_unique L))) as [Hall|Hgap]; [left | right; exact Hgap].
  set (K := Z.of_nat (length (np_unique L))) in *.
  assert (Hincl : incl (np_unique L) (range_ K)).
  { apply NoDup_length_incl.
    - apply range_NoDup.
    - rewrite range_length. unfold K. lia.
    - intros j Hj. apply np_unique_in, Hall, range_in, Hj. }
  intros x. split.
  - intros Hx. apply range_in, Hincl, np_unique_in, Hx.
  - apply Hall.
Qed.

(** ** Ball_Hall in double precision *)

Lemma of_int_zero : b64.of_int 0 = PrimFloat.zero.
Proof. reflexivity. Qed.

Lemma is_finite_split (x : float) :
  PrimFloat.is_finite x = true ->
  PrimFloat.is_nan x = false /\ PrimFloat.is_infinity x = false.
Proof.
  unfold PrimFloat.is_finite. intros H. apply negb_true_iff, orb_false_iff in H.
  exact H.
Qed.

Section DoublePrecision.

Variable lib : b64.libraries.

Lemma b64_mean_nonempty (m : nat) (C : b64.matrix) :
  C <> [] -> b64.np_mean_axis0 lib m C = ret (b64.np_mean0 lib m C).
Proof.
  intros H. destruct C as [|r C]; [congruence|].
  unfold b64.np_mean_axis0. rewrite bind_ret_l. reflexivity.
Qed.

Lemma b64_square_in_range {A} (c x : b64.vector) (k : b64.pynum -> W A) :
  b64.in_range lib c x = true ->
  (d <- b64.euclidean lib x c ;; p <- b64.math_pow2 lib d ;; k p)
  = k (b64.PyFloat (b64.sq_distance lib x c)).
Proof.
  unfold b64.in_range, b64.euclidean, b64.math_pow2, b64.sq_distance.
  intros H. apply andb_true_iff in H. destruct H as [Hd Hp]. cbv zeta.
  rewrite Hd, bind_ret_l.
  destruct (PrimFloat.is_finite (b64.nrm2 lib (b64.vec_sub x c))).
  - cbn [negb orb] in Hp. apply is_finite_split in Hp. destruct Hp as [-> ->].
    apply bind_ret_l.
  - apply bind_ret_l.
Qed.

Lemma b64_sum_from (c : b64.vector) (C : b64.matrix) (a : float) :
  forallb (b64.in_range lib c) C = true ->
  foldM (fun sumDis member =>
           d <- b64.euclidean lib member c ;;
           p <- b64.math_pow2 lib d ;;
           ret (b64.py_add sumDis p))
        C (b64.PyFloat a)
  = ret (b64.PyFloat
           (fold_left PrimFloat.add (map (fun x => b64.sq_distance lib x c) C) a)).
Proof.
  revert a. induction C as [|x C IH]; intros a H; cbn [foldM map fold_left forallb] in *.
  - reflexivity.
  - apply andb_true_iff in H. destruct H as [Hx HC].
    rewrite (b64_square_in_range c x _ Hx), bind_ret_l.
    cbn [b64.py_add b64.to_float]. apply IH. exact HC.
Qed.

Lemma b64_sum_sq_dist (c : b64.vector) (C : b64.matrix) :
  C <> [] ->
  forallb (b64.in_range lib c) C = true ->
  b64.sum_sq_dist lib C c
  = ret (b64.PyFloat (b64.fsum (map (fun x => b64.sq_distance lib x c) C))).
Proof.
  intros Hne H. destruct C as [|x C]; [congruence|].
  unfold b64.sum_sq_dist, b64.fsum. cbn [foldM map fold_left forallb] in *.
  apply andb_true_iff in H. destruct H as [Hx HC].
  rewrite (b64_square_in_range c x _ Hx), bind_ret_l.
  cbn [b64.py_add b64.to_float]. rewrite of_int_zero.
  apply b64_sum_from. exact HC.
Qed.

Lemma b64_truediv_float_int (a : float) (n : Z) :
  n <> 0%Z ->
  b64.py_truediv (b64.PyFloat a) (b64.PyInt n)
  = ret (b64.PyFloat (a / b64.of_int n)).
Proof.
  intros H. unfold b64.py_truediv. cbn [b64.py_is_zero].
  apply Z.eqb_neq in H. rewrite H. reflexivity.
Qed.

Section Contiguous.

Variables (D : b64.matrix) (L : list Z) (K : Z).
Hypothesis K_pos : (1 <= K)%Z.
Hypothesis labels_contiguous : contiguous L K.
Hypothesis compatible : length L = length D.
Hypothesis within_range :
  forall i, (0 <= i < K)%Z ->
    b64.cluster_in_range lib (ncols D) (cluster_rows D L i) = true.

Lemma b64_round (sumTotal : b64.pynum) (i : Z) :
  In i (range_ K) ->
  (clusterMember <- take_rows D (indices_of L i) ;;
   clusterCenter <- b64.np_mean_axis0 lib (ncols D) clusterMember ;;
   sumDis <- b64.sum_sq_dist lib clusterMember clusterCenter ;;
   q <- b64.py_truediv sumDis (b64.PyInt (val.len (indices_of L i))) ;;
   ret (b64.py_add sumTotal q))
  = ret (b64.py_add sumTotal
           (b64.PyFloat (b64.mean_dispersion lib (ncols D) (cluster_rows D L i)))).
Proof.
  intros Hi. apply range_in in Hi.
  assert (Hne : cluster_rows D L i <> []).
  { apply cluster_rows_nonempty; [exact compatible | apply labels_contiguous, Hi]. }
  rewrite take_rows_cluster by exact compatible.
  rewrite bind_ret_l, b64_mean_nonempty by exact Hne.
  rewrite bind_ret_l, b64_sum_sq_dist by (exact Hne || apply within_range, Hi).
  rewrite bind_ret_l, (len_indices D L i compatible).
  rewrite b64_truediv_float_int by (apply len_nonempty, Hne).
  rewrite bind_ret_l. reflexivity.
Qed.

Lemma b64_fold_from (q : Z -> float) (ids : list Z) (a : float) :
  fold_left (fun s i => b64.py_add s (b64.PyFloat (q i))) ids (b64.PyFloat a)
  = b64.PyFloat (fold_left PrimFloat.add (map q ids) a).
Proof.
  revert a. induction ids as [|i ids IH]; intros a; cbn [fold_left map]; [reflexivity|].
  cbn [b64.py_add b64.to_float]. apply IH.
Qed.

Lemma b64_core_value :
  b64.Ball_Hall_core lib D L
  = ret (b64.PyFloat (b64.ball_hall_formula lib D L K)).
Proof.
  unfold b64.Ball_Hall_core. cbv zeta.
  rewrite (contiguous_unique_count L K) by (lia || exact labels_contiguous).
  rewrite (foldM_ret _
             (fun s i => b64.py_add s
                (b64.PyFloat (b64.mean_dispersion lib (ncols D) (cluster_rows D L i)))))
    by (intros a i Hi; apply b64_round; exact Hi).
  rewrite bind_ret_l.
  assert (Hr : exists i ids, range_ K = i :: ids).
  { unfold range_. destruct (Z.to_nat K) eqn:E; [lia|]. cbn [seq map]. eauto. }
  destruct Hr as [i [ids Hr]]. unfold b64.ball_hall_formula, b64.dispersions, b64.fsum.
  rewrite Hr. cbn [fold_left map].
  cbn [b64.py_add b64.to_float]. rewrite of_int_zero, b64_fold_from.
  apply b64_truediv_float_int. lia.
Qed.

End Contiguous.

End DoublePrecision.

(** C6 as amended.  On labels that are exactly [0 .. K-1], one label
    per row, and data on which each distance of a member to the centroid of
    its cluster and the square of that distance are within the range of a
    double, [Ball_Hall] returns, and stores, the mean over the clusters of
    the mean squared Euclidean distance of the members to their centroid,
    evaluated in double precision:
    [(sum_i (sum_{x in C_i} ||x - mean(C_i)||^2) / |C_i|) / K], the clusters
    taken in the order of their ids and the members in row order. *)
Theorem Ball_Hall_is_mean_dispersion
  (lib : b64.libraries)
  (D : b64.matrix) (L : list Z) (K : Z) :
  (1 <= K)%Z ->
  contiguous L K ->
  length L = length D ->
  (forall i, (0 <= i < K)%Z ->
     b64.cluster_in_range lib (ncols D) (cluster_rows D L i) = true) ->
  let score := b64.PyFloat (b64.ball_hall_formula lib D L K) in
  b64.Ball_Hall lib (b64.init D L)
  = (ret score,
     b64.mk D L score "Mean of the mean dispersions across all clusters").
Proof.
  intros HK Hc Hlen Hr score. unfold b64.Ball_Hall.
  rewrite bindS_modifyS, bindS_getS.
  erewrite bindS_ret
    by (unfold liftW; cbn [b64.init b64.set_description b64.dataMatrix b64.classLabel];
        rewrite (b64_core_value lib D L K HK Hc Hlen Hr); reflexivity).
  rewrite bindS_modifyS. reflexivity.
Qed.

Lemma seven_labels_contiguous : contiguous seven_labels 3.
Proof. intros x. unfold seven_labels. simpl. lia. Defined.

Lemma swap_1_2_permutes : permutes swap_1_2 3.
Proof.
  unfold swap_1_2. split.
  - intros i Hi. destruct (i =? 1)%Z; [lia|]. destruct (i =? 2)%Z; lia.
  - intros i j Hi Hj.
    destruct (i =? 1)%Z eqn:E1, (j =? 1)%Z eqn:E2;
      destruct (i =? 2)%Z eqn:E3, (j =? 2)%Z eqn:E4; lia.
Defined.

Lemma seven_points_in_range (i : Z) :
  (0 <= i < 3)%Z ->
  b64.cluster_in_range b64.reference
    (ncols seven_points) (cluster_rows seven_points seven_labels i) = true.
Proof.
  intros Hi.
  assert (H : i = 0%Z \/ i = 1%Z \/ i = 2%Z) by lia.
  destruct H as [->|[->| ->]]; vm_compute; reflexivity.
Defined.

Lemma Ball_Hall_is_mean_dispersion_witness :
  result_of (Ball_Hall_reference (b64.init seven_points seven_labels))
  = Ok (b64.PyFloat
          (b64.ball_hall_formula b64.reference
             seven_points seven_labels 3)).
Proof.
  unfold Ball_Hall_reference.
  rewrite (Ball_Hall_is_mean_dispersion b64.reference
             seven_points seven_labels 3).
  - reflexivity.
  - lia.
  - exact seven_labels_contiguous.
  - reflexivity.
  - exact seven_points_in_range.
Defined.

(** C6 as stated fails in double precision.  On the objects 0, 1 and 2 in
    one cluster the mean dispersion is 2/3, which no double equals:
    [Ball_Hall] returns the double next to it.  On the two objects 0 and
    2^600 in one cluster the squared distance leaves the range of a double:
    [math.pow] raises [OverflowError] and [Ball_Hall] returns nothing. *)
Lemma Ball_Hall_rounds_or_overflows :
  (contiguous [0; 0; 0]%Z 1 /\
   exists v q,
     result_of (Ball_Hall_reference (b64.init [[0]; [1]; [2]]%float [0; 0; 0]%Z))
     = Ok (b64.PyFloat v) /\
     exact_value v = Some q /\ ~ (q == 2 # 3)%Q) /\
  (contiguous [0; 0]%Z 1 /\
   result_of (Ball_Hall_reference (b64.init [[0]; [0x1p600]]%float [0; 0]%Z))
   = Raise (OverflowError "math range error")).
Proof.
  split; split; try (intros x; simpl; lia).
  - eexists. eexists. split; [vm_compute; reflexivity|].
    split; [vm_compute; reflexivity|].
    intros H. vm_compute in H. discriminate H.
  - vm_compute. reflexivity.
Qed.

(** C5 as stated fails in double precision: on seven objects in three
    clusters, exchanging the ids 1 and 2 changes the order in which
    [Ball_Hall] adds the mean dispersions, and the score changes in its last
    bits (1.8888888888888891 becomes 1.8888888888888886). *)
Lemma Ball_Hall_score_depends_on_ids :
  contiguous seven_labels 3 /\
  permutes swap_1_2 3 /\
  length seven_labels = length seven_points /\
  result_of (Ball_Hall_reference (b64.init seven_points (map swap_1_2 seven_labels)))
  <> result_of (Ball_Hall_reference (b64.init seven_points seven_labels)).
Proof.
  split; [exact seven_labels_contiguous|].
  split; [exact swap_1_2_permutes|].
  split; [reflexivity|].
  intros H.
  apply (f_equal (fun r => match r with
                           | Ok (b64.PyFloat x) => Prim2SF x
                           | _ => S754_nan
                           end)) in H.
  vm_compute in H. discriminate H.
Qed.

(** *** Labels that skip a cluster id *)

Lemma b64_result (lib : b64.libraries)
  (D : b64.matrix) (L : list Z) :
  result_of (b64.Ball_Hall lib (b64.init D L))
  = out (b64.Ball_Hall_core lib D L).
Proof.
  unfold b64.Ball_Hall. rewrite bindS_modifyS, bindS_getS.
  cbn [b64.init b64.set_description b64.dataMatrix b64.classLabel].
  rewrite result_bindS_liftW.
  destruct (out (b64.Ball_Hall_core lib D L)); reflexivity.
Qed.

Lemma library_error_bind {A B} (m : W A) (k : A -> W B) :
  library_error (out m) -> library_error (out (bind m k)).
Proof.
  rewrite out_bind. intros [[msg H]|[msg H]]; rewrite H; [left | right]; eauto.
Qed.

Section Outcomes.

Variable lib : b64.libraries.

(** A Python float. *)
Let is_float (a : b64.pynum) : Prop := exists x, a = b64.PyFloat x.

Lemma b64_square_outcome {A} (x c : b64.vector) (k : b64.pynum -> W A) :
  (exists p, (d <- b64.euclidean lib x c ;; p <- b64.math_pow2 lib d ;; k p)
             = k (b64.PyFloat p)) \/
  library_error (out (d <- b64.euclidean lib x c ;; p <- b64.math_pow2 lib d ;; k p)).
Proof.
  unfold b64.euclidean, b64.math_pow2. cbv zeta.
  destruct (forallb PrimFloat.is_finite (b64.vec_sub x c)).
  - rewrite bind_ret_l.
    destruct (PrimFloat.is_finite (b64.nrm2 lib (b64.vec_sub x c)));
      [|left; eexists; apply bind_ret_l].
    destruct (PrimFloat.is_nan (b64.pow2 lib (b64.nrm2 lib (b64.vec_sub x c)))).
    + right. right. eexists. reflexivity.
    + destruct (PrimFloat.is_infinity (b64.pow2 lib (b64.nrm2 lib (b64.vec_sub x c)))).
      * right. left. eexists. reflexivity.
      * left. eexists. apply bind_ret_l.
  - right. right. eexists. reflexivity.
Qed.

Lemma b64_sum_outcome (c : b64.vector) (C : b64.matrix) :
  forall a,
    (exists s, out (foldM (fun sumDis member =>
                             d <- b64.euclidean lib member c ;;
                             p <- b64.math_pow2 lib d ;;
                             ret (b64.py_add sumDis p)) C a) = Ok s /\
               (C = [] -> s = a) /\ (C <> [] -> is_float s)) \/
    library_error (out (foldM (fun sumDis member =>
                                 d <- b64.euclidean lib member c ;;
                                 p <- b64.math_pow2 lib d ;;
                                 ret (b64.py_add sumDis p)) C a)).
Proof.
  induction C as [|x C IH]; intros a; cbn [foldM].
  - left. exists a. split; [reflexivity|]. split; [reflexivity | congruence].
  - destruct (b64_square_outcome x c (fun p => ret (b64.py_add a p)))
      as [[p Hp]|He].
    + rewrite Hp, bind_ret_l.
      destruct (IH (b64.py_add a (b64.PyFloat p))) as [[s [Hs [Hs0 Hf]]]|He].
      * left. exists s. split; [exact Hs|]. split; [discriminate|]. intros _.
        destruct C as [|y C].
        -- rewrite (Hs0 eq_refl). destruct a; eexists; reflexivity.
        -- apply Hf. discriminate.
      * right. exact He.
    + right. apply library_error_bind. exact He.
Qed.

Section Rounds.

Variables (D : b64.matrix) (L : list Z).
Hypothesis compatible : length L = length D.

(** One round of the loop over the cluster ids. *)
Let round (sumTotal : b64.pynum) (i : Z) : W b64.pynum :=
  clusterMember <- take_rows D (indices_of L i) ;;
  clusterCenter <- b64.np_mean_axis0 lib (ncols D) clusterMember ;;
  sumDis <- b64.sum_sq_dist lib clusterMember clusterCenter ;;
  q <- b64.py_truediv sumDis (b64.PyInt (val.len (indices_of L i))) ;;
  ret (b64.py_add sumTotal q).

Lemma b64_round_member (s : b64.pynum) (i : Z) :
  In i L ->
  (exists s', out (round s i) = Ok s' /\ is_float s') \/
  library_error (out (round s i)).
Proof.
  intros Hi. unfold round.
  assert (Hne : cluster_rows D L i <> [])
    by (apply cluster_rows_nonempty; assumption).
  rewrite take_rows_cluster by exact compatible.
  rewrite bind_ret_l, b64_mean_nonempty by exact Hne.
  rewrite bind_ret_l, (len_indices D L i compatible).
  unfold b64.sum_sq_dist.
  destruct (b64_sum_outcome (b64.np_mean0 lib (ncols D) (cluster_rows D L i))
              (cluster_rows D L i) (b64.PyInt 0)) as [[t [Ht [_ Hf]]]|He].
  - left. rewrite out_bind, Ht.
    destruct (Hf Hne) as [x ->].
    rewrite b64_truediv_float_int by (apply len_nonempty, Hne).
    rewrite bind_ret_l. eexists. split; [reflexivity|].
    destruct s; eexists; reflexivity.
  - right. apply library_error_bind. exact He.
Qed.

Lemma b64_round_unused (s : b64.pynum) (i : Z) :
  ~ In i L -> out (round s i) = Raise ZeroDivisionError.
Proof.
  intros Hn. unfold round.
  rewrite take_rows_cluster by exact compatible.
  rewrite bind_ret_l, (len_unused D L i compatible Hn), cluster_rows_unused by exact Hn.
  unfold b64.np_mean_axis0. rewrite !out_bind.
  destruct (ncols D =? 0)%nat; reflexivity.
Qed.

Lemma b64_rounds (ids : list Z) :
  (forall j, In j ids -> In j L) ->
  forall s,
    (exists s', out (foldM round ids s) = Ok s' /\
                (ids = [] -> s' = s) /\ (ids <> [] -> is_float s')) \/
    library_error (out (foldM round ids s)).
Proof.
  induction ids as [|i ids IH]; intros Hin s; cbn [foldM].
  - left. exists s. split; [reflexivity|]. split; [reflexivity | congruence].
  - destruct (b64_round_member s i (Hin i (or_introl eq_refl))) as [[t [Ht Hf]]|He].
    + rewrite out_bind, Ht.
      destruct (IH (fun j Hj => Hin j (or_intror Hj)) t) as [[s' [Hs [He Hf']]]|He'].
      * left. exists s'. split; [exact Hs|]. split; [discriminate|]. intros _.
        destruct ids as [|j ids]; [rewrite (He eq_refl); exact Hf | apply Hf'; discriminate].
      * right. exact He'.
    + right. apply library_error_bind. exact He.
Qed.

Lemma b64_core_outcome :
  L <> [] ->
  (forall K, contiguous L K ->
     (exists v, out (b64.Ball_Hall_core lib D L) = Ok (b64.PyFloat v)) \/
     library_error (out (b64.Ball_Hall_core lib D L))) /\
  ((forall K, ~ contiguous L K) ->
     out (b64.Ball_Hall_core lib D L) = Raise ZeroDivisionError \/
     library_error (out (b64.Ball_Hall_core lib D L))).
Proof.
  intros Hne. unfold b64.Ball_Hall_core. cbv zeta. fold round. split.
  - intros K Hc.
    destruct (contiguous_cases L K Hc) as [E|HK]; [contradiction|].
    rewrite (contiguous_unique_count L K) by (lia || exact Hc).
    destruct (b64_rounds (range_ K)
                (fun j Hj => proj2 (Hc j) (proj1 (range_in K j) Hj)) (b64.PyInt 0))
      as [[s [Hs [_ Hf]]]|He].
    + left. rewrite out_bind, Hs.
      destruct Hf as [x ->].
      { intros E. apply (f_equal (@length Z)) in E. rewrite range_length in E.
        simpl in E. lia. }
      rewrite b64_truediv_float_int by lia. eexists. reflexivity.
    + right. apply library_error_bind. exact He.
  - intros Hnc.
    destruct (unique_count_gap L) as [Hc|[i [Hi [Hn Hb]]]]; [exfalso; eapply Hnc, Hc|].
    destruct (range_split _ i Hi) as [post Hr]. rewrite Hr.
    rewrite foldM_app.
    destruct (b64_rounds (range_ i)
                (fun j Hj => Hb j (proj1 (range_in i j) Hj)) (b64.PyInt 0))
      as [[s [Hs _]]|He].
    + left. rewrite !out_bind, Hs. cbn [foldM].
      rewrite out_bind, (b64_round_unused s i Hn). reflexivity.
    + right. apply library_error_bind, library_error_bind. exact He.
Qed.

End Rounds.

End Outcomes.

(** X4.  With one label per row and at least one row, in double
    precision: when the labels are exactly [0 .. K-1] for some [K],
    [Ball_Hall] returns a Python float unless a library call raises
    ([OverflowError] from [math.pow], [ValueError] from scipy's
    [euclidean]); when they are not, it never returns a score: it counts the
    distinct labels but visits the ids [0 .. count-1], and at the first id
    without members it divides 0 by 0, [ZeroDivisionError]. *)
Theorem Ball_Hall_needs_contiguous_labels
  (lib : b64.libraries)
  (D : b64.matrix) (L : list Z) :
  L <> [] ->
  length L = length D ->
  let r := result_of (b64.Ball_Hall lib (b64.init D L)) in
  (forall K, contiguous L K ->
     (exists v, r = Ok (b64.PyFloat v)) \/ library_error r) /\
  ((forall K, ~ contiguous L K) ->
     r = Raise ZeroDivisionError \/ library_error r).
Proof.
  intros Hne Hlen r. subst r. rewrite b64_result.
  apply b64_core_outcome; assumption.
Qed.

Lemma Ball_Hall_needs_contiguous_labels_witness :
  result_of (Ball_Hall_reference (b64.init [[0]; [1]]%float [0; 2]%Z))
    = Raise ZeroDivisionError \/
  library_error
    (result_of (Ball_Hall_reference (b64.init [[0]; [1]]%float [0; 2]%Z))).
Proof.
  apply (Ball_Hall_needs_contiguous_labels b64.reference
           [[0]; [1]]%float [0; 2]%Z).
  - discriminate.
  - reflexivity.
  - intros K HK.
    assert (H1 : In 1%Z [0; 2]%Z).
    { apply HK. assert (0 <= 2 < K)%Z by (apply HK; simpl; tauto). lia. }
    simpl in H1. lia.
Defined.

(** *** Cluster ids permuted *)

(** X27.  In double precision, on labels that are exactly [0 .. K-1], one
    per row, and distances within the range of a double: after the cluster
    ids are permuted [Ball_Hall] adds the same mean dispersions in another
    order.  Both scores are the sum of these [K] terms, taken from 0.0 in
    the order of the ids, over [K]; they differ by the rounding of the sums
    only. *)
Theorem Ball_Hall_relabelled_adds_same_terms
  (lib : b64.libraries) (D : b64.matrix) (L : list Z) (K : Z) (sigma : Z -> Z) :
  (1 <= K)%Z ->
  contiguous L K ->
  permutes sigma K ->
  length L = length D ->
  (forall i, (0 <= i < K)%Z ->
     b64.cluster_in_range lib (ncols D) (cluster_rows D L i) = true) ->
  Permutation (b64.dispersions lib D (map sigma L) K) (b64.dispersions lib D L K) /\
  result_of (b64.Ball_Hall lib (b64.init D (map sigma L)))
  = Ok (b64.PyFloat
          (b64.fsum (b64.dispersions lib D (map sigma L) K) / b64.of_int K)) /\
  result_of (b64.Ball_Hall lib (b64.init D L))
  = Ok (b64.PyFloat (b64.fsum (b64.dispersions lib D L K) / b64.of_int K)).
Proof.
  intros HK Hc Hs Hlen Hr. split; [|split].
  - unfold b64.dispersions.
    rewrite <- (map_map (cluster_rows D (map sigma L))
                  (b64.mean_dispersion lib (ncols D))).
    rewrite <- (map_map (cluster_rows D L) (b64.mean_dispersion lib (ncols D))).
    apply Permutation_map, (relabel_clusters L K sigma Hc Hs).
  - rewrite b64_result.
    rewrite (b64_core_value lib D (map sigma L) K HK
               (relabel_contiguous L K sigma Hc Hs)).
    + reflexivity.
    + rewrite length_map. exact Hlen.
    + intros j Hj.
      assert (Hin : In j (map sigma (range_ K))).
      { apply (Permutation_in j (Permutation_sym (relabel_range K sigma Hs))).
        apply range_in. exact Hj. }
      apply in_map_iff in Hin. destruct Hin as [i [<- Hi]].
      apply range_in in Hi.
      rewrite (relabel_cluster_rows L K sigma Hc Hs D i Hi). apply Hr. exact Hi.
  - rewrite b64_result, (b64_core_value lib D L K HK Hc Hlen Hr). reflexivity.
Qed.

Lemma Ball_Hall_relabelled_adds_same_terms_witness :
  Permutation
    (b64.dispersions b64.reference seven_points (map swap_1_2 seven_labels) 3)
    (b64.dispersions b64.reference seven_points seven_labels 3).
Proof.
  apply (Ball_Hall_relabelled_adds_same_terms b64.reference
           seven_points seven_labels 3 swap_1_2).
  - lia.
  - exact seven_labels_contiguous.
  - exact swap_1_2_permutes.
  - reflexivity.
  - exact seven_points_in_range.
Defined.

(* ================================================================== *)
(** * Further properties

    Edge cases, invariants and compositions: of the metrics of
    validation.py, of the bookkeeping of the cluster and validation classes,
    and of the data class. *)

(** ** What a metric leaves of its object *)

Lemma state_bindS {S A B} (m : M S A) (k : A -> M S B) (s : S) :
  state_of (bindS m k s)
  = match m s with
    | ((Ok a, _), s1) => state_of (k a s1)
    | ((Raise _, _), s1) => s1
    end.
Proof.
  unfold bindS, state_of. destruct (m s) as [[[a|e] w] s1]; [|reflexivity].
  destruct (k a s1) as [[r w'] s2]. reflexivity.
Qed.

Lemma state_bindS_liftW {S A B} (m : W A) (k : A -> M S B) (s : S) :
  state_of (bindS (liftW m) k s)
  = match out m with Ok a => state_of (k a s) | Raise _ => s end.
Proof.
  rewrite state_bindS. unfold liftW, out. destruct m as [[a|e] w]; reflexivity.
Qed.

Lemma foldMS_invariant {S A B} (P : S -> Prop) (f : A -> B -> M S A) (l : list B) :
  (forall a x s, P s -> P (state_of (f a x s))) ->
  forall a s, P s -> P (state_of (foldMS f l a s)).
Proof.
  intros Hf. induction l as [|x l IH]; intros a s Hs; simpl.
  - exact Hs.
  - rewrite state_bindS. specialize (Hf a x s Hs).
    destruct (f a x s) as [[[a'|e] w] s1]; simpl in Hf; [apply IH|]; exact Hf.
Qed.

(** A metric of the common shape touches the description and the score
    only. *)
Lemma method_frame (desc : string) (core : matrix -> list Z -> W pynum)
  (self : val.validation) :
  val.dataMatrix (state_of (val.method desc core self)) = val.dataMatrix self /\
  val.classLabel (state_of (val.method desc core self)) = val.classLabel self.
Proof.
  unfold val.method. rewrite bindS_modifyS, bindS_getS.
  rewrite state_bindS_liftW.
  destruct (out (core _ _)) as [v|e]; split; reflexivity.
Qed.

Lemma Banfeld_body_frame (D : matrix) (L : list Z) (a : pynum) (x : Z)
  (s : val.validation) :
  val.dataMatrix (state_of (Banfeld_body D L a x s)) = val.dataMatrix s /\
  val.classLabel (state_of (Banfeld_body D L a x s)) = val.classLabel s.
Proof.
  unfold Banfeld_body. cbv zeta.
  rewrite state_bindS_liftW.
  destruct (out (take_rows D (indices_of L x))) as [cm|e]; [|split; reflexivity].
  rewrite state_bindS_liftW.
  destruct (out (py_truediv _ _)) as [q|e]; [|split; reflexivity].
  destruct (py_le q (PyInt 0)).
  - rewrite state_bindS_liftW. split; reflexivity.
  - rewrite state_bindS_liftW.
    destruct (out (py_truediv _ _)) as [q'|e]; [|split; reflexivity].
    rewrite state_bindS_liftW.
    destruct (out (math_log q')) as [lg|e]; [|split; reflexivity].
    rewrite bindS_modifyS. split; reflexivity.
Qed.

Lemma Banfeld_Raferty_frame (self : val.validation) :
  val.dataMatrix (state_of (val.Banfeld_Raferty self)) = val.dataMatrix self /\
  val.classLabel (state_of (val.Banfeld_Raferty self)) = val.classLabel self.
Proof.
  unfold val.Banfeld_Raferty. rewrite bindS_modifyS, bindS_getS. cbv zeta.
  cbn [val.dataMatrix val.classLabel val.set_description].
  rewrite state_bindS_liftW.
  destruct (out (val.numCluster_max (val.classLabel self))) as [n|e];
    [|split; reflexivity].
  fold (Banfeld_body (val.dataMatrix self) (val.classLabel self)).
  rewrite state_bindS.
  match goal with
  | |- context [foldMS ?f ?l ?a ?s] =>
      assert (Hfin : val.dataMatrix (state_of (foldMS f l a s)) = val.dataMatrix self /\
                     val.classLabel (state_of (foldMS f l a s)) = val.classLabel self);
      [ apply (foldMS_invariant
                 (fun s' => val.dataMatrix s' = val.dataMatrix self /\
                            val.classLabel s' = val.classLabel self));
        [ intros a' x s' [HD HL];
          destruct (Banfeld_body_frame (val.dataMatrix self) (val.classLabel self)
                      a' x s') as [H1 H2];
          rewrite H1, H2; split; assumption
        | split; reflexivity ]
      | destruct (foldMS f l a s) as [[[r|e] w'] s1] ]
  end; cbn [state_of snd] in Hfin.
  - rewrite bindS_getS. exact Hfin.
  - exact Hfin.
Qed.

(** [det_ratio] sets its description first and never touches the labels. *)
Lemma det_ratio_frame (self : val.validation) :
  val.classLabel (state_of (val.det_ratio self)) = val.classLabel self /\
  val.description (state_of (val.det_ratio self))
  = "Determinant ratio, a measure of connectedness".
Proof.
  unfold val.det_ratio. rewrite bindS_modifyS, bindS_getS.
  cbn [val.dataMatrix val.classLabel val.set_description].
  rewrite state_bindS_liftW.
  destruct (out (len_first_row (val.dataMatrix self))) as [m|e]; [|split; reflexivity].
  rewrite state_bindS_liftW.
  destruct (out (val.numCluster_max (val.classLabel self))) as [n|e];
    [|split; reflexivity].
  rewrite state_bindS_liftW.
  destruct (out (val.within_scatter _ _ _ _)) as [wg|e]; [|split; reflexivity].
  rewrite bindS_modifyS, bindS_getS. cbv zeta.
  rewrite state_bindS_liftW.
  destruct (out (py_truediv _ _)) as [v|e]; [|split; reflexivity].
  rewrite bindS_modifyS. split; reflexivity.
Qed.

Lemma log_det_ratio_frame (self : val.validation) :
  val.classLabel (state_of (val.log_det_ratio self)) = val.classLabel self /\
  val.description (state_of (val.log_det_ratio self))
  = "Determinant ratio, a measure of connectedness".
Proof.
  unfold val.log_det_ratio. rewrite bindS_modifyS, bindS_getS. cbv zeta.
  rewrite state_bindS.
  destruct (det_ratio_frame
              (val.set_description
                 "The log determinant ratio index, a measure of connectedness" self))
    as [HL HD].
  destruct (val.det_ratio _) as [[[r|e] w] s1]; cbn [state_of snd] in *;
    [|split; assumption].
  rewrite state_bindS_liftW.
  destruct (out (math_log r)) as [lg|e]; [|split; assumption].
  rewrite bindS_modifyS. cbn [retS state_of snd val.set_validation
                              val.classLabel val.description].
  split; assumption.
Qed.

Lemma metric_named_available (silhouette_score : matrix -> list Z -> W f64)
  (vn : string) (func : M val.validation pynum) :
  val.metric_by_name silhouette_score vn = Some func ->
  str_in vn val.validation_metrics_available = true.
Proof. intros H. metric_cases H; subst vn; reflexivity. Qed.

Lemma metric_frame (silhouette_score : matrix -> list Z -> W f64)
  (name : string) (func : M val.validation pynum) (self : val.validation) :
  val.metric_by_name silhouette_score name = Some func ->
  val.classLabel (state_of (func self)) = val.classLabel self /\
  (name <> "det_ratio" -> name <> "log_det_ratio" ->
   val.dataMatrix (state_of (func self)) = val.dataMatrix self).
Proof.
  intros H. metric_cases H; subst func;
    try (split; [|intros _ _]; apply method_frame);
    try (split; [|intros _ _]; apply Banfeld_Raferty_frame).
  - split; [apply det_ratio_frame | intros Hn _; contradiction].
  - split; [apply log_det_ratio_frame | intros _ Hn; contradiction].
Qed.

(** X1.  Whatever metric is called, the labels of the metrics object are
    afterwards what they were; and unless the metric is [det_ratio] or
    [log_det_ratio], so is the data matrix.  This holds also when the metric
    raises. *)
Theorem metrics_keep_labels_and_data
  (silhouette_score : matrix -> list Z -> W f64)
  (name : string) (func : M val.validation pynum) (self : val.validation) :
  val.metric_by_name silhouette_score name = Some func ->
  val.classLabel (state_of (func self)) = val.classLabel self /\
  (name <> "det_ratio" -> name <> "log_det_ratio" ->
   val.dataMatrix (state_of (func self)) = val.dataMatrix self).
Proof. apply metric_frame. Qed.

Lemma metrics_keep_labels_and_data_witness :
  val.classLabel (state_of (val.PBM_index (val.init [[Fin 0]; [Fin 1]] [0; 1]%Z)))
    = [0; 1]%Z /\
  val.dataMatrix (state_of (val.PBM_index (val.init [[Fin 0]; [Fin 1]] [0; 1]%Z)))
    = [[Fin 0]; [Fin 1]].
Proof.
  destruct (metrics_keep_labels_and_data no_silhouette "PBM_index" val.PBM_index
              (val.init [[Fin 0]; [Fin 1]] [0; 1]%Z) eq_refl) as [HL HD].
  split; [exact HL | apply HD; discriminate].
Defined.

(** X2.  [log_det_ratio] sets its description and then calls [det_ratio],
    which sets its own: whatever the outcome, the description left on the
    object is that of [det_ratio]. *)
Theorem log_det_ratio_keeps_det_ratio_description (self : val.validation) :
  val.description (state_of (val.log_det_ratio self))
  = "Determinant ratio, a measure of connectedness".
Proof. apply log_det_ratio_frame. Qed.

Lemma result_method (desc : string) (core : matrix -> list Z -> W pynum)
  (self : val.validation) :
  result_of (val.method desc core self)
  = out (core (val.dataMatrix self) (val.classLabel self)).
Proof.
  unfold val.method. rewrite bindS_modifyS, bindS_getS.
  rewrite result_bindS_liftW.
  cbn [val.dataMatrix val.classLabel val.set_description].
  destruct (out (core _ _)); reflexivity.
Qed.

(** X3.  On an empty list of labels [Ball_Hall] divides 0 by 0 and raises
    [ZeroDivisionError]; the metrics that count clusters by [max(labels) + 1]
    raise the [ValueError] of [max] ([det_ratio], [log_det_ratio],
    [ksq_detw_index] and [Ratkowsky_Lance] read the first row of the data
    matrix before, so for them the matrix must have one). *)
Theorem metrics_on_empty_labels (D : matrix) :
  let self := val.init D [] in
  let no_max (r : outcome pynum) := exists msg, r = Raise (ValueError msg) in
  result_of (val.Ball_Hall self) = Raise ZeroDivisionError /\
  no_max (result_of (val.Banfeld_Raferty self)) /\
  no_max (result_of (val.c_index self)) /\
  no_max (result_of (val.log_ss_ratio self)) /\
  no_max (result_of (val.McClain_Rao self)) /\
  no_max (result_of (val.PBM_index self)) /\
  no_max (result_of (val.point_biserial self)) /\
  (D <> [] ->
   no_max (result_of (val.det_ratio self)) /\
   no_max (result_of (val.log_det_ratio self)) /\
   no_max (result_of (val.ksq_detw_index self)) /\
   no_max (result_of (val.Ratkowsky_Lance self))).
Proof.
  cbv zeta. repeat split; try reflexivity; try (eexists; reflexivity);
    destruct D as [|r D']; try contradiction; eexists; reflexivity.
Qed.

(** ** Loops over the receiver *)

Lemma foldMS_app {S A B} (f : A -> B -> M S A) (l1 l2 : list B) (a : A) (s : S) :
  forall a' w s', foldMS f l1 a s = ((Ok a', w), s') ->
  result_of (foldMS f (l1 ++ l2) a s) = result_of (foldMS f l2 a' s').
Proof.
  revert a s. induction l1 as [|x l1 IH]; intros a s a' w s' H; cbn [foldMS app] in *.
  - unfold retS, ret in H. inversion H. reflexivity.
  - unfold bindS in H |- *.
    destruct (f a x s) as [[[a1|e] w1] s1]; [|discriminate H].
    destruct (foldMS f l1 a1 s1) as [[r2 w2] s2] eqn:E2.
    inversion H; subst r2 s2. clear H.
    specialize (IH a1 s1 a' w2 s' E2).
    destruct (foldMS f (l1 ++ l2) a1 s1) as [[r3 w3] s3].
    unfold result_of in *. simpl in *. exact IH.
Qed.

Lemma result_bindS_raise {S A B} (m : M S A) (k : A -> M S B) (s : S) (e : exn) :
  result_of (m s) = Raise e -> result_of (bindS m k s) = Raise e.
Proof.
  unfold bindS, result_of. destruct (m s) as [[[a|e'] w] s1]; simpl; [discriminate|].
  intros H. inversion H. reflexivity.
Qed.

(** ** Doubles: zeros, and sums of numbers that are not negative *)

Lemma leb_zero (x : float) : (0 <=? x)%float = sf_nonneg (Prim2SF x).
Proof.
  rewrite FloatAxioms.leb_spec. change (Prim2SF 0) with (S754_zero false).
  destruct (Prim2SF x) as [s|[|]| |[|] m e]; reflexivity.
Qed.

Lemma is_zero_spec (x : float) :
  PrimFloat.is_zero x = match Prim2SF x with S754_zero _ => true | _ => false end.
Proof.
  unfold PrimFloat.is_zero. rewrite FloatAxioms.eqb_spec.
  change (Prim2SF PrimFloat.zero) with (S754_zero false).
  destruct (Prim2SF x) as [s|[|]| |[|] m e]; reflexivity.
Qed.

Lemma is_finite_spec (x : float) :
  PrimFloat.is_finite x
  = match Prim2SF x with S754_zero _ | S754_finite _ _ _ => true | _ => false end.
Proof.
  unfold PrimFloat.is_finite, PrimFloat.is_nan, PrimFloat.is_infinity.
  rewrite !FloatAxioms.eqb_spec, abs_spec.
  change (Prim2SF PrimFloat.infinity) with (S754_infinity false).
  destruct (Prim2SF x) as [s|[|]| |[|] m e]; try reflexivity;
    unfold SFeqb, SFabs, SFcompare; rewrite Z.compare_refl, Pos.compare_cont_refl;
    reflexivity.
Qed.

Lemma sub_self (x : float) :
  PrimFloat.is_finite (x - x) = true -> (x - x)%float = PrimFloat.zero.
Proof.
  intros H. apply Prim2SF_inj. rewrite is_finite_spec in H.
  rewrite sub_spec in *. change (Prim2SF PrimFloat.zero) with (S754_zero false).
  destruct (Prim2SF x) as [[|]|[|]| |s m e]; try discriminate H; try reflexivity.
  unfold SF64sub, SFsub. rewrite Z.sub_diag. reflexivity.
Qed.

Lemma mul_zero (f z : float) :
  PrimFloat.is_finite f = true -> PrimFloat.is_zero z = true ->
  PrimFloat.is_zero (f * z) = true.
Proof.
  rewrite is_finite_spec, !is_zero_spec, mul_spec.
  destruct (Prim2SF f) as [s|s| |s m e]; try discriminate;
    destruct (Prim2SF z) as [s'|s'| |s' m' e']; try discriminate; reflexivity.
Qed.

Lemma add_zero (z : float) :
  PrimFloat.is_zero z = true -> PrimFloat.is_zero (PrimFloat.zero + z) = true.
Proof.
  rewrite !is_zero_spec, add_spec. change (Prim2SF PrimFloat.zero) with (S754_zero false).
  destruct (Prim2SF z) as [[|]|s'| |s' m' e']; try discriminate; reflexivity.
Qed.

Lemma div_zero (b w : float) :
  PrimFloat.is_zero b = true -> (0 <=? w)%float = true ->
  PrimFloat.is_zero w = false -> PrimFloat.is_zero (b / w) = true.
Proof.
  rewrite leb_zero, !is_zero_spec, div_spec.
  destruct (Prim2SF b) as [s|s| |s m e]; try discriminate;
    destruct (Prim2SF w) as [s'|[|]| |[|] m' e']; try discriminate; reflexivity.
Qed.

Lemma shr_1_nonneg (mrs : shr_record) :
  (0 <= shr_m mrs)%Z -> (0 <= shr_m (shr_1 mrs))%Z.
Proof.
  destruct mrs as [m r s]. destruct m as [|[p|p|]|p]; simpl; lia.
Qed.

Lemma iter_shr_1_nonneg (p : BinNums.positive) :
  forall mrs, (0 <= shr_m mrs)%Z -> (0 <= shr_m (SpecFloat.iter_pos shr_1 p mrs))%Z.
Proof.
  induction p as [p IH|p IH|]; intros mrs H; simpl.
  - apply IH, IH, shr_1_nonneg, H.
  - apply IH, IH, H.
  - apply shr_1_nonneg, H.
Qed.

Lemma shr_fexp_nonneg (m e : Z) (l : location) :
  (0 <= m)%Z -> (0 <= shr_m (fst (shr_fexp prec emax m e l)))%Z.
Proof.
  intros H. unfold shr_fexp, shr.
  assert (H0 : (0 <= shr_m (shr_record_of_loc m l))%Z)
    by (destruct l as [|[| |]]; exact H).
  destruct (fexp prec emax (Zdigits2 m + e) - e)%Z; simpl; try exact H0.
  apply iter_shr_1_nonneg, H0.
Qed.

Lemma round_nearest_even_nonneg (m : Z) (l : location) :
  (0 <= m)%Z -> (0 <= round_nearest_even m l)%Z.
Proof.
  intros H. destruct l as [|[| |]]; simpl; try lia.
  destruct (Z.even m); lia.
Qed.

(** Rounding a number that is not negative gives a zero, a positive number
    or the positive infinity. *)
Lemma binary_round_aux_nonneg (m e : Z) (l : location) :
  (0 <= m)%Z -> sf_nonneg (binary_round_aux prec emax false m e l) = true.
Proof.
  intros H. unfold binary_round_aux.
  pose proof (shr_fexp_nonneg m e l H) as H1.
  destruct (shr_fexp prec emax m e l) as [mrs' e']. simpl in H1.
  pose proof (shr_fexp_nonneg _ e' loc_Exact
                (round_nearest_even_nonneg _ (loc_of_shr_record mrs') H1)) as H2.
  destruct (shr_fexp prec emax (round_nearest_even (shr_m mrs') (loc_of_shr_record mrs'))
              e' loc_Exact) as [mrs'' e''].
  simpl in H2. destruct (shr_m mrs'') as [|p|p]; [reflexivity| |lia].
  destruct (e'' <=? emax - prec)%Z; reflexivity.
Qed.

Lemma add_nonneg (a b : float) :
  (0 <=? a)%float = true -> (0 <=? b)%float = true -> (0 <=? a + b)%float = true.
Proof.
  rewrite !leb_zero, add_spec.
  destruct (Prim2SF a) as [s|[|]| |[|] m e]; try discriminate;
    destruct (Prim2SF b) as [s'|[|]| |[|] m' e']; try discriminate;
    intros _ _; try reflexivity.
  - destruct s, s'; reflexivity.
  - unfold SF64add, SFadd, cond_Zopp, binary_normalize.
    cbn [Z.add]. unfold binary_round.
    match goal with
    | |- context [shl_align ?a ?b ?c] => destruct (shl_align a b c) as [mz ez]
    end.
    apply binary_round_aux_nonneg. lia.
Qed.

(** ** Banfeld_Raferty in double precision, on labels that skip a cluster id *)

Lemma foldMS_app_raise {S A B} (f : A -> B -> M S A) (l1 l2 : list B) (e : exn) :
  forall a s, result_of (foldMS f l1 a s) = Raise e ->
              result_of (foldMS f (l1 ++ l2) a s) = Raise e.
Proof.
  induction l1 as [|x l1 IH]; intros a s H; cbn [foldMS app] in *.
  - discriminate H.
  - unfold bindS, result_of in *.
    destruct (f a x s) as [[[a1|e1] w1] s1]; [|exact H].
    specialize (IH a1 s1).
    destruct (foldMS f l1 a1 s1) as [[r2 w2] s2].
    destruct (foldMS f (l1 ++ l2) a1 s1) as [[r3 w3] s3].
    simpl in *. apply IH. exact H.
Qed.

Lemma library_error_raised {S A B} (m : M S A) (k : A -> M S B) (s : S) :
  library_error (result_of (m s)) -> library_error (result_of (bindS m k s)).
Proof.
  intros [[msg H]|[msg H]]; rewrite (result_bindS_raise m k s _ H);
    [left | right]; eexists; reflexivity.
Qed.

Lemma b64_math_log_outcome (lib : b64.libraries) (a : b64.pynum) :
  (exists v, b64.math_log lib a = ret v) \/
  library_error (out (b64.math_log lib a)).
Proof.
  unfold b64.math_log. cbv zeta.
  destruct (PrimFloat.is_nan (b64.to_float a)); [left; eexists; reflexivity|].
  destruct (0 <? b64.to_float a)%float; [|right; right; eexists; reflexivity].
  destruct (PrimFloat.is_infinity (b64.to_float a)); [left; eexists; reflexivity|].
  destruct (PrimFloat.is_finite (b64.log lib (b64.to_float a)));
    [left; eexists; reflexivity | right; right; eexists; reflexivity].
Qed.

Section BanfeldRounds.

Variable lib : b64.libraries.
Variables (D : b64.matrix) (L : list Z).
Hypothesis compatible : length L = length D.

(** One round of the loop over the cluster ids. *)
Let round (sumTotal : b64.pynum) (i : Z) : M b64.validation b64.pynum :=
  clusterMember <~ liftW (take_rows D (indices_of L i)) ;;
  clusterCenter <~ liftW (b64.np_mean_axis0 lib (ncols D) clusterMember) ;;
  sumDis <~ liftW (b64.sum_sq_dist lib clusterMember clusterCenter) ;;
  q <~ liftW (b64.py_truediv sumDis (b64.PyInt (val.len (indices_of L i)))) ;;
  if b64.py_le q (b64.PyInt 0) then
    liftW (warn (UserWarning
      "Cannot calculate Banfeld_Raferty, due to an undefined value")) ;;~
    retS sumTotal
  else
    q' <~ liftW (b64.py_truediv sumDis (b64.PyInt (val.len (indices_of L i)))) ;;
    lg <~ liftW (b64.math_log lib q') ;;
    let sumTotal :=
      b64.py_add sumTotal (b64.py_mul (b64.PyInt (val.len (indices_of L i))) lg) in
    modifyS (b64.set_validation sumTotal) ;;~
    retS sumTotal.

Lemma b64_Banfeld_round_member (s : b64.pynum) (i : Z) (st : b64.validation) :
  In i L ->
  (exists s', result_of (round s i st) = Ok s') \/
  library_error (result_of (round s i st)).
Proof.
  intros Hi. unfold round.
  assert (Hne : cluster_rows D L i <> [])
    by (apply cluster_rows_nonempty; assumption).
  rewrite result_bindS_liftW, take_rows_cluster, out_ret by exact compatible.
  rewrite result_bindS_liftW, b64_mean_nonempty, out_ret by exact Hne.
  rewrite result_bindS_liftW, (len_indices D L i compatible).
  unfold b64.sum_sq_dist.
  destruct (b64_sum_outcome lib (b64.np_mean0 lib (ncols D) (cluster_rows D L i))
              (cluster_rows D L i) (b64.PyInt 0)) as [[t [Ht [_ Hf]]]|He].
  - rewrite Ht. destruct (Hf Hne) as [x ->].
    rewrite result_bindS_liftW, b64_truediv_float_int, out_ret
      by (apply len_nonempty, Hne).
    destruct (b64.py_le _ _).
    + left. rewrite result_bindS_liftW. eexists. reflexivity.
    + rewrite result_bindS_liftW, out_ret, result_bindS_liftW.
      destruct (b64_math_log_outcome lib
                  (b64.PyFloat (x / b64.of_int (val.len (cluster_rows D L i)))))
        as [[v Hv]|Hv].
      * left. rewrite Hv, out_ret. cbv zeta. rewrite bindS_modifyS.
        eexists. reflexivity.
      * right. destruct Hv as [[msg H]|[msg H]]; rewrite H;
          [left | right]; eexists; reflexivity.
  - right. destruct He as [[msg H]|[msg H]]; rewrite H;
      [left | right]; eexists; reflexivity.
Qed.

Lemma b64_Banfeld_round_unused (s : b64.pynum) (i : Z) (st : b64.validation) :
  ~ In i L -> result_of (round s i st) = Raise ZeroDivisionError.
Proof.
  intros Hn. unfold round.
  rewrite result_bindS_liftW, take_rows_cluster, out_ret by exact compatible.
  rewrite (len_unused D L i compatible Hn), cluster_rows_unused by exact Hn.
  rewrite result_bindS_liftW.
  assert (Hm : out (b64.np_mean_axis0 lib (ncols D) [])
               = Ok (b64.np_mean0 lib (ncols D) [])).
  { unfold b64.np_mean_axis0. rewrite !out_bind.
    destruct (ncols D =? 0)%nat; reflexivity. }
  rewrite Hm. reflexivity.
Qed.

Lemma b64_Banfeld_rounds (ids : list Z) :
  (forall j, In j ids -> In j L) ->
  forall s st,
    (exists s' w st', foldMS round ids s st = ((Ok s', w), st')) \/
    library_error (result_of (foldMS round ids s st)).
Proof.
  induction ids as [|i ids IH]; intros Hin s st; cbn [foldMS].
  - left. exists s, [], st. reflexivity.
  - destruct (b64_Banfeld_round_member s i st (Hin i (or_introl eq_refl)))
      as [[t Ht]|He].
    + destruct (round s i st) as [[[t'|e] w1] st1] eqn:E; [|discriminate Ht].
      destruct (IH (fun j Hj => Hin j (or_intror Hj)) t' st1)
        as [[s' [w [st' Hs]]]|He'].
      * left. unfold bindS. rewrite E, Hs. eexists _, _, _. reflexivity.
      * right. rewrite (result_bindS_ok _ _ _ _ _ _ E). exact He'.
    + right. apply library_error_raised. exact He.
Qed.

Lemma b64_Banfeld_gap (ids post : list Z) (i : Z) (s : b64.pynum)
  (st : b64.validation) :
  (forall j, In j ids -> In j L) -> ~ In i L ->
  let r := result_of (foldMS round (ids ++ i :: post) s st) in
  r = Raise ZeroDivisionError \/ library_error r.
Proof.
  intros Hin Hn r. subst r.
  destruct (b64_Banfeld_rounds ids Hin s st) as [[s' [w [st' Hs]]]|He].
  - left. rewrite (foldMS_app _ _ _ _ _ _ _ _ Hs). cbn [foldMS].
    apply result_bindS_raise, b64_Banfeld_round_unused, Hn.
  - right. destruct He as [[msg H]|[msg H]];
      rewrite (foldMS_app_raise _ _ _ _ _ _ H); [left | right]; eexists; reflexivity.
Qed.

End BanfeldRounds.

(** X5.  In double precision, with one label per row: [Banfeld_Raferty]
    visits the ids [0 .. max(labels)]; when one of them has no member the
    metric never returns a score: at the first such id the mean dispersion
    is the quotient of the ints 0 and 0, [ZeroDivisionError], unless a
    library call has raised for a cluster before it ([OverflowError] from
    [math.pow], [ValueError] from scipy's [euclidean]). *)
Theorem Banfeld_Raferty_unused_id
  (lib : b64.libraries) (D : b64.matrix) (L : list Z) (i m : Z) :
  length L = length D ->
  In m L -> (0 <= i < m)%Z -> ~ In i L ->
  let r := result_of (b64.Banfeld_Raferty lib (b64.init D L)) in
  r = Raise ZeroDivisionError \/ library_error r.
Proof.
  intros Hlen Hm Hi Hn r. subst r.
  assert (Hne : L <> []) by (intros E; rewrite E in Hm; exact Hm).
  destruct (py_max_spec L Hne) as [mx [Hmax [Hin Hle]]].
  unfold b64.Banfeld_Raferty. rewrite bindS_modifyS, bindS_getS. cbv zeta.
  cbn [b64.init b64.set_description b64.dataMatrix b64.classLabel].
  erewrite bindS_ret
    by (unfold liftW, val.numCluster_max; rewrite Hmax, bind_ret_l; reflexivity).
  destruct (first_gap L (Z.to_nat (mx + 1))) as [Hall|[i0 [Hi0 [Hn0 Hb]]]].
  { exfalso. apply Hn, Hall. specialize (Hle m Hm). lia. }
  assert (Hr0 : (0 <= i0 < mx + 1)%Z) by lia.
  destruct (range_split _ i0 Hr0) as [post Hr]. rewrite Hr.
  match goal with
  | |- context [bindS (foldMS ?f ?ids ?a) ?k ?st] =>
      destruct (b64_Banfeld_gap lib D L Hlen (range_ i0) post i0 a st
                  (fun j Hj => Hb j (proj1 (range_in i0 j) Hj)) Hn0)
        as [H|[[msg H]|[msg H]]];
      rewrite (result_bindS_raise (foldMS f ids a) k st _ H)
  end.
  - left. reflexivity.
  - right. left. eexists. reflexivity.
  - right. right. eexists. reflexivity.
Qed.

Lemma Banfeld_Raferty_unused_id_witness :
  let r := result_of (b64.Banfeld_Raferty b64.reference
                        (b64.init [[0]; [1]]%float [0; 2]%Z)) in
  r = Raise ZeroDivisionError \/ library_error r.
Proof.
  apply (Banfeld_Raferty_unused_id b64.reference [[0]; [1]]%float [0; 2]%Z 1 2).
  - reflexivity.
  - simpl. tauto.
  - lia.
  - simpl. lia.
Defined.

(** X6.  In double precision, with one label per row: on labels that are
    exactly [0 .. K-1] every cluster [Banfeld_Raferty] visits has a member,
    no mean dispersion is a quotient by 0, and the metric returns its score
    unless a library call raises ([OverflowError] from [math.pow],
    [ValueError] from scipy's [euclidean]). *)
Theorem Banfeld_Raferty_on_contiguous_labels
  (lib : b64.libraries) (D : b64.matrix) (L : list Z) (K : Z) :
  (1 <= K)%Z ->
  contiguous L K ->
  length L = length D ->
  let r := result_of (b64.Banfeld_Raferty lib (b64.init D L)) in
  (exists v, r = Ok v) \/ library_error r.
Proof.
  intros HK Hc Hlen r. subst r.
  destruct (contiguous_counts L K HK Hc) as [Hn _].
  unfold b64.Banfeld_Raferty. rewrite bindS_modifyS, bindS_getS. cbv zeta.
  cbn [b64.init b64.set_description b64.dataMatrix b64.classLabel].
  erewrite bindS_ret by (unfold liftW; rewrite Hn; reflexivity).
  match goal with
  | |- context [bindS (foldMS ?f ?ids ?a) ?k ?st] =>
      destruct (b64_Banfeld_rounds lib D L Hlen ids
                  (fun j Hj => proj2 (Hc j) (proj1 (range_in K j) Hj)) a st)
        as [[s' [w [st' Hs]]]|He]
  end.
  - left. rewrite (result_bindS_ok _ _ _ _ _ _ Hs), bindS_getS.
    eexists. reflexivity.
  - right. apply library_error_raised. exact He.
Qed.

Lemma Banfeld_Raferty_on_contiguous_labels_witness :
  let r := result_of (b64.Banfeld_Raferty b64.reference
                        (b64.init [[0]; [1]; [3]]%float [0; 0; 1]%Z)) in
  (exists v, r = Ok v) \/ library_error r.
Proof.
  apply (Banfeld_Raferty_on_contiguous_labels b64.reference
           [[0]; [1]; [3]]%float [0; 0; 1]%Z 2).
  - lia.
  - intros x. simpl. lia.
  - reflexivity.
Defined.

(** ** The pair-comparison metrics: g_plus_index and Baker_Hubert_Gamma *)

Lemma foldM_count {B} (f : Z -> B -> W Z) (c : B -> Z) (l : list B) :
  (forall a x, In x l -> exists a', f a x = ret a' /\ (a <= a' <= a + c x)%Z) ->
  forall a, exists a',
    foldM f l a = ret a' /\ (a <= a' <= a + fold_right Z.add 0%Z (map c l))%Z.
Proof.
  induction l as [|x l IH]; intros Hf a; cbn [foldM map fold_right].
  - exists a. split; [reflexivity | lia].
  - destruct (Hf a x (or_introl eq_refl)) as [a1 [H1 B1]].
    destruct (IH (fun a y Hy => Hf a y (or_intror Hy)) a1) as [a2 [H2 B2]].
    exists a2. rewrite H1, bind_ret_l. split; [exact H2 | lia].
Qed.

Lemma foldM_invariant {A B} (P : A -> Prop) (f : A -> B -> W A) (l : list B) :
  (forall a x, In x l -> P a -> exists a', f a x = ret a' /\ P a') ->
  forall a, P a -> exists a', foldM f l a = ret a' /\ P a'.
Proof.
  induction l as [|x l IH]; intros Hf a Ha; cbn [foldM].
  - exists a. split; [reflexivity | exact Ha].
  - destruct (Hf a x (or_introl eq_refl) Ha) as [a1 [H1 P1]].
    destruct (IH (fun a y Hy => Hf a y (or_intror Hy)) a1 P1) as [a2 [H2 P2]].
    exists a2. rewrite H1, bind_ret_l. split; assumption.
Qed.

Lemma range_succ (m : nat) :
  range_ (Z.of_nat (S m)) = range_ (Z.of_nat m) ++ [Z.of_nat m].
Proof.
  unfold range_. rewrite !Nat2Z.id, seq_S, map_app. reflexivity.
Qed.

Lemma range2_length (a b : Z) : val.len (range2 a b) = Z.max 0 (b - a).
Proof. unfold val.len, range2. rewrite length_map, length_seq. lia. Qed.

(** The number of pairs [i < j] below [n], twice. *)
Lemma pairs_below (n : Z) (m : nat) :
  (Z.of_nat m <= n)%Z ->
  (2 * fold_right Z.add 0
         (map (fun i => val.len (range2 (i + 1) n)) (range_ (Z.of_nat m)))
   = Z.of_nat m * (2 * n - 1 - Z.of_nat m))%Z.
Proof.
  induction m as [|m IH]; intros Hm.
  - reflexivity.
  - rewrite range_succ, map_app, fold_right_app. cbn [map fold_right].
    rewrite range2_length.
    assert (G : forall (l : list Z) (z : Z),
               fold_right Z.add z l = (fold_right Z.add 0 l + z)%Z).
    { induction l as [|y l IHl]; intros z; cbn [fold_right]; [lia|].
      rewrite IHl. lia. }
    rewrite G. specialize (IH ltac:(lia)). nia.
Qed.

Lemma gt_eq_exclusive (v : f64) : fgtb v fzero = true -> feqb v fzero = false.
Proof.
  unfold fgtb, fltb, feqb, fzero. destruct v as [r| | |]; try reflexivity.
  destruct (Rlt_dec 0 r); [|discriminate]. intros _.
  destruct (Req_EM_T r 0); [exfalso; lra | reflexivity].
Qed.

Lemma and_lazy_ret (a b : bool) :
  val.and_lazy (ret a) (ret b) = ret (a && b).
Proof. destruct a; reflexivity. Qed.

Section PairLoops.

Variables (D : matrix) (L : list Z).
Hypothesis compatible : length L = length D.

Let pairDis := pdist D.
Let vecB := pdist (val.label_matrix L).
Let numPair := val.len pairDis.

Lemma vecB_len : val.len vecB = numPair.
Proof.
  unfold numPair, vecB, pairDis, val.len. f_equal.
  apply pdist_length. unfold val.label_matrix. rewrite length_map. exact compatible.
Qed.

Lemma tests_at (i j : Z) :
  (0 <= i < numPair)%Z -> (0 <= j < numPair)%Z ->
  val.and_lazy (val.gt0 vecB i) (val.eq0 vecB j)
    = ret (fgtb (nth (Z.to_nat i) vecB fzero) fzero
           && feqb (nth (Z.to_nat j) vecB fzero) fzero) /\
  val.and_lazy (val.eq0 vecB i) (val.gt0 vecB j)
    = ret (feqb (nth (Z.to_nat i) vecB fzero) fzero
           && fgtb (nth (Z.to_nat j) vecB fzero) fzero) /\
  (forall k, (0 <= k < numPair)%Z ->
     val.gt_at pairDis k vecB i
       = ret (fgtb (nth (Z.to_nat k) pairDis fzero) (nth (Z.to_nat i) vecB fzero)) /\
     val.gt_at pairDis k vecB j
       = ret (fgtb (nth (Z.to_nat k) pairDis fzero) (nth (Z.to_nat j) vecB fzero)) /\
     val.lt_at pairDis i pairDis k
       = ret (fltb (nth (Z.to_nat i) pairDis fzero) (nth (Z.to_nat k) pairDis fzero)) /\
     val.lt_at pairDis j pairDis k
       = ret (fltb (nth (Z.to_nat j) pairDis fzero) (nth (Z.to_nat k) pairDis fzero))).
Proof.
  intros Hi Hj. pose proof vecB_len as Hv.
  unfold val.gt0, val.eq0, val.gt_at, val.lt_at.
  rewrite (py_index_ok vecB i fzero), (py_index_ok vecB j fzero) by lia.
  rewrite (py_index_ok pairDis i fzero), (py_index_ok pairDis j fzero)
    by (fold numPair; lia).
  rewrite !bind_ret_l, !and_lazy_ret.
  split; [reflexivity|]. split; [reflexivity|].
  intros k Hk. rewrite (py_index_ok pairDis k fzero) by (fold numPair; lia).
  rewrite !bind_ret_l. repeat split; reflexivity.
Qed.

Lemma g_plus_round (i j sminus : Z) :
  (0 <= i < numPair)%Z -> (0 <= j < numPair)%Z ->
  exists s',
    (c1 <- val.and_lazy (val.gt0 vecB i) (val.eq0 vecB j) ;;
     sminus <-
       (if c1 : bool then
          b <- val.gt_at pairDis i vecB j ;; ret (val.incr_if b sminus)
        else ret sminus) ;;
     c2 <- val.and_lazy (val.eq0 vecB i) (val.gt0 vecB j) ;;
     if c2 : bool then
       b <- val.gt_at pairDis j vecB i ;; ret (val.incr_if b sminus)
     else ret sminus)
    = ret s' /\ (sminus <= s' <= sminus + 1)%Z.
Proof.
  intros Hi Hj. destruct (tests_at i j Hi Hj) as [T1 [T2 T3]].
  destruct (T3 i Hi) as [_ [G1 _]]. destruct (T3 j Hj) as [G2 _].
  rewrite T1, T2, G1, G2, !bind_ret_l.
  pose proof (gt_eq_exclusive (nth (Z.to_nat i) vecB fzero)) as Ex.
  destruct (fgtb (nth (Z.to_nat i) vecB fzero) fzero);
    destruct (feqb (nth (Z.to_nat i) vecB fzero) fzero);
    try (specialize (Ex eq_refl); discriminate Ex);
    destruct (feqb (nth (Z.to_nat j) vecB fzero) fzero);
    destruct (fgtb (nth (Z.to_nat j) vecB fzero) fzero);
    cbn [andb]; rewrite ?bind_ret_l;
    try (eexists; split; [reflexivity | lia]);
    match goal with
    | |- context [val.incr_if ?b _] =>
        destruct b; cbn [val.incr_if]; rewrite ?bind_ret_l;
        eexists; split; try reflexivity; lia
    end.
Qed.

Lemma g_plus_loops :
  exists sminus,
    foldM (fun acc i =>
      foldM (fun sminus j =>
               c1 <- val.and_lazy (val.gt0 vecB i) (val.eq0 vecB j) ;;
               sminus <-
                 (if c1 : bool then
                    b <- val.gt_at pairDis i vecB j ;; ret (val.incr_if b sminus)
                  else ret sminus) ;;
               c2 <- val.and_lazy (val.eq0 vecB i) (val.gt0 vecB j) ;;
               if c2 : bool then
                 b <- val.gt_at pairDis j vecB i ;; ret (val.incr_if b sminus)
               else ret sminus)
            (range2 (i + 1) numPair) acc)
      (range_ (numPair - 1)) 0%Z
    = ret sminus /\
    (0 <= 2 * sminus <= numPair * (numPair - 1))%Z.
Proof.
  assert (Hn : (0 <= numPair)%Z) by (unfold numPair, val.len; lia).
  match goal with
  | |- exists s, foldM ?f ?l ?a0 = _ /\ _ =>
      assert (Hc : exists s, foldM f l a0 = ret s /\
                   (a0 <= s <= a0 + fold_right Z.add 0
                      (map (fun i => val.len (range2 (i + 1) numPair)) l))%Z)
  end.
  { apply foldM_count. intros a i Hi. apply range_in in Hi.
    match goal with
    | |- exists a', foldM ?f ?l ?a0 = _ /\ _ =>
        assert (Hc : exists s, foldM f l a0 = ret s /\
                     (a0 <= s <= a0 + fold_right Z.add 0%Z (map (fun _ => 1%Z) l))%Z)
    end.
    { apply foldM_count. intros s j Hj. apply range2_in in Hj.
      apply g_plus_round; lia. }
    destruct Hc as [s [Hs Hb]]. exists s. split; [exact Hs|].
    assert (G : forall l : list Z,
               fold_right Z.add 0%Z (map (fun _ => 1%Z) l) = val.len l).
    { induction l as [|y l IHl]; [reflexivity|].
      cbn [map fold_right]. rewrite IHl. unfold val.len. simpl length. lia. }
    rewrite G in Hb. exact Hb. }
  destruct Hc as [s [Hs Hb]]. exists s. split; [exact Hs|].
  destruct (Z.eq_dec numPair 0) as [E|E].
  - rewrite E in *. simpl in Hb. lia.
  - pose proof (pairs_below numPair (Z.to_nat (numPair - 1)) ltac:(lia)) as Hp.
    rewrite Z2Nat.id in Hp by lia. nia.
Qed.

Lemma Baker_Hubert_Gamma_loops :
  exists splus sminus,
    foldM (fun acc i =>
      foldM (fun '(splus, sminus) j =>
               c1 <- val.and_lazy (val.gt0 vecB i) (val.eq0 vecB j) ;;
               '(splus, sminus) <-
                 (if c1 : bool then
                    a <- val.lt_at pairDis i pairDis j ;;
                    b <- val.gt_at pairDis i vecB j ;;
                    ret (val.incr_if a splus, val.incr_if b sminus)
                  else ret (splus, sminus)) ;;
               c2 <- val.and_lazy (val.eq0 vecB i) (val.gt0 vecB j) ;;
               if c2 : bool then
                 a <- val.lt_at pairDis j pairDis i ;;
                 b <- val.gt_at pairDis j vecB i ;;
                 ret (val.incr_if a splus, val.incr_if b sminus)
               else ret (splus, sminus))
            (range2 (i + 1) numPair) acc)
      (range_ (numPair - 1)) (0%Z, 0%Z)
    = ret (splus, sminus) /\
    (0 <= splus)%Z /\ (0 <= sminus)%Z.
Proof.
  set (P := fun acc : Z * Z => (0 <= fst acc)%Z /\ (0 <= snd acc)%Z).
  match goal with
  | |- exists sp sm, foldM ?f ?l ?a0 = _ /\ _ =>
      assert (Hc : exists acc, foldM f l a0 = ret acc /\ P acc)
  end.
  { apply foldM_invariant; [|split; simpl; lia].
    intros acc i Hi Hacc. apply range_in in Hi.
    apply foldM_invariant; [|exact Hacc].
    intros [sp sm] j Hj [Hsp Hsm]. apply range2_in in Hj. cbn [fst snd] in *.
    assert (Hi' : (0 <= i < numPair)%Z) by lia.
    assert (Hj' : (0 <= j < numPair)%Z) by lia.
    destruct (tests_at i j Hi' Hj') as [T1 [T2 T3]].
    destruct (T3 i Hi') as [_ [G1 [_ G3]]]. destruct (T3 j Hj') as [G2 [_ [G4 _]]].
    rewrite T1, T2, G1, G2, G3, G4, !bind_ret_l.
    destruct (fgtb (nth (Z.to_nat i) vecB fzero) fzero
              && feqb (nth (Z.to_nat j) vecB fzero) fzero);
      destruct (feqb (nth (Z.to_nat i) vecB fzero) fzero
                && fgtb (nth (Z.to_nat j) vecB fzero) fzero);
      rewrite ?bind_ret_l;
      repeat match goal with
             | |- context [val.incr_if ?b _] =>
                 destruct b; cbn [val.incr_if]
             end;
      rewrite ?bind_ret_l;
      eexists; (split; [reflexivity | split; simpl; lia]). }
  destruct Hc as [[sp sm] [Hs [H1 H2]]]. exists sp, sm. auto.
Qed.

End PairLoops.

Lemma pdist_three_rows (D : matrix) :
  (3 <= length D)%nat -> (2 <= val.len (pdist D))%Z.
Proof.
  destruct D as [|a [|b [|c D]]]; simpl; try lia. intros _.
  unfold val.len. simpl. lia.
Qed.

(** X7.  With one label per row, [g_plus_index] raises
    [ZeroDivisionError] on a data matrix of at most two rows (there are
    fewer than two pairs of objects) and otherwise returns a Python float
    between 0 and 1. *)
Theorem g_plus_index_is_a_proportion (D : matrix) (L : list Z) :
  length L = length D ->
  ((length D <= 2)%nat ->
   result_of (val.g_plus_index (val.init D L)) = Raise ZeroDivisionError) /\
  ((3 <= length D)%nat ->
   exists r, result_of (val.g_plus_index (val.init D L)) = Ok (PyFloat (Fin r)) /\
             0 <= r <= 1).
Proof.
  intros Hlen. unfold val.g_plus_index. rewrite result_method.
  cbn [val.init val.dataMatrix val.classLabel]. split.
  - intros Hs. destruct D as [|a [|b [|c D]]]; [reflexivity | reflexivity | reflexivity |].
    simpl in Hs. lia.
  - intros H3. unfold val.g_plus_index_core. cbv zeta.
    destruct (g_plus_loops D L Hlen) as [s [Hs Hb]]. rewrite Hs, bind_ret_l.
    pose proof (pdist_three_rows D H3) as Hn.
    set (n := val.len (pdist D)) in *.
    assert (Hpos : (0 < n * (n - 1))%Z) by nia.
    rewrite py_truediv_python by (reflexivity || lia). cbn [to_f64].
    rewrite fdiv_Fin by (apply not_0_IZR; lia).
    eexists. split; [reflexivity|].
    assert (0 < IZR (n * (n - 1))) by (apply IZR_lt; exact Hpos).
    assert (0 <= IZR (2 * s)) by (apply IZR_le; lia).
    assert (IZR (2 * s) <= IZR (n * (n - 1))) by (apply IZR_le; lia).
    split.
    + apply Rmult_le_pos; [assumption | left; apply Rinv_0_lt_compat; assumption].
    + apply Rmult_le_reg_r with (r := IZR (n * (n - 1))); [assumption|].
      unfold Rdiv. rewrite Rmult_assoc, Rinv_l by lra. lra.
Qed.

Lemma g_plus_index_is_a_proportion_witness :
  result_of (val.g_plus_index (val.init [[Fin 0]; [Fin 1]] [0; 1]%Z))
  = Raise ZeroDivisionError.
Proof.
  apply (g_plus_index_is_a_proportion [[Fin 0]; [Fin 1]] [0; 1]%Z).
  - reflexivity.
  - simpl. lia.
Defined.

(** X8.  With one label per row, [Baker_Hubert_Gamma] either raises
    [ZeroDivisionError] (no comparison counted) or returns a Python float
    between -1 and 1; it raises nothing else. *)
Theorem Baker_Hubert_Gamma_range (D : matrix) (L : list Z) :
  length L = length D ->
  result_of (val.Baker_Hubert_Gamma (val.init D L)) = Raise ZeroDivisionError \/
  exists r, result_of (val.Baker_Hubert_Gamma (val.init D L)) = Ok (PyFloat (Fin r)) /\
            -1 <= r <= 1.
Proof.
  intros Hlen. unfold val.Baker_Hubert_Gamma. rewrite result_method.
  cbn [val.init val.dataMatrix val.classLabel].
  unfold val.Baker_Hubert_Gamma_core. cbv zeta.
  destruct (Baker_Hubert_Gamma_loops D L Hlen) as [sp [sm [Hs [Hp Hm]]]].
  rewrite Hs, bind_ret_l.
  destruct (Z.eq_dec (sp + sm) 0) as [E|E].
  - left. rewrite E. unfold py_truediv. cbn [is_np orb py_is_zero Z.eqb]. reflexivity.
  - right. rewrite py_truediv_python by (reflexivity || exact E). cbn [to_f64].
    rewrite fdiv_Fin by (apply not_0_IZR; exact E).
    eexists. split; [reflexivity|].
    assert (0 < IZR (sp + sm)) by (apply IZR_lt; lia).
    assert (IZR (sp - sm) <= IZR (sp + sm)) by (apply IZR_le; lia).
    assert (- IZR (sp + sm) <= IZR (sp - sm))
      by (rewrite <- opp_IZR; apply IZR_le; lia).
    split.
    + apply Rmult_le_reg_r with (r := IZR (sp + sm)); [assumption|].
      unfold Rdiv. rewrite Rmult_assoc, Rinv_l by lra. lra.
    + apply Rmult_le_reg_r with (r := IZR (sp + sm)); [assumption|].
      unfold Rdiv. rewrite Rmult_assoc, Rinv_l by lra. lra.
Qed.

Lemma Baker_Hubert_Gamma_range_witness :
  result_of (val.Baker_Hubert_Gamma (val.init [[Fin 0]; [Fin 1]] [0; 1]%Z))
    = Raise ZeroDivisionError \/
  exists r,
    result_of (val.Baker_Hubert_Gamma (val.init [[Fin 0]; [Fin 1]] [0; 1]%Z))
      = Ok (PyFloat (Fin r)) /\ -1 <= r <= 1.
Proof.
  apply (Baker_Hubert_Gamma_range [[Fin 0]; [Fin 1]] [0; 1]%Z). reflexivity.
Defined.

(** *** What the comparisons with the label distances count

    In the branch [vecB[i] > 0 and vecB[j] == 0] the metrics compare
    [pairDis[i]] with [vecB[j]], which is 0 there (and likewise in the other
    branch): for objects at positive distances from each other the
    comparison always holds. *)

Lemma feqb_zero (v : f64) : feqb v fzero = true -> v = Fin 0.
Proof.
  unfold feqb, fzero. destruct v as [r| | |]; try discriminate.
  destruct (Req_EM_T r 0) as [->|]; [reflexivity | discriminate].
Qed.

Lemma fgtb_positive (v : f64) : positive v -> fgtb v (Fin 0) = true.
Proof.
  intros [r [Hr ->]]. unfold fgtb, fltb.
  destruct (Rlt_dec 0 r); [reflexivity | contradiction].
Qed.

Section PositiveDistances.

Variables (D : matrix) (L : list Z).
Hypothesis compatible : length L = length D.
Hypothesis apart : Forall positive (pdist D).

Let pairDis := pdist D.
Let vecB := pdist (val.label_matrix L).
Let numPair := val.len pairDis.

(** The pair of positions [i], [j] holds one within-cluster and one
    between-cluster distance. *)
Let mixed (i j : Z) : bool :=
  (fgtb (nth (Z.to_nat i) vecB fzero) fzero
   && feqb (nth (Z.to_nat j) vecB fzero) fzero)
  || (feqb (nth (Z.to_nat i) vecB fzero) fzero
      && fgtb (nth (Z.to_nat j) vecB fzero) fzero).

Lemma apart_at (k : Z) :
  (0 <= k < numPair)%Z -> positive (nth (Z.to_nat k) pairDis fzero).
Proof.
  intros Hk. rewrite Forall_forall in apart. apply apart. apply nth_In.
  unfold numPair, val.len in Hk. fold pairDis. lia.
Qed.

Lemma g_plus_round_apart (i j sminus : Z) :
  (0 <= i < numPair)%Z -> (0 <= j < numPair)%Z ->
  (c1 <- val.and_lazy (val.gt0 vecB i) (val.eq0 vecB j) ;;
   sminus <-
     (if c1 : bool then
        b <- val.gt_at pairDis i vecB j ;; ret (val.incr_if b sminus)
      else ret sminus) ;;
   c2 <- val.and_lazy (val.eq0 vecB i) (val.gt0 vecB j) ;;
   if c2 : bool then
     b <- val.gt_at pairDis j vecB i ;; ret (val.incr_if b sminus)
   else ret sminus)
  = ret (val.incr_if (mixed i j) sminus).
Proof.
  intros Hi Hj. destruct (tests_at D L compatible i j Hi Hj) as [T1 [T2 T3]].
  destruct (T3 i Hi) as [_ [G1 _]]. destruct (T3 j Hj) as [G2 _].
  fold pairDis vecB in T1, T2, G1, G2.
  rewrite T1, T2, G1, G2, !bind_ret_l. unfold mixed.
  pose proof (gt_eq_exclusive (nth (Z.to_nat i) vecB fzero)) as Ex.
  pose proof (feqb_zero (nth (Z.to_nat i) vecB fzero)) as Zi.
  pose proof (feqb_zero (nth (Z.to_nat j) vecB fzero)) as Zj.
  pose proof (fgtb_positive _ (apart_at i Hi)) as Pi.
  pose proof (fgtb_positive _ (apart_at j Hj)) as Pj.
  destruct (fgtb (nth (Z.to_nat i) vecB fzero) fzero);
    destruct (feqb (nth (Z.to_nat i) vecB fzero) fzero);
    try (specialize (Ex eq_refl); discriminate Ex);
    destruct (feqb (nth (Z.to_nat j) vecB fzero) fzero);
    destruct (fgtb (nth (Z.to_nat j) vecB fzero) fzero);
    cbn [andb orb]; rewrite ?bind_ret_l;
    try rewrite (Zi eq_refl); try rewrite (Zj eq_refl);
    rewrite ?Pi, ?Pj, ?bind_ret_l; reflexivity.
Qed.

Lemma g_plus_core_apart :
  val.g_plus_index_core D L
  = (sminus <-
       foldM (fun acc i =>
                foldM (fun sminus j => ret (val.incr_if (mixed i j) sminus))
                      (range2 (i + 1) numPair) acc)
             (range_ (numPair - 1)) 0%Z ;;
     py_truediv (PyInt (2 * sminus)) (PyInt (numPair * (numPair - 1)))).
Proof.
  unfold val.g_plus_index_core. cbv zeta. fold pairDis vecB numPair.
  f_equal. apply foldM_ext_in. intros acc i Hi. apply range_in in Hi.
  apply foldM_ext_in. intros s j Hj. apply range2_in in Hj.
  apply g_plus_round_apart; lia.
Qed.

Lemma Baker_Hubert_Gamma_loops_apart :
  exists splus sminus,
    foldM (fun acc i =>
      foldM (fun '(splus, sminus) j =>
               c1 <- val.and_lazy (val.gt0 vecB i) (val.eq0 vecB j) ;;
               '(splus, sminus) <-
                 (if c1 : bool then
                    a <- val.lt_at pairDis i pairDis j ;;
                    b <- val.gt_at pairDis i vecB j ;;
                    ret (val.incr_if a splus, val.incr_if b sminus)
                  else ret (splus, sminus)) ;;
               c2 <- val.and_lazy (val.eq0 vecB i) (val.gt0 vecB j) ;;
               if c2 : bool then
                 a <- val.lt_at pairDis j pairDis i ;;
                 b <- val.gt_at pairDis j vecB i ;;
                 ret (val.incr_if a splus, val.incr_if b sminus)
               else ret (splus, sminus))
            (range2 (i + 1) numPair) acc)
      (range_ (numPair - 1)) (0%Z, 0%Z)
    = ret (splus, sminus) /\
    (0 <= splus <= sminus)%Z.
Proof.
  set (P := fun acc : Z * Z => (0 <= fst acc <= snd acc)%Z).
  match goal with
  | |- exists sp sm, foldM ?f ?l ?a0 = _ /\ _ =>
      assert (Hc : exists acc, foldM f l a0 = ret acc /\ P acc)
  end.
  { apply foldM_invariant; [|unfold P; simpl; lia].
    intros acc i Hi Hacc. apply range_in in Hi.
    apply foldM_invariant; [|exact Hacc].
    intros [sp sm] j Hj Hp. apply range2_in in Hj. unfold P in *. cbn [fst snd] in *.
    assert (Hi' : (0 <= i < numPair)%Z) by lia.
    assert (Hj' : (0 <= j < numPair)%Z) by lia.
    destruct (tests_at D L compatible i j Hi' Hj') as [T1 [T2 T3]].
    destruct (T3 i Hi') as [_ [G1 [_ G3]]]. destruct (T3 j Hj') as [G2 [_ [G4 _]]].
    fold pairDis vecB in T1, T2, G1, G2, G3, G4.
    rewrite T1, T2, G1, G2, G3, G4, !bind_ret_l.
    pose proof (gt_eq_exclusive (nth (Z.to_nat i) vecB fzero)) as Ex.
    pose proof (feqb_zero (nth (Z.to_nat i) vecB fzero)) as Zi.
    pose proof (feqb_zero (nth (Z.to_nat j) vecB fzero)) as Zj.
    pose proof (fgtb_positive _ (apart_at i Hi')) as Pi.
    pose proof (fgtb_positive _ (apart_at j Hj')) as Pj.
    destruct (fgtb (nth (Z.to_nat i) vecB fzero) fzero);
      destruct (feqb (nth (Z.to_nat i) vecB fzero) fzero);
      try (specialize (Ex eq_refl); discriminate Ex);
      destruct (feqb (nth (Z.to_nat j) vecB fzero) fzero);
      destruct (fgtb (nth (Z.to_nat j) vecB fzero) fzero);
      cbn [andb]; rewrite ?bind_ret_l;
      try rewrite (Zi eq_refl); try rewrite (Zj eq_refl);
      rewrite ?Pi, ?Pj, ?bind_ret_l;
      repeat match goal with
             | |- context [val.incr_if (fltb ?a ?b) _] =>
                 destruct (fltb a b)
             end;
      cbn [val.incr_if]; rewrite ?bind_ret_l;
      eexists; (split; [reflexivity | simpl; lia]). }
  destruct Hc as [[sp sm] [Hs Hp]]. exists sp, sm. split; [exact Hs | exact Hp].
Qed.

End PositiveDistances.

(** X9.  For objects at positive distances from each other, the score of
    [g_plus_index] does not depend on the data: two data matrices with as
    many rows give, under the same labels, the same result.  The metric
    counts a pair of distances whenever one is within a cluster and the
    other between clusters, whichever is larger. *)
Theorem g_plus_index_ignores_distances (D D' : matrix) (L : list Z) :
  length L = length D ->
  length D' = length D ->
  Forall positive (pdist D) ->
  Forall positive (pdist D') ->
  result_of (val.g_plus_index (val.init D' L))
  = result_of (val.g_plus_index (val.init D L)).
Proof.
  intros Hlen Hrows Hp Hp'. unfold val.g_plus_index. rewrite !result_method.
  cbn [val.init val.dataMatrix val.classLabel].
  rewrite (g_plus_core_apart D L Hlen Hp).
  rewrite (g_plus_core_apart D' L (eq_trans Hlen (eq_sym Hrows)) Hp').
  unfold val.len. rewrite (pdist_length D' D Hrows). reflexivity.
Qed.

Lemma far_apart : Forall positive (pdist [[Fin 0]; [Fin 1]; [Fin 3]]).
Proof.
  cbn [pdist map app].
  repeat (apply Forall_cons; [|]); try apply Forall_nil;
    match goal with
    | |- positive (euclidean [Fin ?a] [Fin ?b]) =>
        change (euclidean [Fin a] [Fin b]) with (euclidean (map Fin [a]) (map Fin [b]));
        rewrite euclidean_finite; eexists; (split; [|reflexivity]);
        apply sqrt_lt_R0; unfold sq_distance, Rsum; simpl; lra
    end.
Defined.

Lemma close_together : Forall positive (pdist [[Fin 0]; [Fin 1]; [Fin 2]]).
Proof.
  cbn [pdist map app].
  repeat (apply Forall_cons; [|]); try apply Forall_nil;
    match goal with
    | |- positive (euclidean [Fin ?a] [Fin ?b]) =>
        change (euclidean [Fin a] [Fin b]) with (euclidean (map Fin [a]) (map Fin [b]));
        rewrite euclidean_finite; eexists; (split; [|reflexivity]);
        apply sqrt_lt_R0; unfold sq_distance, Rsum; simpl; lra
    end.
Defined.

Lemma g_plus_index_ignores_distances_witness :
  result_of (val.g_plus_index (val.init [[Fin 0]; [Fin 1]; [Fin 3]] [0; 1; 1]%Z))
  = result_of (val.g_plus_index (val.init [[Fin 0]; [Fin 1]; [Fin 2]] [0; 1; 1]%Z)).
Proof.
  apply (g_plus_index_ignores_distances [[Fin 0]; [Fin 1]; [Fin 2]]
           [[Fin 0]; [Fin 1]; [Fin 3]] [0; 1; 1]%Z eq_refl eq_refl
           close_together far_apart).
Defined.

(** X10.  For objects at positive distances from each other, one label per
    row, [Baker_Hubert_Gamma] never returns a positive score: every pair of
    distances it compares counts as discordant, so the result, when there
    is one, lies between -1 and 0. *)
Theorem Baker_Hubert_Gamma_never_positive (D : matrix) (L : list Z) :
  length L = length D ->
  Forall positive (pdist D) ->
  result_of (val.Baker_Hubert_Gamma (val.init D L)) = Raise ZeroDivisionError \/
  exists r, result_of (val.Baker_Hubert_Gamma (val.init D L)) = Ok (PyFloat (Fin r)) /\
            -1 <= r <= 0.
Proof.
  intros Hlen Hp. unfold val.Baker_Hubert_Gamma. rewrite result_method.
  cbn [val.init val.dataMatrix val.classLabel].
  unfold val.Baker_Hubert_Gamma_core. cbv zeta.
  destruct (Baker_Hubert_Gamma_loops_apart D L Hlen Hp) as [sp [sm [Hs Hb]]].
  rewrite Hs, bind_ret_l.
  destruct (Z.eq_dec (sp + sm) 0) as [E|E].
  - left. rewrite E. reflexivity.
  - right. rewrite py_truediv_python by (reflexivity || exact E). cbn [to_f64].
    rewrite fdiv_Fin by (apply not_0_IZR; exact E).
    eexists. split; [reflexivity|].
    assert (0 < IZR (sp + sm)) by (apply IZR_lt; lia).
    assert (IZR (sp - sm) <= 0) by (apply IZR_le; lia).
    assert (- IZR (sp + sm) <= IZR (sp - sm))
      by (rewrite <- opp_IZR; apply IZR_le; lia).
    split.
    + apply Rmult_le_reg_r with (r := IZR (sp + sm)); [assumption|].
      unfold Rdiv. rewrite Rmult_assoc, Rinv_l by lra. lra.
    + apply Rmult_le_reg_r with (r := IZR (sp + sm)); [assumption|].
      unfold Rdiv. rewrite Rmult_assoc, Rinv_l by lra. lra.
Qed.

Lemma Baker_Hubert_Gamma_never_positive_witness :
  result_of (val.Baker_Hubert_Gamma
               (val.init [[Fin 0]; [Fin 1]; [Fin 3]] [0; 1; 1]%Z))
    = Raise ZeroDivisionError \/
  exists r,
    result_of (val.Baker_Hubert_Gamma
                 (val.init [[Fin 0]; [Fin 1]; [Fin 3]] [0; 1; 1]%Z))
      = Ok (PyFloat (Fin r)) /\ -1 <= r <= 0.
Proof.
  apply (Baker_Hubert_Gamma_never_positive [[Fin 0]; [Fin 1]; [Fin 3]] [0; 1; 1]%Z
           eq_refl far_apart).
Defined.

(** ** Degenerate partitions: one object per cluster, one cluster *)

Lemma cluster_rows_NoDup {A} (L : list Z) :
  NoDup L -> forall (X : list A) (i : Z), (length (cluster_rows X L i) <= 1)%nat.
Proof.
  induction 1 as [|a L Ha _ IH]; intros X i.
  - unfold cluster_rows. simpl. lia.
  - destruct X as [|x X]; [unfold cluster_rows; simpl; lia|].
    unfold cluster_rows. cbn [combine filter fst].
    destruct (a =? i)%Z eqn:E.
    + apply Z.eqb_eq in E. subst a. cbn [map snd length].
      change (map snd (filter (fun p => (fst p =? i)%Z) (combine L X)))
        with (cluster_rows X L i).
      rewrite (cluster_rows_unused X L i Ha). simpl. lia.
    + apply IH.
Qed.

Lemma pdist_short (C : matrix) : (length C <= 1)%nat -> pdist C = [].
Proof. destruct C as [|a [|b C]]; simpl; [reflexivity | reflexivity | lia]. Qed.

Lemma pdist_count (X : matrix) :
  (2 * val.len (pdist X) = val.len X * (val.len X - 1))%Z.
Proof.
  unfold val.len. induction X as [|r X IH]; [reflexivity|].
  cbn [pdist]. rewrite length_app, length_map. cbn [length]. lia.
Qed.

Lemma cluster_rows_all {A} (X : list A) (L : list Z) (i : Z) :
  (forall x, In x L -> x = i) -> length L = length X -> cluster_rows X L i = X.
Proof.
  revert X. induction L as [|a L IH]; intros X Ha Hlen; destruct X as [|x X];
    try discriminate; [reflexivity|].
  unfold cluster_rows. cbn [combine filter fst].
  rewrite (Ha a (or_introl eq_refl)), Z.eqb_refl. cbn [map snd]. f_equal.
  apply IH; [intros y Hy; apply Ha; right; exact Hy | simpl in Hlen; lia].
Qed.

Lemma no_pairs_within (cl : list matrix) :
  Forall (fun C => pdist C = []) cl ->
  fold_left (fun s C => py_add s (py_sum (pdist C))) cl (PyInt 0) = PyInt 0 /\
  fold_left (fun n C => (n + val.len (pdist C))%Z) cl 0%Z = 0%Z.
Proof.
  induction 1 as [|C cl HC _ IH]; [split; reflexivity|].
  cbn [fold_left]. rewrite HC. exact IH.
Qed.

(** X11.  When every object is a cluster of its own (the labels are
    [0 .. K-1], each used once), no cluster holds a pair of objects, and
    [c_index] and [point_biserial] both divide the int 0 by the int 0:
    [ZeroDivisionError]. *)
Theorem one_object_per_cluster_raises (D : matrix) (L : list Z) (K : Z) :
  contiguous L K ->
  NoDup L ->
  L <> [] ->
  length L = length D ->
  result_of (val.c_index (val.init D L)) = Raise ZeroDivisionError /\
  result_of (val.point_biserial (val.init D L)) = Raise ZeroDivisionError.
Proof.
  intros _ Hnd Hne Hlen.
  destruct (py_max_spec L Hne) as [mx [Hmax _]].
  assert (Hn : val.numCluster_max L = ret (mx + 1)%Z)
    by (unfold val.numCluster_max; rewrite Hmax, bind_ret_l; reflexivity).
  assert (Hp : forall i, pdist (cluster_rows D L i) = [])
    by (intros i; apply pdist_short, cluster_rows_NoDup, Hnd).
  unfold val.c_index, val.point_biserial. rewrite !result_method.
  cbn [val.init val.dataMatrix val.classLabel]. split.
  - unfold val.c_index_core. rewrite Hn, bind_ret_l.
    rewrite foldM_id; [reflexivity|].
    intros i _. rewrite take_rows_cluster by exact Hlen.
    rewrite bind_ret_l. cbv zeta. rewrite Hp. reflexivity.
  - unfold val.point_biserial_core. cbv zeta. rewrite Hn, bind_ret_l.
    rewrite py_truediv_python by (reflexivity || lia). rewrite bind_ret_l.
    rewrite (within_between_clusters D L (mx + 1) Hlen). unfold within_between_fin.
    rewrite bind_ret_l.
    destruct (no_pairs_within (map (cluster_rows D L) (range_ (mx + 1)))) as [Hsw Hnw].
    { apply Forall_forall. intros C HC. apply in_map_iff in HC.
      destruct HC as [i [<- _]]. apply Hp. }
    rewrite Hsw, Hnw. reflexivity.
Qed.

Lemma one_object_per_cluster_raises_witness :
  result_of (val.c_index (val.init [[Fin 0]; [Fin 1]; [Fin 2]] [2; 0; 1]%Z))
    = Raise ZeroDivisionError /\
  result_of (val.point_biserial (val.init [[Fin 0]; [Fin 1]; [Fin 2]] [2; 0; 1]%Z))
    = Raise ZeroDivisionError.
Proof.
  apply (one_object_per_cluster_raises [[Fin 0]; [Fin 1]; [Fin 2]] [2; 0; 1]%Z 3).
  - intros x. simpl. lia.
  - repeat constructor; simpl; lia.
  - discriminate.
  - reflexivity.
Defined.

(** X12.  When all objects are in cluster 0, [Baker_Hubert_Gamma] and
    [point_biserial] raise [ZeroDivisionError], whatever the data: the first
    counts no comparison, the second divides by the number of
    between-cluster pairs, which is 0. *)
Theorem one_cluster_raises (D : matrix) (L : list Z) :
  (forall x, In x L -> x = 0%Z) ->
  L <> [] ->
  length L = length D ->
  result_of (val.Baker_Hubert_Gamma (val.init D L)) = Raise ZeroDivisionError /\
  result_of (val.point_biserial (val.init D L)) = Raise ZeroDivisionError.
Proof.
  intros H0 Hne Hlen.
  unfold val.Baker_Hubert_Gamma, val.point_biserial. rewrite !result_method.
  cbn [val.init val.dataMatrix val.classLabel]. split.
  - rewrite (Baker_Hubert_Gamma_one_cluster D L H0 Hlen). reflexivity.
  - destruct (py_max_spec L Hne) as [mx [Hmax [Hin _]]].
    rewrite (H0 mx Hin) in Hmax.
    unfold val.point_biserial_core. cbv zeta.
    unfold val.numCluster_max. rewrite Hmax, !bind_ret_l.
    rewrite py_truediv_python by (reflexivity || lia). rewrite bind_ret_l.
    rewrite (within_between_clusters D L (0 + 1) Hlen).
    change (range_ (0 + 1)) with [0%Z]. unfold within_between_fin.
    cbn [map fold_left pair_fold].
    rewrite bind_ret_l, (cluster_rows_all D L 0 H0 Hlen).
    rewrite !py_add_0_l. cbn [Z.add].
    replace (val.len L) with (val.len D) by (unfold val.len; rewrite Hlen; reflexivity).
    rewrite out_bind.
    destruct (out (py_truediv (py_sum (pdist D)) (PyInt (val.len (pdist D)))))
      as [a|e] eqn:Ea.
    + rewrite out_bind.
      assert (Hb : out (py_truediv (PyInt 0)
                          (py_sub (PyFloat (fdiv (to_f64 (PyInt (val.len D * (val.len D - 1))))
                                                 (Fin 2)))
                                  (PyInt (val.len (pdist D)))))
                   = Raise ZeroDivisionError).
      { cbn [to_f64]. rewrite fdiv_Fin by lra.
        unfold py_truediv, py_sub.
        cbn [is_np orb to_f64 wrap fsub fneg fadd py_is_zero fis_zero feqb fzero].
        destruct (Req_EM_T _ 0) as [E0|E0]; [reflexivity|].
        exfalso. apply E0. rewrite <- pdist_count, mult_IZR. field. }
      rewrite Hb. reflexivity.
    + unfold py_truediv in Ea.
      destruct (is_np (py_sum (pdist D)) || is_np (PyInt (val.len (pdist D))));
        [discriminate Ea|].
      destruct (py_is_zero (PyInt (val.len (pdist D)))); [|discriminate Ea].
      injection Ea as <-. reflexivity.
Qed.

Lemma one_cluster_raises_witness :
  result_of (val.Baker_Hubert_Gamma
               (val.init [[Fin 0]; [Fin 1]; [Fin 2]] [0; 0; 0]%Z))
    = Raise ZeroDivisionError /\
  result_of (val.point_biserial
               (val.init [[Fin 0]; [Fin 1]; [Fin 2]] [0; 0; 0]%Z))
    = Raise ZeroDivisionError.
Proof.
  apply (one_cluster_raises [[Fin 0]; [Fin 1]; [Fin 2]] [0; 0; 0]%Z).
  - simpl. intros x Hx. lia.
  - discriminate.
  - reflexivity.
Defined.

(** *** log_ss_ratio in double precision, on one cluster *)

Lemma vec_sub_self (c : b64.vector) :
  forallb PrimFloat.is_finite (b64.vec_sub c c) = true ->
  b64.vec_sub c c = repeat PrimFloat.zero (length c).
Proof.
  unfold b64.vec_sub.
  induction c as [|x c IH]; cbn [combine map forallb repeat length fst snd];
    [reflexivity|].
  intros H. apply andb_true_iff in H. destruct H as [Hx Hc].
  rewrite (sub_self x Hx), (IH Hc). reflexivity.
Qed.

Lemma b64_math_log_zero (lib : b64.libraries) (x : float) :
  PrimFloat.is_zero x = true ->
  out (b64.math_log lib (b64.PyFloat x)) = Raise (ValueError "math domain error").
Proof.
  intros H. unfold b64.math_log, PrimFloat.is_nan. cbv zeta. cbn [b64.to_float].
  rewrite FloatAxioms.eqb_spec, FloatAxioms.ltb_spec. rewrite is_zero_spec in H.
  change (Prim2SF 0) with (S754_zero false).
  destruct (Prim2SF x) as [s|s| |s m e]; try discriminate H. reflexivity.
Qed.

Lemma b64_log_ss_result (lib : b64.libraries) (D : b64.matrix) (L : list Z) :
  result_of (b64.log_ss_ratio lib (b64.init D L))
  = out (b64.log_ss_ratio_core lib D L).
Proof.
  unfold b64.log_ss_ratio. rewrite bindS_modifyS, bindS_getS.
  cbn [b64.init b64.set_description b64.dataMatrix b64.classLabel].
  rewrite result_bindS_liftW.
  destruct (out (b64.log_ss_ratio_core lib D L)); reflexivity.
Qed.

Section OneCluster.

Variable lib : b64.libraries.

Lemma b64_square_value {A} (x c : b64.vector) (k : b64.pynum -> W A) :
  (forallb PrimFloat.is_finite (b64.vec_sub x c) = true /\
   (d <- b64.euclidean lib x c ;; p <- b64.math_pow2 lib d ;; k p)
   = k (b64.PyFloat (b64.sq_distance lib x c))) \/
  library_error (out (d <- b64.euclidean lib x c ;; p <- b64.math_pow2 lib d ;; k p)).
Proof.
  unfold b64.euclidean, b64.math_pow2, b64.sq_distance. cbv zeta.
  destruct (forallb PrimFloat.is_finite (b64.vec_sub x c)).
  - rewrite bind_ret_l.
    destruct (PrimFloat.is_finite (b64.nrm2 lib (b64.vec_sub x c)));
      [|left; split; [reflexivity | apply bind_ret_l]].
    destruct (PrimFloat.is_nan (b64.pow2 lib (b64.nrm2 lib (b64.vec_sub x c)))).
    + right. right. eexists. reflexivity.
    + destruct (PrimFloat.is_infinity (b64.pow2 lib (b64.nrm2 lib (b64.vec_sub x c)))).
      * right. left. eexists. reflexivity.
      * left. split; [reflexivity | apply bind_ret_l].
  - right. right. eexists. reflexivity.
Qed.

Lemma b64_sum_nonneg (c : b64.vector) (C : b64.matrix) :
  b64.squares_not_negative lib c C = true ->
  forall a, (0 <=? b64.to_float a)%float = true ->
    (exists s, out (foldM (fun sumDis member =>
                             d <- b64.euclidean lib member c ;;
                             p <- b64.math_pow2 lib d ;;
                             ret (b64.py_add sumDis p)) C a) = Ok s /\
               (0 <=? b64.to_float s)%float = true /\
               (C = [] -> s = a) /\ (C <> [] -> exists x, s = b64.PyFloat x)) \/
    library_error (out (foldM (fun sumDis member =>
                                 d <- b64.euclidean lib member c ;;
                                 p <- b64.math_pow2 lib d ;;
                                 ret (b64.py_add sumDis p)) C a)).
Proof.
  unfold b64.squares_not_negative.
  induction C as [|x C IH]; intros H a Ha; cbn [foldM forallb] in *.
  - left. exists a. split; [reflexivity|]. split; [exact Ha|].
    split; [reflexivity | congruence].
  - apply andb_true_iff in H. destruct H as [Hx HC].
    destruct (b64_square_value x c (fun p => ret (b64.py_add a p)))
      as [[_ Hp]|He].
    + rewrite Hp, bind_ret_l.
      assert (Hk : b64.py_add a (b64.PyFloat (b64.sq_distance lib x c))
                   = b64.PyFloat (b64.to_float a + b64.sq_distance lib x c))
        by (destruct a; reflexivity).
      rewrite Hk.
      destruct (IH HC (b64.PyFloat (b64.to_float a + b64.sq_distance lib x c)))
        as [[s [Hs [Hs0 [He Hf]]]]|He].
      * cbn [b64.to_float]. apply add_nonneg; assumption.
      * left. exists s. split; [exact Hs|]. split; [exact Hs0|].
        split; [discriminate|]. intros _.
        destruct C as [|y C]; [rewrite (He eq_refl); eexists; reflexivity|].
        apply Hf. discriminate.
      * right. exact He.
    + right. apply library_error_bind. exact He.
Qed.

End OneCluster.

(** X13.  In double precision, with one label per row: when all objects
    are in cluster 0, [log_ss_ratio] has no between-cluster sum of squares
    and never returns a score.  It raises [ZeroDivisionError] when the
    within-cluster sum is zero too, and otherwise the [ValueError] of
    [math.log(0.0)], unless a library call has raised before
    ([OverflowError] from [math.pow], [ValueError] from scipy's
    [euclidean]).  Of the libraries it takes that the squared norm of a zero
    vector is zero and that a squared distance is a number that is not
    negative; the number of rows converts to a double. *)
Theorem log_ss_ratio_one_cluster_raises
  (lib : b64.libraries) (D : b64.matrix) (L : list Z) :
  (forall x, In x L -> x = 0%Z) ->
  L <> [] ->
  length L = length D ->
  PrimFloat.is_finite (b64.of_int (val.len L)) = true ->
  let c := b64.np_mean0 lib (ncols D) D in
  b64.zero_at lib c = true ->
  b64.squares_not_negative lib c D = true ->
  let r := result_of (b64.log_ss_ratio lib (b64.init D L)) in
  r = Raise ZeroDivisionError \/ library_error r.
Proof.
  intros H0 Hne Hlen Hfin c Hz Hsq r. subst r. rewrite b64_log_ss_result.
  assert (HD : D <> []) by (intros E; subst D; destruct L; [contradiction | discriminate]).
  assert (Hn : val.len D = val.len L) by (unfold val.len; rewrite Hlen; reflexivity).
  destruct (py_max_spec L Hne) as [mx [Hmax [Hin _]]].
  rewrite (H0 mx Hin) in Hmax.
  unfold b64.log_ss_ratio_core, val.numCluster_max.
  rewrite Hmax, !bind_ret_l, b64_mean_nonempty, bind_ret_l by exact HD.
  change (range_ (0 + 1)) with [0%Z]. cbn [foldM]. cbv zeta.
  rewrite take_rows_cluster by exact Hlen.
  rewrite bind_ret_l, (len_indices D L 0 Hlen), (cluster_rows_all D L 0 H0 Hlen).
  rewrite b64_mean_nonempty, bind_ret_l by exact HD. fold c. rewrite Hn.
  match goal with
  | |- context [bind (b64.euclidean lib c c)
                     (fun d => bind (b64.math_pow2 lib d) ?k)] =>
      destruct (b64_square_value lib c c k) as [[Hf Hp]|He]
  end.
  2: { right. apply library_error_bind, library_error_bind. exact He. }
  rewrite Hp.
  assert (Hzero : PrimFloat.is_zero (b64.sq_distance lib c c) = true).
  { unfold b64.sq_distance. rewrite (vec_sub_self c Hf). exact Hz. }
  destruct (b64_sum_nonneg lib c D Hsq (b64.PyInt 0) eq_refl)
    as [[s [Hs [Hs0 [_ Hk]]]]|He].
  2: { right. repeat apply library_error_bind. exact He. }
  destruct (Hk HD) as [x ->]. cbn [b64.to_float] in Hs0.
  unfold b64.sum_sq_dist. rewrite !out_bind, Hs.
  cbn [out ret fst b64.py_add b64.py_mul b64.to_float].
  rewrite of_int_zero. unfold b64.py_truediv. cbn [b64.py_is_zero].
  destruct (PrimFloat.is_zero (PrimFloat.zero + x)) eqn:Ew.
  - left. reflexivity.
  - right. right. exists "math domain error"%string.
    rewrite out_bind. cbn [out ret fst].
    apply b64_math_log_zero, div_zero.
    + apply add_zero, mul_zero; [exact Hfin | exact Hzero].
    + apply add_nonneg; [reflexivity | exact Hs0].
    + exact Ew.
Qed.

Lemma log_ss_ratio_one_cluster_raises_witness :
  let r := result_of (b64.log_ss_ratio b64.reference
                        (b64.init [[0]; [1]]%float [0; 0]%Z)) in
  r = Raise ZeroDivisionError \/ library_error r.
Proof.
  apply (log_ss_ratio_one_cluster_raises b64.reference [[0]; [1]]%float [0; 0]%Z).
  - simpl. intros x Hx. lia.
  - discriminate.
  - reflexivity.
  - vm_compute. reflexivity.
  - vm_compute. reflexivity.
  - vm_compute. reflexivity.
Defined.

(** ** det_ratio on one cluster *)

Lemma vec_add_zeros (r : vector) :
  map (fun q => fadd (fst q) (snd q)) (combine (repeat fzero (length r)) r) = r.
Proof.
  induction r as [|x r IH]; [reflexivity|].
  cbn [length repeat combine map fst snd]. rewrite IH.
  unfold fzero. rewrite fadd_0_l. reflexivity.
Qed.

Lemma mat_add_zeros (m : nat) (G : matrix) :
  length G = m -> (forall r, In r G -> length r = m) ->
  mat_add (np_zeros m m) G = G.
Proof.
  intros HG Hrows. unfold mat_add, np_zeros. rewrite <- HG at 2. clear HG.
  induction G as [|r G IH]; [reflexivity|].
  cbn [length repeat combine map fst snd].
  rewrite <- (Hrows r (or_introl eq_refl)) at 1. rewrite vec_add_zeros.
  rewrite IH; [reflexivity|]. intros r' Hr'. apply Hrows. right. exact Hr'.
Qed.

Lemma gram_shape (m : nat) (Y : matrix) :
  length (gram m Y) = m /\ forall r, In r (gram m Y) -> length r = m.
Proof.
  unfold gram. split.
  - rewrite length_map, length_seq. reflexivity.
  - intros r Hr. apply in_map_iff in Hr. destruct Hr as [a [<- _]].
    rewrite length_map, length_seq. reflexivity.
Qed.

Lemma fdiv_self (x : f64) : fdiv x x = Fin 1 \/ fdiv x x = NaN.
Proof.
  destruct x as [r| | |]; cbn [fdiv]; try (right; reflexivity).
  destruct (Req_EM_T r 0) as [E|E]; [right; reflexivity|].
  left. f_equal. field. exact E.
Qed.

(** X15.  When all objects are in cluster 0, the within-cluster scatter
    matrix of [det_ratio] is the scatter matrix of the whole data, and the
    metric returns the quotient of a determinant by itself: the numpy float
    1.0, or [nan] when the determinant is zero or not finite.  It does not
    raise. *)
Theorem det_ratio_one_cluster (D : matrix) (L : list Z) :
  (forall x, In x L -> x = 0%Z) ->
  L <> [] ->
  length L = length D ->
  exists v,
    result_of (val.det_ratio (val.init D L)) = Ok (NpFloat v) /\
    (v = Fin 1 \/ v = NaN).
Proof.
  intros H0 Hne Hlen.
  destruct (py_max_spec L Hne) as [mx [Hmax [Hin _]]].
  rewrite (H0 mx Hin) in Hmax.
  assert (Hn : val.numCluster_max L = ret 1%Z)
    by (unfold val.numCluster_max; rewrite Hmax, bind_ret_l; reflexivity).
  destruct D as [|r0 D0] eqn:ED; [destruct L; [contradiction | discriminate]|].
  rewrite <- ED in *.
  assert (Hm : len_first_row D = ret (length r0)) by (rewrite ED; reflexivity).
  set (m := length r0) in *.
  rewrite (det_ratio_run (val.init D L) m 1 _ [] Hm Hn
             (within_scatter_clusters m D L 1 Hlen)).
  cbn [result_of fst val.init val.dataMatrix].
  change (range_ 1) with [0%Z]. cbn [map fold_left]. unfold scatter_step.
  rewrite (cluster_rows_all D L 0 H0 Hlen).
  destruct (gram_shape m (center_columns m D)) as [G1 G2].
  rewrite (mat_add_zeros m _ G1 G2).
  eexists. split; [reflexivity | apply fdiv_self].
Qed.

Lemma det_ratio_one_cluster_witness :
  exists v,
    result_of (val.det_ratio (val.init [[Fin 1]; [Fin 3]] [0; 0]%Z)) = Ok (NpFloat v) /\
    (v = Fin 1 \/ v = NaN).
Proof.
  apply (det_ratio_one_cluster [[Fin 1]; [Fin 3]] [0; 0]%Z).
  - simpl. intros x Hx. lia.
  - discriminate.
  - reflexivity.
Defined.

(** ** McClain_Rao on one cluster *)

Lemma fold_py_add_np {A} (q : A -> R) (l : list A) (a : R) :
  fold_left (fun s x => py_add s (NpFloat (Fin (q x)))) l (NpFloat (Fin a))
  = NpFloat (Fin (fold_left Rplus (map q l) a)).
Proof.
  revert a. induction l as [|x l IH]; intros a; simpl; [reflexivity | apply IH].
Qed.

Lemma fold_py_add_np_from_zero {A} (q : A -> R) (l : list A) :
  l <> [] ->
  fold_left (fun s x => py_add s (NpFloat (Fin (q x)))) l (PyInt 0)
  = NpFloat (Fin (Rsum (map q l))).
Proof.
  destruct l as [|x l]; [congruence|]. intros _. simpl.
  rewrite fold_py_add_np. reflexivity.
Qed.

Lemma pdist_finite (X : list (list R)) :
  exists l, pdist (finite_matrix X) = map Fin l.
Proof.
  induction X as [|r X [l IH]]; [exists []; reflexivity|].
  exists (map (fun x => sqrt (sq_distance r x)) X ++ l).
  cbn [finite_matrix map pdist]. fold (finite_matrix X).
  rewrite IH, map_app. f_equal. unfold finite_matrix. rewrite !map_map.
  apply map_ext. intros x. apply euclidean_finite.
Qed.

Lemma py_sum_finite (l : list R) :
  l <> [] -> py_sum (map Fin l) = NpFloat (Fin (Rsum l)).
Proof.
  intros Hl. unfold py_sum. rewrite fold_left_map.
  rewrite (fold_py_add_np_from_zero (fun x => x) l Hl), map_id. reflexivity.
Qed.

(** X16.  When all objects are in cluster 0, on finite data of at least
    two rows, the number of between-cluster pairs is 0.0 and [McClain_Rao]
    divides by 0 with a numpy float on top: it returns [nan] with a
    [RuntimeWarning] of numpy and does not raise. *)
Theorem one_cluster_degrades (X : list (list R)) (L : list Z) :
  (forall x, In x L -> x = 0%Z) ->
  (2 <= length X)%nat ->
  length L = length X ->
  let self := val.init (finite_matrix X) L in
  result_of (val.McClain_Rao self) = Ok (NpFloat NaN) /\
  exists msg, In (RuntimeWarning msg) (warnings_of (val.McClain_Rao self)).
Proof.
  intros H0 H2 Hlen self. subst self.
  assert (Hlen' : length L = length (finite_matrix X))
    by (unfold finite_matrix; rewrite length_map; exact Hlen).
  assert (HX : X <> []) by (intros E; subst X; simpl in H2; lia).
  assert (Hne : L <> []) by (intros E; subst L; destruct X; simpl in *; [lia | discriminate]).
  destruct (py_max_spec L Hne) as [mx [Hmax [Hin _]]].
  rewrite (H0 mx Hin) in Hmax.
  assert (Hn : val.numCluster_max L = ret 1%Z)
    by (unfold val.numCluster_max; rewrite Hmax, bind_ret_l; reflexivity).
  destruct (pdist_finite X) as [ds Hds].
  assert (Hdne : ds <> []).
  { intros E. rewrite E in Hds.
    pose proof (pdist_count (finite_matrix X)) as Hc. rewrite Hds in Hc.
    unfold val.len, finite_matrix in Hc. rewrite !length_map in Hc.
    cbn [map length] in Hc. change (Z.of_nat 0) with 0%Z in Hc.
    assert (2 <= Z.of_nat (length X))%Z by lia. nia. }
  assert (Hmc : val.McClain_Rao_core (finite_matrix X) L
                = (Ok (NpFloat NaN),
                   [RuntimeWarning "invalid value encountered in scalar divide"])).
  { unfold val.McClain_Rao_core. cbv zeta. rewrite Hn, bind_ret_l.
    rewrite (within_between_clusters (finite_matrix X) L 1 Hlen').
    change (range_ 1) with [0%Z]. unfold within_between_fin.
    cbn [map fold_left pair_fold].
    rewrite bind_ret_l, (cluster_rows_all (finite_matrix X) L 0 H0 Hlen').
    rewrite py_truediv_python by (reflexivity || lia). rewrite bind_ret_l.
    rewrite py_add_0_l, Hds, (py_sum_finite ds Hdne). cbn [Z.add to_f64].
    rewrite fdiv_Fin by lra.
    replace (val.len L) with (val.len (finite_matrix X))
      by (unfold val.len; rewrite Hlen'; reflexivity).
    rewrite <- pdist_count, Hds.
    cbn [py_sub py_mul is_np orb wrap to_f64 fsub fneg fadd fmul].
    unfold py_truediv. cbn [is_np orb to_f64].
    assert (Hz : IZR (2 * val.len (map Fin ds)) / 2 + - IZR (val.len (map Fin ds)) = 0)
      by (rewrite mult_IZR; field).
    rewrite Hz, Rmult_0_l, Z.mul_0_r.
    unfold np_div_warning, fis_zero, feqb, fzero. cbn [fdiv].
    destruct (Req_EM_T 0 0) as [_|E]; [reflexivity | exfalso; apply E; reflexivity]. }
  unfold val.McClain_Rao.
  rewrite (method_result _ _ (finite_matrix X) L).
  split; [rewrite Hmc; reflexivity|].
  eexists. unfold val.method. rewrite bindS_modifyS, bindS_getS.
  cbn [val.init val.set_description val.dataMatrix val.classLabel].
  unfold bindS, liftW. rewrite Hmc. left. reflexivity.
Qed.

Lemma one_cluster_degrades_witness :
  result_of (val.McClain_Rao (val.init [[Fin 0]; [Fin 1]] [0; 0]%Z))
  = Ok (NpFloat NaN).
Proof.
  change [[Fin 0]; [Fin 1]] with (finite_matrix [[0]; [1]]).
  apply (one_cluster_degrades [[0]; [1]] [0; 0]%Z).
  - simpl. intros x Hx. lia.
  - simpl. lia.
  - reflexivity.
Defined.

(** ** cluster: searching the bookkeeping dictionaries, slicing what was found *)

Lemma search_dict_loop {V} (d : dict V) (view : V -> pyval) (value : pyval)
  (l : list string) :
  (forall name, In name l -> In name (dkeys d)) ->
  forall names,
    foldM (fun names name =>
             v <- dlookup name d ;;
             if py_eq (view v) value then ret (names ++ [name]) else ret names)
          l names
    = ret (names ++ filter (entry_matches d view value) l).
Proof.
  induction l as [|name l IH]; intros Hl names; cbn [foldM filter].
  - rewrite app_nil_r. reflexivity.
  - destruct (dget_key name d) as [v Hv]; [apply Hl; left; reflexivity|].
    unfold dlookup, entry_matches at 1. rewrite Hv, bind_ret_l.
    assert (Hl' : forall n, In n l -> In n (dkeys d))
      by (intros; apply Hl; right; assumption).
    destruct (py_eq (view v) value); rewrite bind_ret_l, (IH Hl').
    + rewrite <- app_assoc. reflexivity.
    + reflexivity.
Qed.

Lemma search_dict_value {V} (d : dict V) (view : V -> pyval) (value : pyval) :
  oe.cluster.search_dict d view value
  = ret (filter (entry_matches d view value) (dkeys d)).
Proof.
  unfold oe.cluster.search_dict. rewrite search_dict_loop by auto. reflexivity.
Qed.

(** X17.  For the fields 'data_source', 'algorithm' and 'clusterNumber',
    [search_field] never raises, warns of nothing and leaves the cluster
    object alone; it returns, in the order of the dictionary, the names
    whose data source, whose algorithm, or whose number of distinct cluster
    ids equals [value]. *)
Theorem search_field_in_bookkeeping (self : oe.cluster.cluster) (value : pyval) :
  oe.cluster.search_field "data_source" value self
    = (ret (filter (entry_matches (oe.cluster.data_source self) VStr value)
                   (dkeys (oe.cluster.data_source self))), self) /\
  oe.cluster.search_field "algorithm" value self
    = (ret (filter (entry_matches (oe.cluster.algorithms self) VStr value)
                   (dkeys (oe.cluster.algorithms self))), self) /\
  oe.cluster.search_field "clusterNumber" value self
    = (ret (filter (entry_matches (oe.cluster.clusterNumbers self)
                      (fun cn => VInt (Z.of_nat (length cn))) value)
                   (dkeys (oe.cluster.clusterNumbers self))), self).
Proof.
  unfold oe.cluster.search_field. rewrite !bindS_getS.
  cbn [String.eqb Ascii.eqb Bool.eqb andb]. unfold liftW.
  rewrite !search_dict_value. repeat split.
Qed.

Lemma dkeys_dset {V} (k k' : string) (v : V) (d : dict V) :
  In k (dkeys (dset k' v d)) <-> k = k' \/ In k (dkeys d).
Proof.
  induction d as [|[k0 v0] d IH]; simpl.
  - split; [intros [H|[]]; left; symmetry; exact H | intros [H|[]]; left; symmetry; exact H].
  - destruct (String.eqb k' k0) eqn:E; simpl.
    + apply String.eqb_eq in E. subst k0. split.
      * intros [H|H]; [left; symmetry; exact H | right; right; exact H].
      * intros [H|[H|H]]; [left; symmetry; exact H | left; exact H | right; exact H].
    + rewrite IH. tauto.
Qed.

Lemma keys_aligned_init (dataObj : oe.data.data) :
  keys_aligned (oe.cluster.init dataObj).
Proof. intros name. simpl. tauto. Qed.

Lemma keys_aligned_add (name : string) (l : list Z) (src : string)
  (p : dict pyval) (cn : list Z) (alg : string) (c : oe.cluster.cluster) :
  keys_aligned c ->
  keys_aligned (oe.cluster.add_solution name l src p cn alg c).
Proof.
  intros H k. destruct (H k) as [H1 [H2 [H3 H4]]].
  unfold oe.cluster.add_solution. simpl. rewrite !dkeys_dset. tauto.
Qed.

Lemma slice_body_adds (self c c1 : oe.cluster.cluster) (name : string) :
  out (slice_body self c name) = Ok c1 ->
  exists l src p cn alg, c1 = oe.cluster.add_solution name l src p cn alg c.
Proof.
  unfold slice_body.
  destruct (negb (str_in name (dkeys (oe.cluster.labels self)))); [discriminate|].
  unfold dlookup.
  destruct (dget name (oe.cluster.labels self)) as [l|]; [|discriminate].
  destruct (dget name (oe.cluster.data_source self)) as [src|]; [|discriminate].
  destruct (dget name (oe.cluster.params self)) as [p|]; [|discriminate].
  destruct (dget name (oe.cluster.clusterNumbers self)) as [cn|]; [|discriminate].
  destruct (dget name (oe.cluster.algorithms self)) as [alg|]; [|discriminate].
  intros H. injection H as <-. exists l, src, p, cn, alg. reflexivity.
Qed.

Lemma slice_loop_keys (self : oe.cluster.cluster) (names : list string) :
  forall c0 c,
    out (foldM (slice_body self) names c0) = Ok c ->
    keys_aligned c0 ->
    keys_aligned c /\
    forall name, In name (dkeys (oe.cluster.labels c))
                 <-> In name names \/ In name (dkeys (oe.cluster.labels c0)).
Proof.
  induction names as [|n names IH]; intros c0 c H Hc0; cbn [foldM] in H.
  - injection H as <-. split; [exact Hc0|]. intros name. simpl. tauto.
  - rewrite out_bind in H.
    destruct (out (slice_body self c0 n)) as [c1|e] eqn:E1; [|discriminate H].
    destruct (slice_body_adds self c0 c1 n E1) as [l [src [p [cn [alg ->]]]]].
    destruct (IH _ _ H (keys_aligned_add n l src p cn alg c0 Hc0)) as [Ha Hk].
    split; [exact Ha|]. intros name. rewrite Hk. simpl. rewrite dkeys_dset.
    split; [intros [H1|[H1|H1]]; auto | intros [[H1|H1]|H1]; auto].
Qed.

(** X18.  A cluster object that [slice] returns holds the same names in
    all five dictionaries, namely the given ones, and shares the data
    object; so it can be searched and sliced in turn. *)
Theorem slice_files_names_everywhere
  (self c : oe.cluster.cluster) (names : list string) :
  result_of (oe.cluster.slice names self) = Ok c ->
  keys_aligned c /\
  (forall name, In name (dkeys (oe.cluster.labels c)) <-> In name names) /\
  oe.cluster.dataObj c = oe.cluster.dataObj self.
Proof.
  rewrite slice_unfold. unfold result_of. cbn [fst]. intros H.
  fold (out (foldM (slice_body self) names
               (oe.cluster.init (oe.cluster.dataObj self)))) in H.
  destruct (slice_loop_keys self names _ c H (keys_aligned_init _)) as [Ha Hk].
  split; [exact Ha|]. split.
  - intros name. rewrite Hk. simpl. tauto.
  - assert (G : forall c0, out (foldM (slice_body self) names c0) = Ok c ->
                           oe.cluster.dataObj c = oe.cluster.dataObj c0).
    { clear. induction names as [|n names IH]; intros c0 H; cbn [foldM] in H.
      - injection H as <-. reflexivity.
      - rewrite out_bind in H.
        destruct (out (slice_body self c0 n)) as [c1|e] eqn:E1; [|discriminate H].
        destruct (slice_body_adds self c0 c1 n E1) as [l [src [p [cn [alg ->]]]]].
        rewrite (IH _ H). reflexivity. }
    rewrite (G _ H). reflexivity.
Qed.

Lemma slice_files_names_everywhere_witness :
  exists c, result_of (oe.cluster.slice ["km3"] two_runs) = Ok c /\
            keys_aligned c /\ oe.cluster.dataObj c = three_points.
Proof.
  eexists. split; [reflexivity|].
  destruct (slice_files_names_everywhere two_runs _ ["km3"] eq_refl) as [Ha [_ Hd]].
  split; [exact Ha | exact Hd].
Defined.

Lemma keys_aligned_filed (self : oe.cluster.cluster) :
  keys_aligned self -> solutions_filed self.
Proof.
  intros H name Hin. destruct (H name) as [H1 [H2 [H3 H4]]].
  repeat split; [apply H1 | apply H2 | apply H3 | apply H4]; exact Hin.
Qed.

Lemma filter_In_l {A} (f : A -> bool) (l : list A) (x : A) :
  In x (filter f l) -> In x l.
Proof. intros H. apply filter_In in H. tauto. Qed.

(** The names a search returns are names of stored solutions. *)
Lemma search_field_finds_keys (self : oe.cluster.cluster) (field : string)
  (value : pyval) (names : list string) :
  keys_aligned self ->
  result_of (oe.cluster.search_field field value self) = Ok names ->
  forall name, In name names -> In name (dkeys (oe.cluster.labels self)).
Proof.
  intros Ha H name Hin. destruct (Ha name) as [H1 [H2 [H3 H4]]].
  unfold oe.cluster.search_field in H. rewrite bindS_getS in H.
  destruct (String.eqb field "data_source").
  { unfold liftW, result_of in H. rewrite search_dict_value in H.
    injection H as <-. apply H1. eapply filter_In_l, Hin. }
  destruct (String.eqb field "algorithm").
  { unfold liftW, result_of in H. rewrite search_dict_value in H.
    injection H as <-. apply H4. eapply filter_In_l, Hin. }
  destruct (String.eqb field "clusterNumber").
  { unfold liftW, result_of in H. rewrite search_dict_value in H.
    injection H as <-. apply H3. eapply filter_In_l, Hin. }
  rewrite result_bindS_liftW in H.
  rewrite (search_params_loop self field value (dkeys (oe.cluster.params self)))
    in H by auto.
  cbn [out fst ret app orb] in H.
  destruct (existsb (field_present self field) (dkeys (oe.cluster.params self)));
    cbn [negb] in H; [|discriminate H].
  injection H as <-. apply H2. eapply filter_In_l, Hin.
Qed.

(** X19.  On a cluster object whose five dictionaries hold the same
    names, whatever list of names [search_field] returns, [slice] accepts:
    it returns the cluster object of exactly those solutions. *)
Theorem slice_accepts_search_result
  (self : oe.cluster.cluster) (field : string) (value : pyval)
  (names : list string) :
  keys_aligned self ->
  result_of (oe.cluster.search_field field value self) = Ok names ->
  exists c,
    result_of (oe.cluster.slice names self) = Ok c /\
    sliced names self c (oe.cluster.init (oe.cluster.dataObj self)).
Proof.
  intros Ha H. rewrite slice_unfold. unfold result_of. cbn [fst].
  destruct (slice_loop_ok self (keys_aligned_filed self Ha) names
              (search_field_finds_keys self field value names Ha H)
              (oe.cluster.init (oe.cluster.dataObj self))) as [c [Hc Hs]].
  exists c. rewrite Hc. split; [reflexivity | exact Hs].
Qed.

Lemma two_runs_aligned : keys_aligned two_runs.
Proof. intros name. simpl. tauto. Defined.

Lemma slice_accepts_search_result_witness :
  exists c,
    result_of (oe.cluster.slice ["km2"; "km3"] two_runs) = Ok c /\
    sliced ["km2"; "km3"] two_runs c (oe.cluster.init three_points).
Proof.
  apply (slice_accepts_search_result two_runs "algorithm" (VStr "kmeans")
           ["km2"; "km3"] two_runs_aligned).
  reflexivity.
Defined.

(** ** cluster.get_cluster_members *)

Lemma indices_from_spec (l : list Z) (k : Z) :
  forall (s t : nat),
    In t (indices_from s l k) <-> (s <= t)%nat /\ nth_error l (t - s) = Some k.
Proof.
  unfold indices_from. induction l as [|x l IH]; intros s t.
  - simpl. split; [intros [] | intros [_ H]]. destruct (t - s)%nat; discriminate.
  - cbn [length seq combine filter snd].
    assert (Hrec : In t (map fst (filter (fun p => (snd p =? k)%Z)
                                  (combine (seq (S s) (length l)) l)))
                   <-> (S s <= t)%nat /\ nth_error l (t - S s) = Some k)
      by apply IH.
    destruct (x =? k)%Z eqn:E; cbn [map In fst]; rewrite Hrec.
    + apply Z.eqb_eq in E. subst x. split.
      * intros [<-|[Hle Hn]].
        -- split; [lia|]. rewrite Nat.sub_diag. reflexivity.
        -- split; [lia|]. replace (t - s)%nat with (S (t - S s)) by lia. exact Hn.
      * intros [Hle Hn]. destruct (Nat.eq_dec s t) as [->|Hne]; [left; reflexivity|].
        right. split; [lia|].
        replace (t - s)%nat with (S (t - S s)) in Hn by lia. exact Hn.
    + apply Z.eqb_neq in E. split.
      * intros [Hle Hn]. split; [lia|].
        replace (t - s)%nat with (S (t - S s)) by lia. exact Hn.
      * intros [Hle Hn]. destruct (Nat.eq_dec s t) as [->|Hne].
        -- rewrite Nat.sub_diag in Hn. simpl in Hn. congruence.
        -- split; [lia|].
           replace (t - s)%nat with (S (t - S s)) in Hn by lia. exact Hn.
Qed.

Lemma indices_from_increasing (l : list Z) (k : Z) :
  forall s, increasing (map Z.of_nat (indices_from s l k)).
Proof.
  induction l as [|x l IH]; intros s.
  - exact I.
  - unfold indices_from. cbn [length seq combine filter snd].
    fold (indices_from (S s) l k) in *.
    destruct (x =? k)%Z; cbn [map fst].
    + change (map fst (filter (fun p => (snd p =? k)%Z)
                         (combine (seq (S s) (length l)) l)))
        with (indices_from (S s) l k).
      split; [|apply IH].
      intros y Hy. apply in_map_iff in Hy. destruct Hy as [t [<- Ht]].
      apply indices_from_spec in Ht. lia.
    + apply IH.
Qed.

(** X20.  [get_cluster_members] leaves the cluster object alone; for an
    unknown solution it raises [KeyError]; otherwise it returns, in
    increasing order, exactly the positions at which the solution's labels
    hold the given cluster number. *)
Theorem get_cluster_members_are_positions
  (self : oe.cluster.cluster) (solution_name : string) (clusterNum : Z) :
  let r := oe.cluster.get_cluster_members solution_name clusterNum self in
  state_of r = self /\
  (dget solution_name (oe.cluster.labels self) = None ->
   result_of r = Raise (KeyError solution_name)) /\
  (forall l, dget solution_name (oe.cluster.labels self) = Some l ->
     exists indexes,
       result_of r = Ok indexes /\
       (forall t, In t indexes <-> nth_error l t = Some clusterNum) /\
       increasing (map Z.of_nat indexes)).
Proof.
  cbv zeta. unfold oe.cluster.get_cluster_members. rewrite bindS_getS.
  unfold bindS, liftW, dlookup, retS, result_of, state_of.
  destruct (dget solution_name (oe.cluster.labels self)) as [l|]; cbn [fst snd].
  - split; [reflexivity|]. split; [discriminate|].
    intros l' H. injection H as <-. exists (indices_of l clusterNum).
    split; [reflexivity|]. split.
    + intros t. change (indices_of l clusterNum) with (indices_from 0 l clusterNum).
      rewrite indices_from_spec, Nat.sub_0_r. split; [tauto | intros; split; [lia|assumption]].
    + apply (indices_from_increasing l clusterNum 0).
  - split; [reflexivity|]. split; [reflexivity | discriminate].
Qed.

(** ** validation.calculate: what a call files, keeps and shares *)

Section CalculateRuns.

Import oe.validation.

Variable silhouette_score : matrix -> list Z -> W f64.

(** A call that gets as far as the metric. *)
Lemma calculate_run (vn cn sn : string) (self : validation) (X : matrix)
  (l : list Z) (func : M val.validation pynum) :
  dmem (composite_key vn sn cn) (validation_ self) = false ->
  dmem "parent" (oe.data.D (dataObj self)) = true ->
  dget sn (oe.data.D (dataObj self)) = Some X ->
  dget cn (oe.cluster.labels (cObj self)) = Some l ->
  val.metric_by_name silhouette_score vn = Some func ->
  calculate silhouette_score vn cn sn self
  = match func (val.init X l) with
    | ((Ok _, w), v) =>
        ((Ok (Some (composite_key vn sn cn)), w),
         add_result (composite_key vn sn cn) (val.validation_ v) (val.description v)
                    sn cn (store_matrix sn (val.dataMatrix v) self))
    | ((Raise e, w), v) =>
        ((Raise e, w), store_matrix sn (val.dataMatrix v) self)
    end.
Proof.
  intros Hnew Hparent HX Hl Hf. unfold calculate. rewrite bindS_getS.
  fold (composite_key vn sn cn). rewrite Hnew.
  unfold dmem. rewrite HX, Hl. cbn [negb].
  erewrite bindS_ret by (apply metrics_available_run; exact Hparent).
  rewrite (metric_named_available silhouette_score vn func Hf). cbn [negb].
  unfold bindS, liftW, dlookup, run_metric, modifyS, retS.
  rewrite HX, Hl, Hf. cbn [ret app].
  destruct (func (val.init X l)) as [[[score|e] w] v]; cbn [app ret].
  - rewrite app_nil_r. reflexivity.
  - reflexivity.
Qed.

End CalculateRuns.

Lemma dset_same {V} (k : string) (v : V) (d : dict V) :
  dget k d = Some v -> dset k v d = d.
Proof.
  induction d as [|[k0 v0] d IH]; simpl; [discriminate|].
  destruct (String.eqb k k0) eqn:E.
  - apply String.eqb_eq in E. subst k0. intros H. injection H as ->. reflexivity.
  - intros H. rewrite (IH H). reflexivity.
Qed.

Section CalculateCases.

Import oe.validation.

Variable silhouette_score : matrix -> list Z -> W f64.

(** The three ways of a call: the result is there already; the call raises
    before any metric ran; the metric runs. *)
Lemma calculate_cases (vn cn sn : string) (self : validation) :
  calculate silhouette_score vn cn sn self = ((Ok None, [already_exists]), self) \/
  (exists e w, calculate silhouette_score vn cn sn self = ((Raise e, w), self)) \/
  (exists X l func,
     dmem (composite_key vn sn cn) (validation_ self) = false /\
     dmem "parent" (oe.data.D (dataObj self)) = true /\
     dget sn (oe.data.D (dataObj self)) = Some X /\
     dget cn (oe.cluster.labels (cObj self)) = Some l /\
     val.metric_by_name silhouette_score vn = Some func).
Proof.
  destruct (dmem (composite_key vn sn cn) (validation_ self)) eqn:Enew.
  { left. apply calculate_cached. exact Enew. }
  right.
  unfold calculate. rewrite bindS_getS. fold (composite_key vn sn cn). rewrite Enew.
  destruct (dmem sn (oe.data.D (dataObj self))) eqn:Es; cbn [negb];
    [|left; eexists; eexists; reflexivity].
  destruct (dmem cn (oe.cluster.labels (cObj self))) eqn:Ec; cbn [negb];
    [|left; eexists; eexists; reflexivity].
  destruct (dmem "parent" (oe.data.D (dataObj self))) eqn:Ep.
  2:{ left. unfold validation_metrics_available. unfold bindS at 1.
      rewrite bindS_getS. unfold bindS at 1, liftW at 1, dlookup at 1.
      unfold dmem in Ep.
      destruct (dget "parent" (oe.data.D (dataObj self))); [discriminate|].
      eexists. eexists. reflexivity. }
  erewrite bindS_ret by (apply metrics_available_run; exact Ep).
  destruct (str_in vn val.validation_metrics_available) eqn:Ev; cbn [negb];
    [|left; eexists; eexists; reflexivity].
  unfold dmem in Es, Ec.
  destruct (dget sn (oe.data.D (dataObj self))) as [X|] eqn:EX; [|discriminate Es].
  destruct (dget cn (oe.cluster.labels (cObj self))) as [l|] eqn:El;
    [|discriminate Ec].
  destruct (val.metric_by_name silhouette_score vn) as [func|] eqn:Ef.
  - right. exists X, l, func. repeat split; reflexivity || assumption.
  - left. unfold bindS, liftW, dlookup, run_metric. rewrite EX, El, Ef.
    eexists. eexists. reflexivity.
Qed.

End CalculateCases.

(** X21.  When the metric itself raises, [calculate] raises the same
    exception and files nothing: the four result dictionaries and the
    cluster object are as before. *)
Theorem calculate_passes_on_metric_failure
  (silhouette_score : matrix -> list Z -> W f64)
  (vn cn sn : string) (self : oe.validation.validation)
  (X : matrix) (l : list Z) (func : M val.validation pynum) (e : exn) :
  dmem (composite_key vn sn cn) (oe.validation.validation_ self) = false ->
  dmem "parent" (oe.data.D (oe.validation.dataObj self)) = true ->
  dget sn (oe.data.D (oe.validation.dataObj self)) = Some X ->
  dget cn (oe.cluster.labels (oe.validation.cObj self)) = Some l ->
  val.metric_by_name silhouette_score vn = Some func ->
  result_of (func (val.init X l)) = Raise e ->
  let r := oe.validation.calculate silhouette_score vn cn sn self in
  result_of r = Raise e /\
  oe.validation.validation_ (state_of r) = oe.validation.validation_ self /\
  oe.validation.description (state_of r) = oe.validation.description self /\
  oe.validation.source_name (state_of r) = oe.validation.source_name self /\
  oe.validation.cluster_name (state_of r) = oe.validation.cluster_name self /\
  oe.validation.cObj (state_of r) = oe.validation.cObj self.
Proof.
  intros Hnew Hp HX Hl Hf Hr r. subst r.
  rewrite (calculate_run silhouette_score vn cn sn self X l func Hnew Hp HX Hl Hf).
  unfold result_of in Hr.
  destruct (func (val.init X l)) as [[[score|e'] w] v]; cbn [fst] in Hr;
    [discriminate Hr|].
  injection Hr as ->. repeat split.
Qed.

Lemma calculate_passes_on_metric_failure_witness :
  let r := oe.validation.calculate no_silhouette "c_index" "km3" "parent"
             fresh_validation in
  result_of r = Raise ZeroDivisionError /\
  oe.validation.validation_ (state_of r) = [].
Proof.
  destruct (calculate_passes_on_metric_failure no_silhouette "c_index" "km3" "parent"
              fresh_validation [[Fin 0]; [Fin 1]; [Fin 2]] [0; 1; 2]%Z val.c_index
              ZeroDivisionError eq_refl eq_refl eq_refl eq_refl eq_refl eq_refl)
    as [H1 [H2 _]].
  split; [exact H1 | exact H2].
Defined.

(** X22.  A call of [calculate] that returns a key leaves every entry
    under another key, in each of the four result dictionaries, as it was,
    and leaves the cluster object as it was. *)
Theorem calculate_keeps_other_results
  (silhouette_score : matrix -> list Z -> W f64)
  (vn cn sn key : string) (self self' : oe.validation.validation)
  (w : list warning) :
  oe.validation.calculate silhouette_score vn cn sn self
    = ((Ok (Some key), w), self') ->
  oe.validation.cObj self' = oe.validation.cObj self /\
  forall other, other <> key ->
    dget other (oe.validation.validation_ self')
      = dget other (oe.validation.validation_ self) /\
    dget other (oe.validation.description self')
      = dget other (oe.validation.description self) /\
    dget other (oe.validation.source_name self')
      = dget other (oe.validation.source_name self) /\
    dget other (oe.validation.cluster_name self')
      = dget other (oe.validation.cluster_name self).
Proof.
  intros H.
  destruct (calculate_cases silhouette_score vn cn sn self)
    as [Hc|[[e [w' Hc]]|[X [l [func [Hnew [Hp [HX [Hl Hf]]]]]]]]];
    try (rewrite Hc in H; discriminate H).
  rewrite (calculate_run silhouette_score vn cn sn self X l func Hnew Hp HX Hl Hf) in H.
  destruct (func (val.init X l)) as [[[score|e] wm] v]; [|discriminate H].
  injection H as <- <- <-. split; [reflexivity|].
  intros other Hne. apply String.eqb_neq in Hne.
  cbn [oe.validation.add_result oe.validation.store_matrix
       oe.validation.validation_ oe.validation.description
       oe.validation.source_name oe.validation.cluster_name].
  rewrite !dget_dset, Hne. repeat split.
Qed.

Lemma calculate_keeps_other_results_witness :
  let first :=
    oe.validation.calculate no_silhouette "Ball_Hall" "km2" "parent" fresh_validation in
  let second :=
    oe.validation.calculate no_silhouette "Ball_Hall" "km3" "parent" (state_of first) in
  dget "Ball_Hall_parent_km2" (oe.validation.validation_ (state_of second))
  = dget "Ball_Hall_parent_km2" (oe.validation.validation_ (state_of first)).
Proof.
  cbv zeta.
  eapply (calculate_keeps_other_results no_silhouette "Ball_Hall" "km3" "parent"
            "Ball_Hall_parent_km3"
            (state_of (oe.validation.calculate no_silhouette "Ball_Hall" "km2" "parent"
                         fresh_validation))
            _ _).
  - reflexivity.
  - discriminate.
Defined.

(** X23.  Unless the metric asked for is [det_ratio] or [log_det_ratio],
    no call of [calculate], whatever its outcome, changes the data object
    or the cluster object. *)
Theorem calculate_keeps_data_object
  (silhouette_score : matrix -> list Z -> W f64)
  (vn cn sn : string) (self : oe.validation.validation) :
  vn <> "det_ratio" ->
  vn <> "log_det_ratio" ->
  let r := oe.validation.calculate silhouette_score vn cn sn self in
  oe.validation.dataObj (state_of r) = oe.validation.dataObj self /\
  oe.validation.cObj (state_of r) = oe.validation.cObj self.
Proof.
  intros H1 H2 r. subst r.
  destruct (calculate_cases silhouette_score vn cn sn self)
    as [Hc|[[e [w' Hc]]|[X [l [func [Hnew [Hp [HX [Hl Hf]]]]]]]]];
    try (rewrite Hc; split; reflexivity).
  rewrite (calculate_run silhouette_score vn cn sn self X l func Hnew Hp HX Hl Hf).
  pose proof (proj2 (metric_frame silhouette_score vn func (val.init X l) Hf) H1 H2)
    as Hd.
  unfold state_of in *.
  destruct (func (val.init X l)) as [[[score|e] wm] v]; cbn [snd] in *;
    cbn [oe.validation.add_result oe.validation.store_matrix
         oe.validation.dataObj oe.validation.cObj val.init val.dataMatrix] in *;
    rewrite Hd, (dset_same sn X _ HX);
    destruct (oe.validation.dataObj self); split; reflexivity.
Qed.

Lemma calculate_keeps_data_object_witness :
  oe.validation.dataObj
    (state_of (oe.validation.calculate no_silhouette "Ball_Hall" "km2" "parent"
                 fresh_validation))
  = three_points.
Proof.
  apply (calculate_keeps_data_object no_silhouette "Ball_Hall" "km2" "parent"
           fresh_validation); discriminate.
Defined.

Lemma append_assoc_ (a b c : string) : ((a ++ b) ++ c = a ++ (b ++ c))%string.
Proof. induction a as [|x a IH]; simpl; [reflexivity | rewrite IH; reflexivity]. Qed.

Lemma composite_key_shift (vn s t c : string) :
  composite_key vn (s ++ "_" ++ t) c = composite_key vn s (t ++ "_" ++ c).
Proof.
  unfold composite_key. f_equal. f_equal. rewrite append_assoc_. reflexivity.
Qed.

(** X24.  The key joins the three names with underscores and so does not
    tell where one name ends: once a result for source [s] and solution
    [t_c] is stored, a request for the same metric on source [s_t] and
    solution [c] finds "its" key taken, warns, returns [None] and computes
    nothing. *)
Theorem calculate_confuses_shared_names
  (silhouette_score : matrix -> list Z -> W f64)
  (vn s t c : string) (self : oe.validation.validation) :
  dmem (composite_key vn s (t ++ "_" ++ c)) (oe.validation.validation_ self) = true ->
  oe.validation.calculate silhouette_score vn c (s ++ "_" ++ t) self
  = ((Ok None, [already_exists]), self).
Proof.
  intros H. apply calculate_cached. rewrite composite_key_shift. exact H.
Qed.

Lemma calculate_confuses_shared_names_witness :
  let first :=
    oe.validation.calculate no_silhouette "Ball_Hall" "pca_km" "zscore" shared_names in
  result_of first = Ok (Some "Ball_Hall_zscore_pca_km") /\
  oe.validation.calculate no_silhouette "Ball_Hall" "km" "zscore_pca" (state_of first)
  = ((Ok None, [already_exists]), state_of first).
Proof.
  cbv zeta. split; [reflexivity|].
  apply (calculate_confuses_shared_names no_silhouette "Ball_Hall" "zscore" "pca" "km").
  reflexivity.
Defined.

(** ** The data class *)

Lemma errors_flag (x : list pyval) :
  forall e,
    fold_left (fun errors val =>
                 if negb (oe.data.is_int_or_float val) then true else errors) x e
    = e || negb (forallb oe.data.is_int_or_float x).
Proof.
  induction x as [|v x IH]; intros e; cbn [fold_left forallb].
  - rewrite orb_false_r. reflexivity.
  - rewrite IH. destruct (oe.data.is_int_or_float v), e; reflexivity.
Qed.

(** X25.  [data(df, x)] on a frame with at least one row raises
    [ValueError] when [x] has not one entry per column.  Otherwise it files
    the frame under 'parent', keeps [x] as the labels, and files as x-axis
    values [x] itself when all of its entries are ints or floats and
    [0 .. len(x)-1] when one is not: in both cases numbers, one per
    column. *)
Theorem data_init_x_axis (df : matrix) (x : list pyval) :
  df <> [] ->
  (length x <> ncols df ->
   exists msg, oe.data.init df x = raise (ValueError msg)) /\
  (length x = ncols df ->
   exists xVals,
     oe.data.init df x
       = ret (oe.data.mk [("parent", df)],
              oe.data.mk_attributes df [("parent", xVals)] [("parent", [])] x) /\
     length xVals = ncols df /\
     forallb oe.data.is_int_or_float xVals = true /\
     (forallb oe.data.is_int_or_float x = true -> xVals = x) /\
     (forallb oe.data.is_int_or_float x = false ->
      xVals = map VInt (range_ (Z.of_nat (length x))))).
Proof.
  intros _. unfold oe.data.init. cbv zeta. split.
  - intros Hne. apply Nat.eqb_neq in Hne. rewrite Hne. eexists. reflexivity.
  - intros He. rewrite (proj2 (Nat.eqb_eq _ _) He). cbn [negb].
    rewrite errors_flag. cbn [orb].
    destruct (forallb oe.data.is_int_or_float x) eqn:E; cbn [negb].
    + exists x. repeat split; try reflexivity; try assumption. discriminate.
    + exists (map VInt (range_ (Z.of_nat (length x)))).
      split; [reflexivity|]. split.
      { rewrite length_map, range_length, Nat2Z.id. exact He. }
      split.
      { rewrite forallb_forall. intros v Hv. apply in_map_iff in Hv.
        destruct Hv as [z [<- _]]. reflexivity. }
      split; [discriminate | reflexivity].
Qed.

Lemma data_init_x_axis_witness :
  exists xVals,
    oe.data.init [[Fin 1; Fin 2]; [Fin 3; Fin 4]] [VStr "a"; VStr "b"]
      = ret (oe.data.mk [("parent", [[Fin 1; Fin 2]; [Fin 3; Fin 4]])],
             oe.data.mk_attributes [[Fin 1; Fin 2]; [Fin 3; Fin 4]]
               [("parent", xVals)] [("parent", [])] [VStr "a"; VStr "b"]) /\
    xVals = [VInt 0; VInt 1].
Proof.
  destruct (data_init_x_axis [[Fin 1; Fin 2]; [Fin 3; Fin 4]] [VStr "a"; VStr "b"])
    as [_ H]; [discriminate|].
  destruct (H eq_refl) as [xVals [H1 [_ [_ [_ H2]]]]].
  exists xVals. split; [exact H1 | exact (H2 eq_refl)].
Defined.

Lemma covered_not_proper (l cs : list Z) :
  (forall z, In z l -> In z cs) ->
  oe.data.proper_subset cs (np_unique l) = false.
Proof.
  intros H. unfold oe.data.proper_subset.
  assert (G : existsb (fun z => negb (existsb (Z.eqb z) cs)) (np_unique l) = false).
  { apply not_true_is_false. intros Hex. apply existsb_exists in Hex.
    destruct Hex as [z [Hz Hn]]. apply (proj1 (np_unique_in z l)) in Hz.
    apply H in Hz.
    assert (Hc : existsb (Z.eqb z) cs = true)
      by (apply existsb_exists; exists z; split; [exact Hz | apply Z.eqb_refl]).
    rewrite Hc in Hn. discriminate. }
  rewrite G. apply andb_false_r.
Qed.

(** X26.  [plot_data] accepts [clusters_to_plot] only when it is a proper
    subset of the classes in [class_labels]: a list that names every class
    (all of them, say) raises [ValueError] before anything is drawn. *)
Theorem plot_data_rejects_every_cluster
  (figure : Type)
  (draw : Z -> string -> oe.data.data -> oe.data.attributes ->
          list Z -> list Z -> string -> W figure)
  (source_name : string) (fig_num : Z) (title : option string)
  (class_labels clusters_to_plot : list Z)
  (self : oe.data.data) (a : oe.data.attributes) (X : matrix) :
  dget source_name (oe.data.D self) = Some X ->
  (forall z, In z class_labels -> In z clusters_to_plot) ->
  oe.data.plot_data figure draw source_name fig_num title
    (Some class_labels) (Some clusters_to_plot) self a
  = raise (ValueError
      "ERROR: the clusters to plot are not a direct match to possible clusters in plot_data").
Proof.
  intros HX Hall. unfold oe.data.plot_data, dlookup. rewrite HX, bind_ret_l.
  cbv zeta. rewrite (covered_not_proper _ _ Hall). reflexivity.
Qed.

Lemma plot_data_rejects_every_cluster_witness :
  oe.data.plot_data unit (fun _ _ _ _ _ _ _ => ret tt) "parent" 1 None
    (Some [0; 1; 1]%Z) (Some [0; 1]%Z) three_points
    (oe.data.mk_attributes [] [] [] [])
  = raise (ValueError
      "ERROR: the clusters to plot are not a direct match to possible clusters in plot_data").
Proof.
  apply (plot_data_rejects_every_cluster unit (fun _ _ _ _ _ _ _ => ret tt)
           "parent" 1 None [0; 1; 1]%Z [0; 1]%Z three_points
           (oe.data.mk_attributes [] [] [] []) [[Fin 0]; [Fin 1]; [Fin 2]] eq_refl).
  simpl. intros z Hz. lia.
Defined.
